(** * AIJ-Connect: the advisory normaliser, the decision classifier, the
    visit and intake forms, the login and the patient chatbot, embedded
    from [src/mobile_app/ui_visita.py], [src/mobile_app/patient_bot.py],
    [src/mobile_app/auth.py] and [src/mobile_app/ui_alta.py].

    Python data is modelled as the code sees it: a [str] is a sequence of
    Unicode code points, a [dict] is an insertion-ordered association list,
    `None`, booleans, numbers, lists and dicts are the constructors of
    [value].  Exceptions are explicit results. *)

From Stdlib Require Import List NArith ZArith Bool Lia.
From Stdlib Require Import Strings.String Strings.Byte.
From Stdlib Require Import Numbers.DecimalString.
Import ListNotations.

(* ====================================================================== *)
(** ** Python strings *)
(* ====================================================================== *)

Module PyStr.

Local Open Scope N_scope.

(** A Python [str]: its code points, in order. *)
Definition str := list N.

(** Source literals are written as Rocq strings (UTF-8 bytes) and decoded. *)
Fixpoint utf8_decode (bs : list N) : str :=
  match bs with
  | [] => []
  | b :: r =>
      if b <? 128 then b :: utf8_decode r
      else if b <? 224 then
        match r with
        | b1 :: r' => ((b - 192) * 64 + (b1 - 128)) :: utf8_decode r'
        | _ => []
        end
      else if b <? 240 then
        match r with
        | b1 :: b2 :: r' =>
            ((b - 224) * 4096 + (b1 - 128) * 64 + (b2 - 128)) :: utf8_decode r'
        | _ => []
        end
      else
        match r with
        | b1 :: b2 :: b3 :: r' =>
            ((b - 240) * 262144 + (b1 - 128) * 4096 + (b2 - 128) * 64 + (b3 - 128))
              :: utf8_decode r'
        | _ => []
        end
  end.

Definition u8 (s : string) : str :=
  utf8_decode (map (fun b => N.of_nat (Byte.to_nat b)) (list_byte_of_string s)).

Arguments u8 s%_string.

(** [a == b] on strings. *)
Fixpoint str_eqb (a b : str) : bool :=
  match a, b with
  | [], [] => true
  | x :: a', y :: b' => (x =? y) && str_eqb a' b'
  | _, _ => false
  end.

(** [x in xs] for a list of strings. *)
Definition str_in (x : str) (xs : list str) : bool := existsb (str_eqb x) xs.

(** The characters [str.strip()] removes and the regex class [\s] accepts:
    Unicode white space. *)
Definition is_space (c : N) : bool :=
  ((9 <=? c) && (c <=? 13)) || ((28 <=? c) && (c <=? 32))
  || (c =? 133) || (c =? 160) || (c =? 5760)
  || ((8192 <=? c) && (c <=? 8202))
  || (c =? 8232) || (c =? 8233) || (c =? 8239) || (c =? 8287) || (c =? 12288).

Fixpoint drop_while (p : N -> bool) (s : str) : str :=
  match s with
  | [] => []
  | c :: t => if p c then drop_while p t else s
  end.

(** The tables below are those of the Unicode character database that
    CPython 3.11 carries (Unicode 14.0), which [str.lower()] and the regex
    classes read.  A table of ranges lists [(first, last)] in increasing
    order. *)
Fixpoint en_rangos (t : list (N * N)) (c : N) : bool :=
  match t with
  | [] => false
  | (lo, hi) :: r =>
      if c <? lo then false else if c <=? hi then true else en_rangos r c
  end.

(** The code points with a lowercase mapping of one code point:
    [(first, last, step, image of first)]; every [step]-th code point from
    [first] to [last] is mapped, at the same distance. *)
Definition tabla_lower : list (N * N * N * N) :=
  [
    (65, 90, 1, 97); (192, 214, 1, 224); (216, 222, 1, 248);
    (256, 302, 2, 257); (306, 310, 2, 307); (313, 327, 2, 314);
    (330, 374, 2, 331); (376, 376, 1, 255); (377, 381, 2, 378);
    (385, 385, 1, 595); (386, 388, 2, 387); (390, 390, 1, 596);
    (391, 391, 1, 392); (393, 394, 1, 598); (395, 395, 1, 396);
    (398, 398, 1, 477); (399, 399, 1, 601); (400, 400, 1, 603);
    (401, 401, 1, 402); (403, 403, 1, 608); (404, 404, 1, 611);
    (406, 406, 1, 617); (407, 407, 1, 616); (408, 408, 1, 409);
    (412, 412, 1, 623); (413, 413, 1, 626); (415, 415, 1, 629);
    (416, 420, 2, 417); (422, 422, 1, 640); (423, 423, 1, 424);
    (425, 425, 1, 643); (428, 428, 1, 429); (430, 430, 1, 648);
    (431, 431, 1, 432); (433, 434, 1, 650); (435, 437, 2, 436);
    (439, 439, 1, 658); (440, 440, 1, 441); (444, 444, 1, 445);
    (452, 452, 1, 454); (453, 453, 1, 454); (455, 455, 1, 457);
    (456, 456, 1, 457); (458, 458, 1, 460); (459, 475, 2, 460);
    (478, 494, 2, 479); (497, 497, 1, 499); (498, 500, 2, 499);
    (502, 502, 1, 405); (503, 503, 1, 447); (504, 542, 2, 505);
    (544, 544, 1, 414); (546, 562, 2, 547); (570, 570, 1, 11365);
    (571, 571, 1, 572); (573, 573, 1, 410); (574, 574, 1, 11366);
    (577, 577, 1, 578); (579, 579, 1, 384); (580, 580, 1, 649);
    (581, 581, 1, 652); (582, 590, 2, 583); (880, 882, 2, 881);
    (886, 886, 1, 887); (895, 895, 1, 1011); (902, 902, 1, 940);
    (904, 906, 1, 941); (908, 908, 1, 972); (910, 911, 1, 973);
    (913, 929, 1, 945); (932, 939, 1, 964); (975, 975, 1, 983);
    (984, 1006, 2, 985); (1012, 1012, 1, 952); (1015, 1015, 1, 1016);
    (1017, 1017, 1, 1010); (1018, 1018, 1, 1019); (1021, 1023, 1, 891);
    (1024, 1039, 1, 1104); (1040, 1071, 1, 1072); (1120, 1152, 2, 1121);
    (1162, 1214, 2, 1163); (1216, 1216, 1, 1231); (1217, 1229, 2, 1218);
    (1232, 1326, 2, 1233); (1329, 1366, 1, 1377); (4256, 4293, 1, 11520);
    (4295, 4295, 1, 11559); (4301, 4301, 1, 11565); (5024, 5103, 1, 43888);
    (5104, 5109, 1, 5112); (7312, 7354, 1, 4304); (7357, 7359, 1, 4349);
    (7680, 7828, 2, 7681); (7838, 7838, 1, 223); (7840, 7934, 2, 7841);
    (7944, 7951, 1, 7936); (7960, 7965, 1, 7952); (7976, 7983, 1, 7968);
    (7992, 7999, 1, 7984); (8008, 8013, 1, 8000); (8025, 8031, 2, 8017);
    (8040, 8047, 1, 8032); (8072, 8079, 1, 8064); (8088, 8095, 1, 8080);
    (8104, 8111, 1, 8096); (8120, 8121, 1, 8112); (8122, 8123, 1, 8048);
    (8124, 8124, 1, 8115); (8136, 8139, 1, 8050); (8140, 8140, 1, 8131);
    (8152, 8153, 1, 8144); (8154, 8155, 1, 8054); (8168, 8169, 1, 8160);
    (8170, 8171, 1, 8058); (8172, 8172, 1, 8165); (8184, 8185, 1, 8056);
    (8186, 8187, 1, 8060); (8188, 8188, 1, 8179); (8486, 8486, 1, 969);
    (8490, 8490, 1, 107); (8491, 8491, 1, 229); (8498, 8498, 1, 8526);
    (8544, 8559, 1, 8560); (8579, 8579, 1, 8580); (9398, 9423, 1, 9424);
    (11264, 11311, 1, 11312); (11360, 11360, 1, 11361);
    (11362, 11362, 1, 619); (11363, 11363, 1, 7549); (11364, 11364, 1, 637);
    (11367, 11371, 2, 11368); (11373, 11373, 1, 593); (11374, 11374, 1, 625);
    (11375, 11375, 1, 592); (11376, 11376, 1, 594); (11378, 11378, 1, 11379);
    (11381, 11381, 1, 11382); (11390, 11391, 1, 575);
    (11392, 11490, 2, 11393); (11499, 11501, 2, 11500);
    (11506, 11506, 1, 11507); (42560, 42604, 2, 42561);
    (42624, 42650, 2, 42625); (42786, 42798, 2, 42787);
    (42802, 42862, 2, 42803); (42873, 42875, 2, 42874);
    (42877, 42877, 1, 7545); (42878, 42886, 2, 42879);
    (42891, 42891, 1, 42892); (42893, 42893, 1, 613);
    (42896, 42898, 2, 42897); (42902, 42920, 2, 42903);
    (42922, 42922, 1, 614); (42923, 42923, 1, 604); (42924, 42924, 1, 609);
    (42925, 42925, 1, 620); (42926, 42926, 1, 618); (42928, 42928, 1, 670);
    (42929, 42929, 1, 647); (42930, 42930, 1, 669); (42931, 42931, 1, 43859);
    (42932, 42946, 2, 42933); (42948, 42948, 1, 42900);
    (42949, 42949, 1, 642); (42950, 42950, 1, 7566); (42951, 42953, 2, 42952);
    (42960, 42960, 1, 42961); (42966, 42968, 2, 42967);
    (42997, 42997, 1, 42998); (65313, 65338, 1, 65345);
    (66560, 66599, 1, 66600); (66736, 66771, 1, 66776);
    (66928, 66938, 1, 66967); (66940, 66954, 1, 66979);
    (66956, 66962, 1, 66995); (66964, 66965, 1, 67003);
    (68736, 68786, 1, 68800); (71840, 71871, 1, 71872);
    (93760, 93791, 1, 93792); (125184, 125217, 1, 125218)
  ].

(** The property Cased. *)
Definition tabla_cased : list (N * N) :=
  [
    (65, 90); (97, 122); (170, 170); (181, 181); (186, 186); (192, 214);
    (216, 246); (248, 442); (444, 447); (452, 659); (661, 696); (704, 705);
    (736, 740); (837, 837); (880, 883); (886, 887); (890, 893); (895, 895);
    (902, 902); (904, 906); (908, 908); (910, 929); (931, 1013); (1015, 1153);
    (1162, 1327); (1329, 1366); (1376, 1416); (4256, 4293); (4295, 4295);
    (4301, 4301); (4304, 4346); (4349, 4351); (5024, 5109); (5112, 5117);
    (7296, 7304); (7312, 7354); (7357, 7359); (7424, 7615); (7680, 7957);
    (7960, 7965); (7968, 8005); (8008, 8013); (8016, 8023); (8025, 8025);
    (8027, 8027); (8029, 8029); (8031, 8061); (8064, 8116); (8118, 8124);
    (8126, 8126); (8130, 8132); (8134, 8140); (8144, 8147); (8150, 8155);
    (8160, 8172); (8178, 8180); (8182, 8188); (8305, 8305); (8319, 8319);
    (8336, 8348); (8450, 8450); (8455, 8455); (8458, 8467); (8469, 8469);
    (8473, 8477); (8484, 8484); (8486, 8486); (8488, 8488); (8490, 8493);
    (8495, 8500); (8505, 8505); (8508, 8511); (8517, 8521); (8526, 8526);
    (8544, 8575); (8579, 8580); (9398, 9449); (11264, 11492); (11499, 11502);
    (11506, 11507); (11520, 11557); (11559, 11559); (11565, 11565);
    (42560, 42605); (42624, 42653); (42786, 42887); (42891, 42894);
    (42896, 42954); (42960, 42961); (42963, 42963); (42965, 42969);
    (42997, 42998); (43000, 43002); (43824, 43866); (43868, 43880);
    (43888, 43967); (64256, 64262); (64275, 64279); (65313, 65338);
    (65345, 65370); (66560, 66639); (66736, 66771); (66776, 66811);
    (66928, 66938); (66940, 66954); (66956, 66962); (66964, 66965);
    (66967, 66977); (66979, 66993); (66995, 67001); (67003, 67004);
    (67456, 67456); (67459, 67461); (67463, 67504); (67506, 67514);
    (68736, 68786); (68800, 68850); (71840, 71903); (93760, 93823);
    (119808, 119892); (119894, 119964); (119966, 119967); (119970, 119970);
    (119973, 119974); (119977, 119980); (119982, 119993); (119995, 119995);
    (119997, 120003); (120005, 120069); (120071, 120074); (120077, 120084);
    (120086, 120092); (120094, 120121); (120123, 120126); (120128, 120132);
    (120134, 120134); (120138, 120144); (120146, 120485); (120488, 120512);
    (120514, 120538); (120540, 120570); (120572, 120596); (120598, 120628);
    (120630, 120654); (120656, 120686); (120688, 120712); (120714, 120744);
    (120746, 120770); (120772, 120779); (122624, 122633); (122635, 122654);
    (125184, 125251); (127280, 127305); (127312, 127337); (127344, 127369)
  ].

(** The property Case_Ignorable. *)
Definition tabla_case_ignorable : list (N * N) :=
  [
    (39, 39); (46, 46); (58, 58); (94, 94); (96, 96); (168, 168); (173, 173);
    (175, 175); (180, 180); (183, 184); (688, 879); (884, 885); (890, 890);
    (900, 901); (903, 903); (1155, 1161); (1369, 1369); (1375, 1375);
    (1425, 1469); (1471, 1471); (1473, 1474); (1476, 1477); (1479, 1479);
    (1524, 1524); (1536, 1541); (1552, 1562); (1564, 1564); (1600, 1600);
    (1611, 1631); (1648, 1648); (1750, 1757); (1759, 1768); (1770, 1773);
    (1807, 1807); (1809, 1809); (1840, 1866); (1958, 1968); (2027, 2037);
    (2042, 2042); (2045, 2045); (2070, 2093); (2137, 2139); (2184, 2184);
    (2192, 2193); (2200, 2207); (2249, 2306); (2362, 2362); (2364, 2364);
    (2369, 2376); (2381, 2381); (2385, 2391); (2402, 2403); (2417, 2417);
    (2433, 2433); (2492, 2492); (2497, 2500); (2509, 2509); (2530, 2531);
    (2558, 2558); (2561, 2562); (2620, 2620); (2625, 2626); (2631, 2632);
    (2635, 2637); (2641, 2641); (2672, 2673); (2677, 2677); (2689, 2690);
    (2748, 2748); (2753, 2757); (2759, 2760); (2765, 2765); (2786, 2787);
    (2810, 2815); (2817, 2817); (2876, 2876); (2879, 2879); (2881, 2884);
    (2893, 2893); (2901, 2902); (2914, 2915); (2946, 2946); (3008, 3008);
    (3021, 3021); (3072, 3072); (3076, 3076); (3132, 3132); (3134, 3136);
    (3142, 3144); (3146, 3149); (3157, 3158); (3170, 3171); (3201, 3201);
    (3260, 3260); (3263, 3263); (3270, 3270); (3276, 3277); (3298, 3299);
    (3328, 3329); (3387, 3388); (3393, 3396); (3405, 3405); (3426, 3427);
    (3457, 3457); (3530, 3530); (3538, 3540); (3542, 3542); (3633, 3633);
    (3636, 3642); (3654, 3662); (3761, 3761); (3764, 3772); (3782, 3782);
    (3784, 3789); (3864, 3865); (3893, 3893); (3895, 3895); (3897, 3897);
    (3953, 3966); (3968, 3972); (3974, 3975); (3981, 3991); (3993, 4028);
    (4038, 4038); (4141, 4144); (4146, 4151); (4153, 4154); (4157, 4158);
    (4184, 4185); (4190, 4192); (4209, 4212); (4226, 4226); (4229, 4230);
    (4237, 4237); (4253, 4253); (4348, 4348); (4957, 4959); (5906, 5908);
    (5938, 5939); (5970, 5971); (6002, 6003); (6068, 6069); (6071, 6077);
    (6086, 6086); (6089, 6099); (6103, 6103); (6109, 6109); (6155, 6159);
    (6211, 6211); (6277, 6278); (6313, 6313); (6432, 6434); (6439, 6440);
    (6450, 6450); (6457, 6459); (6679, 6680); (6683, 6683); (6742, 6742);
    (6744, 6750); (6752, 6752); (6754, 6754); (6757, 6764); (6771, 6780);
    (6783, 6783); (6823, 6823); (6832, 6862); (6912, 6915); (6964, 6964);
    (6966, 6970); (6972, 6972); (6978, 6978); (7019, 7027); (7040, 7041);
    (7074, 7077); (7080, 7081); (7083, 7085); (7142, 7142); (7144, 7145);
    (7149, 7149); (7151, 7153); (7212, 7219); (7222, 7223); (7288, 7293);
    (7376, 7378); (7380, 7392); (7394, 7400); (7405, 7405); (7412, 7412);
    (7416, 7417); (7468, 7530); (7544, 7544); (7579, 7679); (8125, 8125);
    (8127, 8129); (8141, 8143); (8157, 8159); (8173, 8175); (8189, 8190);
    (8203, 8207); (8216, 8217); (8228, 8228); (8231, 8231); (8234, 8238);
    (8288, 8292); (8294, 8303); (8305, 8305); (8319, 8319); (8336, 8348);
    (8400, 8432); (11388, 11389); (11503, 11505); (11631, 11631);
    (11647, 11647); (11744, 11775); (11823, 11823); (12293, 12293);
    (12330, 12333); (12337, 12341); (12347, 12347); (12441, 12446);
    (12540, 12542); (40981, 40981); (42232, 42237); (42508, 42508);
    (42607, 42610); (42612, 42621); (42623, 42623); (42652, 42655);
    (42736, 42737); (42752, 42785); (42864, 42864); (42888, 42890);
    (42994, 42996); (43000, 43001); (43010, 43010); (43014, 43014);
    (43019, 43019); (43045, 43046); (43052, 43052); (43204, 43205);
    (43232, 43249); (43263, 43263); (43302, 43309); (43335, 43345);
    (43392, 43394); (43443, 43443); (43446, 43449); (43452, 43453);
    (43471, 43471); (43493, 43494); (43561, 43566); (43569, 43570);
    (43573, 43574); (43587, 43587); (43596, 43596); (43632, 43632);
    (43644, 43644); (43696, 43696); (43698, 43700); (43703, 43704);
    (43710, 43711); (43713, 43713); (43741, 43741); (43756, 43757);
    (43763, 43764); (43766, 43766); (43867, 43871); (43881, 43883);
    (44005, 44005); (44008, 44008); (44013, 44013); (64286, 64286);
    (64434, 64450); (65024, 65039); (65043, 65043); (65056, 65071);
    (65106, 65106); (65109, 65109); (65279, 65279); (65287, 65287);
    (65294, 65294); (65306, 65306); (65342, 65342); (65344, 65344);
    (65392, 65392); (65438, 65439); (65507, 65507); (65529, 65531);
    (66045, 66045); (66272, 66272); (66422, 66426); (67456, 67461);
    (67463, 67504); (67506, 67514); (68097, 68099); (68101, 68102);
    (68108, 68111); (68152, 68154); (68159, 68159); (68325, 68326);
    (68900, 68903); (69291, 69292); (69446, 69456); (69506, 69509);
    (69633, 69633); (69688, 69702); (69744, 69744); (69747, 69748);
    (69759, 69761); (69811, 69814); (69817, 69818); (69821, 69821);
    (69826, 69826); (69837, 69837); (69888, 69890); (69927, 69931);
    (69933, 69940); (70003, 70003); (70016, 70017); (70070, 70078);
    (70089, 70092); (70095, 70095); (70191, 70193); (70196, 70196);
    (70198, 70199); (70206, 70206); (70367, 70367); (70371, 70378);
    (70400, 70401); (70459, 70460); (70464, 70464); (70502, 70508);
    (70512, 70516); (70712, 70719); (70722, 70724); (70726, 70726);
    (70750, 70750); (70835, 70840); (70842, 70842); (70847, 70848);
    (70850, 70851); (71090, 71093); (71100, 71101); (71103, 71104);
    (71132, 71133); (71219, 71226); (71229, 71229); (71231, 71232);
    (71339, 71339); (71341, 71341); (71344, 71349); (71351, 71351);
    (71453, 71455); (71458, 71461); (71463, 71467); (71727, 71735);
    (71737, 71738); (71995, 71996); (71998, 71998); (72003, 72003);
    (72148, 72151); (72154, 72155); (72160, 72160); (72193, 72202);
    (72243, 72248); (72251, 72254); (72263, 72263); (72273, 72278);
    (72281, 72283); (72330, 72342); (72344, 72345); (72752, 72758);
    (72760, 72765); (72767, 72767); (72850, 72871); (72874, 72880);
    (72882, 72883); (72885, 72886); (73009, 73014); (73018, 73018);
    (73020, 73021); (73023, 73029); (73031, 73031); (73104, 73105);
    (73109, 73109); (73111, 73111); (73459, 73460); (78896, 78904);
    (92912, 92916); (92976, 92982); (92992, 92995); (94031, 94031);
    (94095, 94111); (94176, 94177); (94179, 94180); (110576, 110579);
    (110581, 110587); (110589, 110590); (113821, 113822); (113824, 113827);
    (118528, 118573); (118576, 118598); (119143, 119145); (119155, 119170);
    (119173, 119179); (119210, 119213); (119362, 119364); (121344, 121398);
    (121403, 121452); (121461, 121461); (121476, 121476); (121499, 121503);
    (121505, 121519); (122880, 122886); (122888, 122904); (122907, 122913);
    (122915, 122916); (122918, 122922); (123184, 123197); (123566, 123566);
    (123628, 123631); (125136, 125142); (125252, 125259); (127995, 127999);
    (917505, 917505); (917536, 917631); (917760, 917999)
  ].

(** The decimal digits (category Nd). *)
Definition tabla_decimal : list (N * N) :=
  [
    (48, 57); (1632, 1641); (1776, 1785); (1984, 1993); (2406, 2415);
    (2534, 2543); (2662, 2671); (2790, 2799); (2918, 2927); (3046, 3055);
    (3174, 3183); (3302, 3311); (3430, 3439); (3558, 3567); (3664, 3673);
    (3792, 3801); (3872, 3881); (4160, 4169); (4240, 4249); (6112, 6121);
    (6160, 6169); (6470, 6479); (6608, 6617); (6784, 6793); (6800, 6809);
    (6992, 7001); (7088, 7097); (7232, 7241); (7248, 7257); (42528, 42537);
    (43216, 43225); (43264, 43273); (43472, 43481); (43504, 43513);
    (43600, 43609); (44016, 44025); (65296, 65305); (66720, 66729);
    (68912, 68921); (69734, 69743); (69872, 69881); (69942, 69951);
    (70096, 70105); (70384, 70393); (70736, 70745); (70864, 70873);
    (71248, 71257); (71360, 71369); (71472, 71481); (71904, 71913);
    (72016, 72025); (72784, 72793); (73040, 73049); (73120, 73129);
    (92768, 92777); (92864, 92873); (93008, 93017); (120782, 120831);
    (123200, 123209); (123632, 123641); (125264, 125273); (130032, 130041)
  ].

(** The regex class [\d], and its negation in [[^\d]]: the decimal digits
    of every script. *)
Definition is_digit (c : N) : bool := en_rangos tabla_decimal c.

Definition is_cased (c : N) : bool := en_rangos tabla_cased c.

Definition is_case_ignorable (c : N) : bool := en_rangos tabla_case_ignorable c.

Fixpoint busca_lower (t : list (N * N * N * N)) (c : N) : option N :=
  match t with
  | [] => None
  | (lo, hi, paso, destino) :: r =>
      if c <? lo then None
      else if (c <=? hi) && ((c - lo) mod paso =? 0) then Some (destino + (c - lo))
      else busca_lower r c
  end.

(** The lowercase of a code point, where it is one code point. *)
Definition lower_cp (c : N) : N :=
  match busca_lower tabla_lower c with
  | Some d => d
  | None => c
  end.

(** The lowercase of a code point other than the capital sigma: U+0130 is
    the one code point whose lowercase has two. *)
Definition to_lower_full (c : N) : str :=
  if c =? 304 then [105; 775] else [lower_cp c].

(** The nearest code point that is not case-ignorable is cased. *)
Definition cased_antes (antes : str) : bool :=
  match drop_while is_case_ignorable antes with
  | [] => false
  | c :: _ => is_cased c
  end.

(** There is no code point that is not case-ignorable, or the nearest one
    is not cased. *)
Definition sin_cased_despues (despues : str) : bool :=
  match drop_while is_case_ignorable despues with
  | [] => true
  | c :: _ => negb (is_cased c)
  end.

(** The lowercase of the capital sigma U+03A3: the final sigma U+03C2
    when the nearest code point before it that is not case-ignorable is
    cased and the nearest one after it, if any, is not; U+03C3 otherwise.
    [antes] holds the code points before the sigma, nearest first. *)
Definition handle_capital_sigma (antes despues : str) : N :=
  let final_sigma := cased_antes antes && sin_cased_despues despues in
  if final_sigma then 962 else 963.

(** [lower_aux antes s despues]: the lowercase of the part [s] of a text,
    [antes] being what stands before it (nearest first) and [despues] what
    stands after it. *)
Fixpoint lower_aux (antes s despues : str) : str :=
  match s with
  | [] => []
  | c :: r =>
      (if c =? 931 then [handle_capital_sigma antes (r ++ despues)]
       else to_lower_full c)
      ++ lower_aux (c :: antes) r despues
  end.

(** [str.lower()]. *)
Definition lower (s : str) : str := lower_aux [] s [].

(** [s.strip()]. *)
Definition strip (s : str) : str :=
  rev (drop_while is_space (rev (drop_while is_space s))).

(** [s.startswith(pre)]. *)
Fixpoint starts_with (pre s : str) : bool :=
  match pre, s with
  | [], _ => true
  | _ :: _, [] => false
  | x :: pre', y :: s' => (x =? y) && starts_with pre' s'
  end.

(** [sub in s]. *)
Fixpoint contains (sub s : str) : bool :=
  starts_with sub s
  || match s with
     | [] => false
     | _ :: t => contains sub t
     end.

(** [any(x in s for x in xs)]. *)
Definition any_in (xs : list str) (s : str) : bool :=
  existsb (fun x => contains x s) xs.

(** [s.find(sub)]: the first index where [sub] occurs, or -1. *)
Fixpoint find_from (sub s : str) (i : Z) : Z :=
  if starts_with sub s then i
  else match s with
       | [] => (-1)%Z
       | _ :: t => find_from sub t (i + 1)%Z
       end.

Definition find (sub s : str) : Z := find_from sub s 0%Z.

(** [s[i:j]], with Python's handling of negative and out-of-range bounds. *)
Definition clamp_index (n i : Z) : Z :=
  if (i <? 0)%Z then Z.max 0 (i + n) else Z.min i n.

Definition slice (s : str) (i j : Z) : str :=
  let n := Z.of_nat (List.length s) in
  let a := clamp_index n i in
  let b := clamp_index n j in
  firstn (Z.to_nat (b - a)) (skipn (Z.to_nat a) s).

(** [s.replace(old, new)] for a non-empty [old]: occurrences are replaced
    from the left and do not overlap.  [skip] counts the characters of the
    occurrence just replaced that are still to be passed over. *)
Fixpoint replace_aux (old new : str) (skip : nat) (s : str) : str :=
  match s with
  | [] => []
  | c :: t =>
      match skip with
      | S k => replace_aux old new k t
      | O =>
          if starts_with old s
          then new ++ replace_aux old new (List.length old - 1) t
          else c :: replace_aux old new 0 t
      end
  end.

Definition replace (old new s : str) : str := replace_aux old new 0 s.

(** [s.split(sep)] for a non-empty [sep]; [cur] is the piece being read,
    reversed. *)
Fixpoint split_aux (sep : str) (skip : nat) (cur : str) (s : str) : list str :=
  match s with
  | [] => [rev cur]
  | c :: t =>
      match skip with
      | S k => split_aux sep k cur t
      | O =>
          if starts_with sep s
          then rev cur :: split_aux sep (List.length sep - 1) [] t
          else split_aux sep 0 (c :: cur) t
      end
  end.

Definition split (sep s : str) : list str := split_aux sep 0 [] s.

(** [str(n)] for an integer. *)
Definition str_of_Z (z : Z) : str :=
  map (fun b => N.of_nat (Byte.to_nat b))
      (list_byte_of_string (NilZero.string_of_int (Z.to_int z))).

End PyStr.

Import PyStr.

(* ====================================================================== *)
(** ** Python values *)
(* ====================================================================== *)

Module PyData.

(** The data a JSON payload or a visit record is made of.  A float is kept
    as its IEEE-754 bit pattern; a dict keeps its insertion order. *)
#[warnings="-register-all"]
Inductive value : Type :=
| VNone
| VBool (b : bool)
| VInt (z : Z)
| VFloat (bits : N)
| VStr (s : str)
| VList (l : list value)
| VDict (d : list (str * value)).

Definition dict := list (str * value).

(** The first binding of [k]. *)
Fixpoint dict_lookup (k : str) (d : dict) : option value :=
  match d with
  | [] => None
  | (k', v) :: d' => if str_eqb k k' then Some v else dict_lookup k d'
  end.

(** [k in d]. *)
Definition dict_has (k : str) (d : dict) : bool :=
  match dict_lookup k d with
  | Some _ => true
  | None => false
  end.

(** [d.get(k, default)]. *)
Definition get_or (d : dict) (k : str) (default : value) : value :=
  match dict_lookup k d with
  | Some v => v
  | None => default
  end.

(** [d.get(k)]. *)
Definition get (d : dict) (k : str) : value := get_or d k VNone.

(** Truth value of an object; [-0.0] is the bit pattern [2^63]. *)
Definition truthy (v : value) : bool :=
  match v with
  | VNone => false
  | VBool b => b
  | VInt z => negb (z =? 0)%Z
  | VFloat bits => negb ((bits =? 0)%N || (bits =? 9223372036854775808)%N)
  | VStr s => negb (str_eqb s [])
  | VList l => match l with [] => false | _ => true end
  | VDict d => match d with [] => false | _ => true end
  end.

(** [a or b]. *)
Definition py_or (a b : value) : value := if truthy a then a else b.

(** [v is True]. *)
Definition is_True (v : value) : bool :=
  match v with
  | VBool true => true
  | _ => false
  end.

(** [v is None]. *)
Definition is_None (v : value) : bool :=
  match v with
  | VNone => true
  | _ => false
  end.

(** [v == s] for a string literal [s]. *)
Definition eq_str (v : value) (s : str) : bool :=
  match v with
  | VStr t => str_eqb t s
  | _ => false
  end.

(** [str(v)]; [py_repr] is [str] on floats, lists and dicts, which is not
    modelled. *)
Definition py_str (py_repr : value -> str) (v : value) : str :=
  match v with
  | VNone => u8 "None"
  | VBool true => u8 "True"
  | VBool false => u8 "False"
  | VInt z => str_of_Z z
  | VStr s => s
  | _ => py_repr v
  end.

(** [isinstance(v, dict)]. *)
Definition is_dict (v : value) : bool :=
  match v with
  | VDict _ => true
  | _ => false
  end.

(** Exceptions the modelled code can raise. *)
Inductive exc : Type := AttributeError | TypeError | CollaboratorError.

Inductive result (A : Type) : Type :=
| Ok (a : A)
| Raised (e : exc).

Arguments Ok {A} a.
Arguments Raised {A} e.

End PyData.

Import PyData.

(* ====================================================================== *)
(** ** ui_visita.py: the normaliser and the decision of the result card *)
(* ====================================================================== *)

Module UiVisita.

(** Library functions the module calls and this development does not model:
    [repair_json text] is [json_repair.repair_json(text, return_objects=True)]
    ([None] when it raises), [json_dumps v] is
    [json.dumps(v, ensure_ascii=False)], and [py_repr v] is [str(v)] for a
    float, a list or a dict. *)
Record externals : Type := {
  repair_json : str -> option value;
  json_dumps : value -> str;
  py_repr : value -> str
}.

(** What [limpiar_respuesta_ia] can be handed: plain data, or any other
    object (such as the agent's output object), of which the code reads the
    [raw] attribute when it has one, the [json_dict] attribute when it has
    one, and the [str()] form. *)
Inductive respuesta : Type :=
| Data (v : value)
| Objeto (raw : option str) (json_dict : option value) (texto : str).

Section Normalizer.

Variable E : externals.

Definition claves_canonicas : list str :=
  [u8 "analisis"; u8 "auditoria"; u8 "estado"].

Definition claves_planas : list str :=
  [u8 "farmaco"; u8 "dosis_mg_kg"; u8 "dosis_mg_kg_detectada"; u8 "dosis_calculada";
   u8 "frecuencia"; u8 "frecuencia_texto"; u8 "frecuencia_horas";
   u8 "es_tratamiento_aij"; u8 "es_aij"; u8 "razon_decision"; u8 "razon"].

(** ["analisis" in obj or "auditoria" in obj or "estado" in obj]. *)
Definition es_canonico (obj : dict) : bool :=
  dict_has (u8 "analisis") obj || dict_has (u8 "auditoria") obj
  || dict_has (u8 "estado") obj.

(** [any(k in obj for k in claves_planas)]. *)
Definition es_plano (obj : dict) : bool :=
  existsb (fun k => dict_has k obj) claves_planas.

(** The record built from a flat tool output (lines 103-128). *)
Definition reshape (obj : dict) : value :=
  let es_aij := get obj (u8 "es_aij") in
  let es_aij := if is_None es_aij then get obj (u8 "es_tratamiento_aij") else es_aij in
  let analisis := VDict
    [ (u8 "farmaco", get obj (u8 "farmaco"));
      (u8 "dosis_calculada", get obj (u8 "dosis_calculada"));
      (u8 "dosis_mg_kg_detectada",
         get_or obj (u8 "dosis_mg_kg_detectada") (get obj (u8 "dosis_mg_kg")));
      (u8 "frecuencia", get_or obj (u8 "frecuencia") (get obj (u8 "frecuencia_texto")));
      (u8 "frecuencia_horas", get obj (u8 "frecuencia_horas")) ] in
  let auditoria := VDict
    [ (u8 "es_aij", es_aij);
      (u8 "es_tratamiento_aij", get obj (u8 "es_tratamiento_aij"));
      (u8 "razon", get_or obj (u8 "razon") (get obj (u8 "razon_decision")));
      (u8 "razon_decision", get obj (u8 "razon_decision")) ] in
  let estado := get obj (u8 "estado") in
  let estado :=
    if negb (truthy estado)
    then (if is_True es_aij then VStr (u8 "Aprobada") else VStr (u8 "Alerta"))
    else estado in
  VDict
    [ (u8 "estado", estado);
      (u8 "analisis", analisis);
      (u8 "auditoria", auditoria);
      (u8 "decision", py_or (get obj (u8 "decision")) (get obj (u8 "severidad"))) ].

(** [_normalizar_schema(obj)]; [None] is Python's [None]. *)
Definition _normalizar_schema (obj : value) : option value :=
  match obj with
  | VDict d =>
      if es_canonico d then Some obj
      else if es_plano d then Some (reshape d)
      else Some obj
  | _ => None
  end.

(** The idiom [normalizado = _normalizar_schema(o); return normalizado if it
    is not None, else o]. *)
Definition normalizar_o_devolver (o : value) : value :=
  match _normalizar_schema o with
  | Some normalizado => normalizado
  | None => o
  end.

(** The emergency record (lines 170-181). *)
Definition fallback (texto_raw : str) : value :=
  let texto_limpio :=
    strip (replace (u8 "```") [] (replace (u8 "```json") [] (replace (u8 "**") [] texto_raw))) in
  VDict
    [ (u8 "estado", VStr (u8 "Nota del Asistente"));
      (u8 "analisis", VDict [ (u8 "farmaco", VStr (u8 "Ver texto"));
                              (u8 "dosis_calculada", VStr (u8 "-")) ]);
      (u8 "auditoria", VDict [ (u8 "es_aij", VNone);
                               (u8 "razon", VStr texto_limpio) ]) ].

(** Steps 2 and 3 of [limpiar_respuesta_ia]: repair the text, else fall
    back.  An exception of [repair_json] is caught and leads to the fallback,
    as does a repaired object that is neither a non-empty list nor a dict. *)
Definition limpiar_texto (texto_raw : str) : value :=
  match repair_json E texto_raw with
  | Some (VList (primero :: _)) => normalizar_o_devolver primero
  | Some (VDict d) => normalizar_o_devolver (VDict d)
  | _ => fallback texto_raw
  end.

(** Step 1 (lines 133-147): either the function returns here ([inl]), or
    [texto_raw] is set ([inr]). *)
Definition paso_1 (respuesta_obj : respuesta) : value + str :=
  match respuesta_obj with
  | Data (VDict d) => inl (normalizar_o_devolver (VDict d))
  | Data v => inr (py_str (py_repr E) v)
  | Objeto (Some raw) _ _ => inr raw
  | Objeto None (Some json_dict) texto =>
      if truthy json_dict then inl (normalizar_o_devolver json_dict)
      else inr texto
  | Objeto None None texto => inr texto
  end.

(** The record for a missing response (line 86). *)
Definition sin_respuesta : value :=
  VDict [ (u8 "estado", VStr (u8 "Error"));
          (u8 "analisis", VDict []);
          (u8 "auditoria", VDict [ (u8 "razon", VStr (u8 "No hay respuesta")) ]) ].

Definition limpiar_respuesta_ia (respuesta_obj : respuesta) : value :=
  match respuesta_obj with
  | Data VNone => sin_respuesta
  | _ =>
      match paso_1 respuesta_obj with
      | inl devuelto => devuelto
      | inr texto_raw => limpiar_texto texto_raw
      end
  end.

End Normalizer.

(** *** The decision shown on the validation card

    [render_nueva_visita] computes the decision inline (lines 482-532) from
    the cached result [res]; the computation is named [decision_tarjeta]
    here.  The local helpers keep their names. *)

Inductive decision : Type := Aprobada | Rechazada | Alerta.

Section Classifier.

Variable E : externals.

(** [_coerce_text(value, default)] with a string default. *)
Definition _coerce_text (v : value) (default : str) : str :=
  match v with
  | VNone => default
  | VDict _ | VList _ => json_dumps E v
  | _ => py_str (py_repr E) v
  end.

Definition palabras_rechazo : list str :=
  [u8 "contraind"; u8 "contraindicad"; u8 "no indicado"; u8 "no indicada";
   u8 "no recomendado"; u8 "no recomendada"; u8 "no usar"; u8 "no se recomienda";
   u8 "toxic"; u8 "toxicidad"; u8 "sobredos"; u8 "sobredosis"; u8 "dosis alta";
   u8 "dosis excesiva"; u8 "exceso"; u8 "excesiva"].

(** [_es_rechazo_por_texto(razon_texto)]. *)
Definition _es_rechazo_por_texto (razon_texto : str) : bool :=
  let texto := lower (if str_eqb razon_texto [] then [] else razon_texto) in
  any_in palabras_rechazo texto.

(** The text the keywords are looked up in: the first non-empty of the
    nested and the top-level justification fields. *)
Definition razon_texto_de (res auditoria : dict) : str :=
  _coerce_text
    (py_or (py_or (py_or (py_or (get auditoria (u8 "razon_decision"))
                                (get auditoria (u8 "razon")))
                         (get res (u8 "razon_decision")))
                  (get res (u8 "razon")))
           (VStr []))
    (u8 "-").

(** [decision_txt]: the explicit decision hint, trimmed and lowercased. *)
Definition decision_txt_de (res auditoria : dict) : str :=
  let decision_raw :=
    py_or (py_or (get res (u8 "decision")) (get res (u8 "severidad")))
          (get auditoria (u8 "decision")) in
  lower (strip (_coerce_text decision_raw [])).

(** [es_valido]. *)
Definition es_valido_de (res auditoria : dict) : bool :=
  let estado := get_or res (u8 "estado") (VStr (u8 "Desconocido")) in
  eq_str estado (u8 "Aprobada")
  || is_True (get auditoria (u8 "es_tratamiento_aij"))
  || is_True (get auditoria (u8 "es_aij")).

(** The decision of the card.  [res.get] and [auditoria.get] raise
    [AttributeError] on anything that is not a dict. *)
Definition decision_tarjeta (res : value) : result decision :=
  match res with
  | VDict r =>
      match get_or r (u8 "auditoria") (VDict []) with
      | VDict auditoria =>
          let es_valido := es_valido_de r auditoria in
          let decision_txt := decision_txt_de r auditoria in
          if contains (u8 "aprob") decision_txt then Ok Aprobada
          else if contains (u8 "rech") decision_txt then Ok Rechazada
          else if contains (u8 "alert") decision_txt then Ok Alerta
          else if es_valido then Ok Aprobada
          else if _es_rechazo_por_texto (razon_texto_de r auditoria)
               then Ok Rechazada
               else Ok Alerta
      | _ => Raised AttributeError
      end
  | _ => Raised AttributeError
  end.

End Classifier.

End UiVisita.

(* ====================================================================== *)
(** ** patient_bot.py: the medication extractor and the responder *)
(* ====================================================================== *)

Module PatientBot.

(** *** The dose pattern

    [re.search(rf"{variante}[^\d]*(\d+(?:[.,]\d+)?)\s*mg", texto)] is run by
    a backtracking matcher over the constructs the pattern uses.  A
    continuation receives the rest of the text and the text of group 1. *)

Inductive regex : Type :=
| RLit (s : str)
| RClass (p : N -> bool)
| RStar (p : N -> bool)
| RPlus (p : N -> bool)
| ROpt (r : regex)
| RSeq (r1 r2 : regex)
| RGroup (r : regex).

Section Matcher.

Variable R : Type.

(** Greedy [p*]: the longest run first, then shorter ones. *)
Fixpoint star_greedy (p : N -> bool) (s : str) (k : str -> option R) : option R :=
  match s with
  | [] => k []
  | c :: t =>
      if p c then
        match star_greedy p t k with
        | Some r => Some r
        | None => k s
        end
      else k s
  end.

Fixpoint rmatch (r : regex) (s : str) (g : option str)
         (k : str -> option str -> option R) : option R :=
  match r with
  | RLit l => if starts_with l s then k (skipn (List.length l) s) g else None
  | RClass p =>
      match s with
      | c :: t => if p c then k t g else None
      | [] => None
      end
  | RStar p => star_greedy p s (fun s' => k s' g)
  | RPlus p =>
      match s with
      | c :: t => if p c then star_greedy p t (fun s' => k s' g) else None
      | [] => None
      end
  | ROpt r1 =>
      match rmatch r1 s g k with
      | Some x => Some x
      | None => k s g
      end
  | RSeq r1 r2 => rmatch r1 s g (fun s' g' => rmatch r2 s' g' k)
  | RGroup r1 =>
      rmatch r1 s g
        (fun s' _ => k s' (Some (firstn (List.length s - List.length s') s)))
  end.

End Matcher.

Arguments star_greedy {R} p s k.
Arguments rmatch {R} r s g k.

(** [re.search(r, s)]: the leftmost match; the result is [match.group(1)]. *)
Fixpoint re_search (r : regex) (s : str) : option (option str) :=
  match rmatch r s None (fun _ g => Some g) with
  | Some g => Some g
  | None =>
      match s with
      | [] => None
      | _ :: t => re_search r t
      end
  end.

Definition no_digit (c : N) : bool := negb (is_digit c).
Definition punto_o_coma (c : N) : bool := (c =? 46)%N || (c =? 44)%N.

(** The variants of the table are letters and spaces, so each stands for
    itself in the pattern. *)
Definition patron_dosis (variante : str) : regex :=
  RSeq (RLit variante)
    (RSeq (RStar no_digit)
      (RSeq (RGroup (RSeq (RPlus is_digit) (ROpt (RSeq (RClass punto_o_coma) (RPlus is_digit)))))
        (RSeq (RStar is_space) (RLit (u8 "mg"))))).

(** *** _extraer_medicaciones_del_plan *)

Record med_info : Type := {
  med_nombre : str;
  variantes : list str;
  emoji : str
}.

Definition medicamentos_info : list med_info :=
  [ {| med_nombre := u8 "Metotrexato";
       variantes := [u8 "metotrexato"; u8 "metotrexate"; u8 "mtx"];
       emoji := u8 "💉" |};
    {| med_nombre := u8 "Ácido Fólico";
       variantes := [u8 "ácido fólico"; u8 "acido folico"; u8 "ac fólico";
                     u8 "ac folico"; u8 "acfol"];
       emoji := u8 "💊" |};
    {| med_nombre := u8 "Ibuprofeno";
       variantes := [u8 "ibuprofeno"; u8 "ibuprofen"];
       emoji := u8 "💊" |};
    {| med_nombre := u8 "Naproxeno";
       variantes := [u8 "naproxeno"];
       emoji := u8 "💊" |};
    {| med_nombre := u8 "Prednisona";
       variantes := [u8 "prednisona"; u8 "prednisone"; u8 "corticoide"];
       emoji := u8 "💊" |};
    {| med_nombre := u8 "Adalimumab (Humira)";
       variantes := [u8 "adalimumab"; u8 "humira"];
       emoji := u8 "💉" |};
    {| med_nombre := u8 "Tocilizumab";
       variantes := [u8 "tocilizumab"; u8 "actemra"];
       emoji := u8 "💉" |};
    {| med_nombre := u8 "Etanercept";
       variantes := [u8 "etanercept"; u8 "enbrel"];
       emoji := u8 "💉" |} ].

Definition dias : list str :=
  [u8 "lunes"; u8 "martes"; u8 "miércoles"; u8 "jueves"; u8 "viernes";
   u8 "sábado"; u8 "domingo"].

(** The frequency read in the context: the first test that succeeds. *)
Definition frecuencia_de (contexto : str) : str :=
  if contains (u8 "semanal") contexto then u8 "semanal"
  else if contains (u8 "diario") contexto || contains (u8 "cada día") contexto
          || contains (u8 "/día") contexto then u8 "diario"
  else if contains (u8 "quincenal") contexto || contains (u8 "cada 2 semanas") contexto
       then u8 "cada 2 semanas"
  else if contains (u8 "cada 8 horas") contexto then u8 "cada 8 horas"
  else if contains (u8 "cada 12 horas") contexto then u8 "cada 12 horas"
  else match List.find (fun dia => contains dia contexto) dias with
       | Some dia => u8 "los " ++ dia ++ u8 "s"
       | None => []
       end.

(** The body of the inner loop for a variant found in the text. *)
Definition med_str_de (m : med_info) (variante texto_lower : str) : str :=
  let dosis :=
    match re_search (patron_dosis variante) texto_lower with
    | Some (Some g1) => g1 ++ u8 " mg"
    | _ => []
    end in
  let idx := PyStr.find variante texto_lower in
  let contexto :=
    if (0 <=? idx)%Z then slice texto_lower idx (idx + 100)%Z else [] in
  let frecuencia := frecuencia_de contexto in
  emoji m ++ u8 " **" ++ med_nombre m ++ u8 "**"
  ++ (if str_eqb dosis [] then [] else u8 " " ++ dosis)
  ++ (if str_eqb frecuencia [] then [] else u8 " (" ++ frecuencia ++ u8 ")").

(** One turn of the outer loop: the first variant present decides, and the
    others are not tried. *)
Definition paso_medicamento (texto_lower : str) (medicaciones : list str)
           (m : med_info) : list str :=
  match List.find (fun variante => contains variante texto_lower) (variantes m) with
  | Some variante =>
      let med_str := med_str_de m variante texto_lower in
      if str_in med_str medicaciones then medicaciones
      else medicaciones ++ [med_str]
  | None => medicaciones
  end.

(** [_extraer_medicaciones_del_plan(plan_texto)]; [Ok None] is Python's
    [None].  A truthy plan that is not a [str] has no [lower]. *)
Definition _extraer_medicaciones_del_plan (plan_texto : value)
  : result (option (list str)) :=
  if negb (truthy plan_texto) then Ok None
  else match plan_texto with
       | VStr s =>
           let texto_lower := lower s in
           let medicaciones :=
             fold_left (paso_medicamento texto_lower) medicamentos_info [] in
           match medicaciones with
           | [] => Ok None
           | _ => Ok (Some medicaciones)
           end
       | _ => Raised AttributeError
       end.

(** *** responder_duda_paciente *)

Definition saludos : list str :=
  [u8 "hola"; u8 "buenas"; u8 "gracias"; u8 "qué tal"; u8 "buenos días";
   u8 "buenas tardes"].

Definition palabras_urgencia : list str :=
  [u8 "dolor fuerte"; u8 "sangre"; u8 "fiebre alta"; u8 "hinchado"; u8 "ahogo";
   u8 "urgencia"; u8 "pecho"].

Definition palabras_olvido : list str :=
  [u8 "olvidé"; u8 "olvide"; u8 "olvidado"; u8 "perdí"; u8 "perdi"; u8 "perdido";
   u8 "no me pinché"; u8 "no me pinche"; u8 "no tomé"; u8 "no tome";
   u8 "salté"; u8 "salte"; u8 "saltado"; u8 "me la salté"; u8 "se me pasó";
   u8 "ayer no"; u8 "no puse"; u8 "qué hago"; u8 "que hago"; u8 "me olvide"].

Definition palabras_metotrexato : list str :=
  [u8 "metotrexato"; u8 "metotrexate"; u8 "mtx"].

Definition palabras_folico : list str :=
  [u8 "ácido fólico"; u8 "acido folico"; u8 "fólico"; u8 "folico"; u8 "acfol"].

Definition palabras_adalimumab : list str := [u8 "humira"; u8 "adalimumab"].

Definition palabras_medicacion : list str :=
  [u8 "medicación"; u8 "medicacion"; u8 "medicamento"; u8 "tratamiento";
   u8 "llevo"; u8 "tomo"; u8 "actual"; u8 "ahora"; u8 "qué tomo"; u8 "que tomo";
   u8 "dosis"; u8 "pauta"; u8 "inyectar"; u8 "pinchar"; u8 "pastilla"].

Definition palabras_cita : list str :=
  [u8 "cita"; u8 "próxima visita"; u8 "proxima visita"; u8 "cuando tengo";
   u8 "revisión"; u8 "revision"].

Definition texto_saludo (nombre_paciente : str) : str :=
  u8 "¡Hola " ++ nombre_paciente
  ++ u8 "! Soy tu asistente virtual de la unidad. Estoy aquí para ayudarte con cualquier duda sobre tu tratamiento o medicación.".

Definition texto_urgencia : str :=
  u8 "⚠️ **DETECTADO SÍNTOMA DE ALERTA**

Como asistente virtual no puedo valorar urgencias médicas. Por favor, acude al hospital o contacta con tu reumatólogo inmediatamente.".

Definition protocolo_metotrexato : str :=
  u8 "⚠️ **Dosis olvidada de Metotrexato**

**Regla general:** Si te olvidaste ayer, puedes ponértela hoy (dentro de las 48h siguientes al día pautado).

📌 **Recomendaciones:**
• Si han pasado **menos de 2 días**: Ponte la dosis hoy y sigue con tu calendario normal la próxima semana.
• Si han pasado **más de 2 días**: NO te pongas doble dosis. Salta esta semana y continúa la próxima según tu pauta habitual.

⚠️ **Importante:** Si tienes dudas o esto ocurre con frecuencia, consulta con tu reumatólogo.

💡 Consejo: Activa recordatorios en tu móvil para el día que te toca.".

Definition protocolo_acido_folico : str :=
  u8 "💊 **Dosis olvidada de Ácido Fólico**

No te preocupes, el ácido fólico es un suplemento y no pasa nada grave si te saltas una dosis.

📌 **Recomendaciones:**
• Tómalo cuando te acuerdes si es el mismo día.
• Si ya pasó el día, simplemente continúa con la siguiente dosis programada.
• **Nunca tomes doble dosis** para compensar.".

Definition protocolo_adalimumab : str :=
  u8 "💉 **Dosis olvidada de Humira/Adalimumab**

📌 **Recomendaciones:**
• Si te acuerdas **en los primeros días**, ponte la inyección cuanto antes.
• Luego, ajusta tu calendario para mantener el intervalo de 2 semanas.
• **No te pongas doble dosis.**

⚠️ Si tienes dudas, contacta con tu reumatólogo o enfermera de la unidad.".

Definition protocolo_generico : str :=
  u8 "⚠️ **Dosis olvidada de medicación**

📌 **Regla general:**
• Si te acuerdas el mismo día o al día siguiente, tómala/ponla cuando te acuerdes.
• Si han pasado más de 2 días, **no tomes doble dosis**. Espera a la siguiente dosis programada.

⚠️ Si tienes dudas sobre tu medicamento específico, consulta con tu reumatólogo o llama a la unidad.".

Definition texto_sin_plan : str :=
  u8 "📋 No tienes ningún plan de tratamiento activo. Consulta con tu médico en la próxima visita.".

Definition texto_citas : str :=
  u8 "📅 Las citas se gestionan a través de la secretaría del hospital. Puedes llamar al teléfono de atención o consultar tu portal del paciente para ver tus próximas citas.".

Definition texto_fallback : str :=
  u8 "❓ No tengo información específica sobre eso. Si tienes dudas sobre tu tratamiento, te recomiendo consultarlo con tu médico en la próxima visita o llamar a la unidad.".

Definition cabecera_medicacion : str :=
  u8 "💊 **Tu medicación actual:**

".

Definition pie_medicacion : str :=
  u8 "
📅 Puedes ver el calendario en la pestaña 'Mi Calendario' para ver cuándo te toca cada medicación.".

Definition cabecera_plan : str :=
  u8 "📋 **Tu plan de tratamiento actual:**

".

Definition cabecera_rag : str :=
  u8 "📚 **Información general:**

".

(** The knowledge-lookup collaborator ([rag_engine], outside this module)
    and what the session holds of it.  [RAG_DISPONIBLE] is fixed at import;
    [cargar_conocimiento] returns a store or Python's [None], or raises;
    [consultar_rag] returns a text or raises. *)
Section Responder.

Variable store : Type.
Variable store_truthy : store -> bool.
Variable RAG_DISPONIBLE : bool.
Variable cargar_conocimiento : result (option store).
Variable consultar_rag : store -> str -> result str.
Variable py_repr : value -> str.

(** [st.session_state]: only [vectorstore_cache] is used here. *)
Record session : Type := { vectorstore_cache : option store }.

(** [x in curso] for a string literal [x], whatever [curso] is: substring
    of a string, element of a list, key of a dict; other objects are not
    iterable. *)
Definition literal_in (x : str) (curso : value) : result bool :=
  match curso with
  | VStr c => Ok (contains x c)
  | VList l => Ok (existsb (fun v => eq_str v x) l)
  | VDict d => Ok (dict_has x d)
  | _ => Raised TypeError
  end.

(** [curso.split(sep)[-1].strip()]; only a [str] has [split]. *)
Definition tras_marcador (sep : str) (curso : value) : result value :=
  match curso with
  | VStr c => Ok (VStr (strip (last (split sep c) [])))
  | _ => Raised AttributeError
  end.

(** [ultimo_plan] (lines 252-269): the plan of the last visit, or the text
    after the plan marker of its clinical course. *)
Definition ultimo_plan_de (historial_paciente : list value) : result value :=
  match historial_paciente with
  | [] => Ok VNone
  | _ =>
      match last historial_paciente VNone with
      | VDict ultimo =>
          let plan_directo := get_or ultimo (u8 "plan_tratamiento") (VStr []) in
          if negb (truthy plan_directo) then
            let curso := get_or ultimo (u8 "curso_clinico_generado") (VStr []) in
            match literal_in (u8 "PLAN:") curso with
            | Raised e => Raised e
            | Ok true => tras_marcador (u8 "PLAN:") curso
            | Ok false =>
                match literal_in (u8 "Plan:") curso with
                | Raised e => Raised e
                | Ok true => tras_marcador (u8 "Plan:") curso
                | Ok false => Ok curso
                end
            end
          else Ok plan_directo
      | _ => Ok VNone
      end
  end.

(** The medication branch (lines 251-283). *)
Definition rama_medicacion (historial_paciente : list value) : result str :=
  match ultimo_plan_de historial_paciente with
  | Raised e => Raised e
  | Ok ultimo_plan =>
      if truthy ultimo_plan then
        match _extraer_medicaciones_del_plan ultimo_plan with
        | Raised e => Raised e
        | Ok (Some medicaciones) =>
            Ok (fold_left (fun respuesta med => respuesta ++ u8 "• " ++ med ++ [10%N])
                          medicaciones cabecera_medicacion
                ++ pie_medicacion)
        | Ok None => Ok (cabecera_plan ++ py_str py_repr ultimo_plan)
        end
      else Ok texto_sin_plan
  end.

(** The missed-dose branch (lines 193-238). *)
Definition rama_olvido (p : str) : str :=
  if any_in palabras_metotrexato p then protocolo_metotrexato
  else if any_in palabras_folico p then protocolo_acido_folico
  else if any_in palabras_adalimumab p then protocolo_adalimumab
  else protocolo_generico.

(** The end of the function (lines 315-322), given [respuesta_rag]. *)
Definition cierre (respuesta_rag : str) : result str :=
  if negb (str_eqb respuesta_rag (u8 "NO_CONTEXT"))
  then Ok (cabecera_rag ++ respuesta_rag)
  else Ok texto_fallback.

(** The knowledge-lookup branch and the final fallback (lines 296-322).
    The store is loaded outside the [try]; the query runs inside it. *)
Definition rama_rag (pregunta : str) (st : session) : result str * session :=
  let sin_contexto := u8 "NO_CONTEXT" in
  if RAG_DISPONIBLE then
    let cargado :=
      match vectorstore_cache st with
      | None =>
          match cargar_conocimiento with
          | Ok c => Ok {| vectorstore_cache := c |}
          | Raised e => Raised e
          end
      | Some _ => Ok st
      end in
    match cargado with
    | Raised e => (Raised e, st)
    | Ok st' =>
        let respuesta_rag :=
          match vectorstore_cache st' with
          | Some vs =>
              if store_truthy vs then
                match consultar_rag vs pregunta with
                | Ok raw_response =>
                    if negb (contains sin_contexto raw_response)
                       && (5 <? List.length raw_response)%nat
                    then raw_response
                    else sin_contexto
                | Raised _ => sin_contexto
                end
              else sin_contexto
          | None => sin_contexto
          end in
        (cierre respuesta_rag, st')
    end
  else (cierre sin_contexto, st).

Definition responder_duda_paciente (pregunta : str) (historial_paciente : list value)
           (nombre_paciente : str) (st : session) : result str * session :=
  let p := lower pregunta in
  if str_in p saludos then (Ok (texto_saludo nombre_paciente), st)
  else if any_in palabras_urgencia p then (Ok texto_urgencia, st)
  else if any_in palabras_olvido p then (Ok (rama_olvido p), st)
  else if any_in palabras_medicacion p then (rama_medicacion historial_paciente, st)
  else if any_in palabras_cita p then (Ok texto_citas, st)
  else rama_rag pregunta st.

End Responder.

Arguments Build_session {store} vectorstore_cache.
Arguments vectorstore_cache {store} s.
Arguments rama_rag {store} store_truthy RAG_DISPONIBLE cargar_conocimiento
  consultar_rag pregunta st.
Arguments responder_duda_paciente {store} store_truthy RAG_DISPONIBLE
  cargar_conocimiento consultar_rag py_repr pregunta historial_paciente
  nombre_paciente st.

End PatientBot.

(* ====================================================================== *)
(** ** Vocabulary of the properties *)
(* ====================================================================== *)

Module Vocabulario.

Import UiVisita PatientBot.

(** [v] is a dict that has the keys [estado], [analisis] and [auditoria],
    none of them bound to [None]. *)
Definition tres_claves (v : value) : bool :=
  match v with
  | VDict d =>
      forallb (fun k => dict_has k d && negb (is_None (get d k))) claves_canonicas
  | _ => false
  end.

(** A dict the normaliser reshapes: a flat field, none of the three keys. *)
Definition solo_plano (d : dict) : bool := negb (es_canonico d) && es_plano d.

(** The repaired object gives the normaliser nothing to work on. *)
Definition sin_objeto (reparado : option value) : bool :=
  match reparado with
  | Some (VDict _) => false
  | Some (VList (_ :: _)) => false
  | _ => true
  end.

(** The AIJ flag the reshape reads: [es_aij], or [es_tratamiento_aij] when
    [es_aij] is missing or [None]. *)
Definition indicador_aij (d : dict) : value :=
  if is_None (get d (u8 "es_aij")) then get d (u8 "es_tratamiento_aij")
  else get d (u8 "es_aij").

(** Externals for closed examples: the repair parses the JSON text [[null]]
    as the one-element list holding [None], as a JSON parser does, and finds
    nothing in any other text. *)
Definition externos_ejemplo : externals :=
  {| repair_json := fun t =>
       if str_eqb t (u8 "[null]") then Some (VList [VNone]) else Some (VStr []);
     json_dumps := fun _ => [];
     py_repr := fun _ => [] |}.

(** Example records. *)
Definition solo_estado : dict := [ (u8 "estado", VStr (u8 "Aprobada")) ].

Definition plano_con_estado : dict :=
  [ (u8 "farmaco", VStr (u8 "Metotrexato"));
    (u8 "es_aij", VBool true);
    (u8 "estado", VStr (u8 "Pendiente")) ].

Definition plano_simple : dict :=
  [ (u8 "farmaco", VStr (u8 "Metotrexato"));
    (u8 "dosis_mg_kg", VStr (u8 "0.4"));
    (u8 "es_aij", VBool true);
    (u8 "razon", VStr (u8 "Dosis dentro de rango")) ].

Definition aprobada_con_rechazo : dict :=
  [ (u8 "estado", VStr (u8 "Aprobada"));
    (u8 "decision", VStr (u8 "rechazada")) ].

Definition alerta_dosis_excesiva : dict :=
  [ (u8 "estado", VStr (u8 "Alerta"));
    (u8 "auditoria", VDict [ (u8 "es_aij", VNone);
                             (u8 "razon", VStr (u8 "dosis excesiva detectada")) ]) ].

(** A record with no [decision] or [severidad] of its own, whose
    [auditoria] carries a decision. *)
Definition auditoria_con_decision : dict :=
  [ (u8 "es_aij", VNone);
    (u8 "decision", VStr (u8 "Aprobada"));
    (u8 "razon", VStr (u8 "dosis excesiva detectada")) ].

Definition alerta_con_decision_anidada : dict :=
  [ (u8 "estado", VStr (u8 "Alerta"));
    (u8 "auditoria", VDict auditoria_con_decision) ].

(** A record whose decision fields are there and hold [None]. *)
Definition alerta_decision_nula : dict :=
  [ (u8 "estado", VStr (u8 "Alerta"));
    (u8 "decision", VNone);
    (u8 "severidad", VNone);
    (u8 "auditoria", VDict [ (u8 "es_aij", VNone);
                             (u8 "decision", VNone);
                             (u8 "razon", VStr (u8 "revisar pauta")) ]) ].

Definition plano_contradictorio : dict :=
  [ (u8 "farmaco", VStr (u8 "Metotrexato"));
    (u8 "es_aij", VBool false);
    (u8 "es_tratamiento_aij", VBool true) ].

(** A session without the knowledge collaborator, for closed examples of
    the responder: the store type is [unit]. *)
Definition sesion_vacia : session unit := {| vectorstore_cache := None |}.

Definition responder_sin_rag (pregunta : str) (historial : list value)
           (nombre : str) : result str :=
  fst (responder_duda_paciente (fun _ => true) false (Ok None)
         (fun _ _ => Raised CollaboratorError) (fun _ => [])
         pregunta historial nombre sesion_vacia).

(** The collaborator is available and loading its store raises. *)
Definition responder_carga_falla (pregunta : str) : result str :=
  fst (responder_duda_paciente (fun _ : unit => true) true (Raised CollaboratorError)
         (fun _ _ => Ok []) (fun _ => [])
         pregunta [] (u8 "Lucía") sesion_vacia).

(** The questions of the examples. *)
Definition pregunta_olvido_claim : str := u8 "se me olvidó la pinchada de metotrexato".
Definition pregunta_olvide : str := u8 "olvidé la pinchada de metotrexato".
Definition plan_ejemplo : str := u8 "Metotrexato 15 mg semanal y Ácido Fólico 5 mg diario".
Definition plan_invertido : str := u8 "Ácido Fólico 5 mg diario y Metotrexato 15 mg semanal".

(** The line the extractor writes for a drug of the table: that of its
    first variant present in the text, if any. *)
Definition linea (texto_lower : str) (m : med_info) : option str :=
  match List.find (fun variante => contains variante texto_lower) (variantes m) with
  | Some variante => Some (med_str_de m variante texto_lower)
  | None => None
  end.

(** [l1] is [l2] with some elements left out, the others in their order. *)
Inductive subsecuencia {A : Type} : list A -> list A -> Prop :=
| sub_nil : subsecuencia [] []
| sub_skip (x : A) (l1 l2 : list A) : subsecuencia l1 l2 -> subsecuencia l1 (x :: l2)
| sub_take (x : A) (l1 l2 : list A) :
    subsecuencia l1 l2 -> subsecuencia (x :: l1) (x :: l2).

(** The first code point of a text. *)
Definition primero (s : str) : option N := hd_error s.

(** The question reaches the knowledge lookup: no earlier branch takes it. *)
Definition llega_a_rag (pregunta : str) : bool :=
  let p := lower pregunta in
  negb (str_in p saludos) && negb (any_in palabras_urgencia p)
  && negb (any_in palabras_olvido p) && negb (any_in palabras_medicacion p)
  && negb (any_in palabras_cita p).

(** The lookup gave no usable answer: it raised, or its text holds the
    sentinel or has fewer than six characters. *)
Definition sin_respuesta_rag (r : result str) : bool :=
  match r with
  | Raised _ => true
  | Ok raw_response =>
      contains (u8 "NO_CONTEXT") raw_response || (List.length raw_response <? 6)%nat
  end.

End Vocabulario.

(* ====================================================================== *)
(** ** Vocabulary of the further properties of the chatbot *)
(* ====================================================================== *)

Module VocabularioBot.

Import PatientBot Vocabulario.

(** The question is taken by the medication branch. *)
Definition llega_a_medicacion (pregunta : str) : bool :=
  let p := lower pregunta in
  negb (str_in p saludos) && negb (any_in palabras_urgencia p)
  && negb (any_in palabras_olvido p) && any_in palabras_medicacion p.

(** The answer of the lookup is used: no sentinel in it, more than five
    characters. *)
Definition respuesta_usable (raw_response : str) : bool :=
  negb (contains (u8 "NO_CONTEXT") raw_response)
  && (5 <? List.length raw_response)%nat.



End VocabularioBot.

(* ====================================================================== *)
(** ** ui_visita.py: the validation click and the fields of the card *)
(* ====================================================================== *)

Module UiVisitaTarjeta.

Import UiVisita.

Section Tarjeta.

Variable E : externals.

(** The handler of the validation button (lines 461-476), as far as the
    cached result goes.  [agente] is what [ejecutar_validacion_medica]
    did: it returned an object ([inl]), or raised an exception whose text
    is given ([inr]). *)
Definition validar (IA_DISPONIBLE : bool) (agente : respuesta + str) : value :=
  if IA_DISPONIBLE then
    match agente with
    | inl res => limpiar_respuesta_ia E res
    | inr e =>
        VDict [ (u8 "estado", VStr (u8 "Error"));
                (u8 "analisis", VDict []);
                (u8 "auditoria", VDict [ (u8 "es_aij", VNone);
                                         (u8 "razon", VStr (u8 "Error: " ++ e)) ]) ]
    end
  else VDict [ (u8 "estado", VStr (u8 "Offline")) ].

(** [_coerce_text(value, default=None)]; [None] is Python's [None]. *)
Definition _coerce_text_none (v : value) : option str :=
  match v with
  | VNone => None
  | _ => Some (_coerce_text E v [])
  end.

(** [farmaco] (line 546). *)
Definition farmaco_de (res analisis : dict) : str :=
  _coerce_text E (py_or (get analisis (u8 "farmaco")) (get res (u8 "farmaco"))) (u8 "-").

(** [dosis_mg_kg] (line 547): nested before flat. *)
Definition dosis_mg_kg_de (res analisis : dict) : value :=
  py_or (py_or (py_or (get analisis (u8 "dosis_mg_kg"))
                      (get analisis (u8 "dosis_mg_kg_detectada")))
               (get res (u8 "dosis_mg_kg")))
        (get res (u8 "dosis_mg_kg_detectada")).

(** [dosis_txt] (lines 548-555): the mg/kg value before the computed dose,
    the unit added when the text does not show it. *)
Definition dosis_txt_de (res analisis : dict) : str :=
  let dosis_mg_kg := dosis_mg_kg_de res analisis in
  let dosis_calc :=
    py_or (get analisis (u8 "dosis_calculada")) (get res (u8 "dosis_calculada")) in
  let dosis_txt := _coerce_text_none dosis_mg_kg in
  let dosis_txt :=
    match dosis_txt with
    | Some t =>
        if negb (str_eqb t []) && negb (contains (u8 "mg/kg") (lower t))
        then Some (t ++ u8 " mg/kg")
        else Some t
    | None => None
    end in
  match dosis_txt with
  | Some t => if str_eqb t [] then _coerce_text E dosis_calc (u8 "-") else t
  | None => _coerce_text E dosis_calc (u8 "-")
  end.

(** [frecuencia] (line 549); it is shown when truthy. *)
Definition frecuencia_de (res analisis : dict) : value :=
  py_or (py_or (py_or (get analisis (u8 "frecuencia"))
                      (get analisis (u8 "frecuencia_texto")))
               (get res (u8 "frecuencia")))
        (get res (u8 "frecuencia_texto")).

(** [razon] (line 564) as shown, and [origen] (line 573). *)
Definition dictamen_de (res auditoria : dict) : str :=
  _coerce_text E
    (py_or (py_or (py_or (py_or (get auditoria (u8 "razon_decision"))
                                (get auditoria (u8 "razon")))
                         (get res (u8 "razon_decision")))
                  (get res (u8 "razon")))
           (VStr (u8 "Sin comentarios.")))
    (u8 "-").

Definition origen_de (res auditoria : dict) : str :=
  if contains (u8 "fallback") (lower (dictamen_de res auditoria))
  then u8 "Fallback" else u8 "Agente".

(** What the card shows. *)
Record tarjeta : Type := {
  t_decision : decision;
  t_farmaco : str;
  t_dosis : str;
  t_frecuencia : option str;
  t_dictamen : str;
  t_origen : str
}.

(** The card of the cached result (lines 479-576).  [res.get],
    [auditoria.get] and [analisis.get] raise [AttributeError] on anything
    that is not a dict. *)
Definition render_tarjeta (res : value) : result tarjeta :=
  match decision_tarjeta E res with
  | Raised e => Raised e
  | Ok d =>
      match res with
      | VDict r =>
          match get_or r (u8 "analisis") (VDict []),
                get_or r (u8 "auditoria") (VDict []) with
          | VDict analisis, VDict auditoria =>
              let frecuencia := frecuencia_de r analisis in
              Ok {| t_decision := d;
                    t_farmaco := farmaco_de r analisis;
                    t_dosis := dosis_txt_de r analisis;
                    t_frecuencia :=
                      if truthy frecuencia
                      then Some (_coerce_text E frecuencia (u8 "-")) else None;
                    t_dictamen := dictamen_de r auditoria;
                    t_origen := origen_de r auditoria |}
          | _, _ => Raised AttributeError
          end
      | _ => Raised AttributeError
      end
  end.

End Tarjeta.

End UiVisitaTarjeta.

(* ====================================================================== *)
(** ** Dicts that are written to, and auth.py *)
(* ====================================================================== *)

Module PyDict.

(** [d[k] = v]: the binding of [k] is replaced where it stands, or added
    at the end. *)
Fixpoint dict_set (k : str) (v : value) (d : dict) : dict :=
  match d with
  | [] => [(k, v)]
  | (k', v') :: d' =>
      if str_eqb k k' then (k, v) :: d' else (k', v') :: dict_set k v d'
  end.

(** [del d[k]] for a key that is there.  A dict has each key once; should
    a list bind [k] more than once, every binding goes. *)
Definition dict_del (k : str) (d : dict) : dict :=
  filter (fun kv => negb (str_eqb k (fst kv))) d.

(** [sep.join(l)] for a list of strings. *)
Fixpoint join (sep : str) (l : list str) : str :=
  match l with
  | [] => []
  | x :: l' =>
      match l' with
      | [] => x
      | _ => x ++ sep ++ join sep l'
      end
  end.

End PyDict.

Import PyDict.

Module Auth.

(** [st.session_state] is a dict from keys to values.  A handler returns
    [None] when it raises [KeyError]. *)

(** [password_entered()], the callback of the login button (lines 43-56).
    The password is read only when the user name is "admin". *)
Definition password_entered (session_state : dict) : option dict :=
  match dict_lookup (u8 "username") session_state with
  | None => None
  | Some username =>
      if eq_str username (u8 "admin") then
        match dict_lookup (u8 "password") session_state with
        | None => None
        | Some password =>
            if eq_str password (u8 "admin") then
              Some (dict_del (u8 "username")
                      (dict_del (u8 "password")
                         (dict_set (u8 "password_correct") (VBool true)
                                   session_state)))
            else Some (dict_set (u8 "password_correct") (VBool false) session_state)
        end
      else Some (dict_set (u8 "password_correct") (VBool false) session_state)
  end.

(** What [check_password] draws: the login form, the error message alone,
    or nothing of its own. *)
Inductive pantalla : Type := Login | ErrorUsuario | Acceso.

(** [check_password()] (lines 61-106): the value returned and what is
    drawn.  The function itself writes nothing to the session. *)
Definition check_password (session_state : dict) : bool * pantalla :=
  match dict_lookup (u8 "password_correct") session_state with
  | None => (false, Login)
  | Some password_correct =>
      if negb (truthy password_correct) then (false, ErrorUsuario)
      else (true, Acceso)
  end.

(** [cerrar_sesion()] (lines 116-118): the session it leaves when it asks
    for the rerun. *)
Definition cerrar_sesion (session_state : dict) : dict :=
  if dict_has (u8 "password_correct") session_state
  then dict_del (u8 "password_correct") session_state
  else session_state.

End Auth.

(* ====================================================================== *)
(** ** ui_alta.py: what the save button of the intake form does *)
(* ====================================================================== *)

Module UiAlta.

(** The options of the selectors (lines 131-136 and 208-214). *)
Definition tipos_diagnostico : list str :=
  [ u8 "AIJ sistémica"; u8 "AIJ oligoarticular"; u8 "AIJ poliarticular";
    u8 "Artritis psoriásica"; u8 "Entesitis"; u8 "Indiferenciada" ].

Definition opciones_anticuerpo : list str :=
  [ u8 "Negativo (-)"; u8 "Positivo (+)" ].

(** [pos] (lines 234-238). *)
Definition pos_de (val_fr val_acpa val_hla val_ana : str) : list str :=
  let pos := [] in
  let pos := if contains (u8 "Positivo") val_fr then pos ++ [u8 "FR+"] else pos in
  let pos := if contains (u8 "Positivo") val_acpa then pos ++ [u8 "ACPA+"] else pos in
  let pos := if contains (u8 "Positivo") val_hla then pos ++ [u8 "HLA-B27+"] else pos in
  let pos := if contains (u8 "Positivo") val_ana then pos ++ [u8 "ANA+"] else pos in
  pos.

(** [diag_fin] (line 239). *)
Definition diag_fin_de (tipo : str) (pos : list str) : str :=
  match pos with
  | [] => tipo
  | _ => tipo ++ u8 " (" ++ join (u8 ", ") pos ++ u8 ")"
  end.

(** [riesgo] (lines 245-250). *)
Definition riesgo_de (historia_uveitis : bool) (val_ana : str) : str :=
  if historia_uveitis then u8 "Muy Alto (Recurrente)"
  else if contains (u8 "Positivo") val_ana then u8 "Alto"
  else u8 "Bajo".

(** The values of the widgets when the button is pressed.  Dates come as
    their [str()] form, numbers as values; [articulaciones] is
    [sorted(list(art_afectadas))]. *)
Record formulario : Type := {
  nuevo_nhc : str;
  new_nombre : str;
  f_nac : str;
  edad : Z;
  sexo : str;
  new_peso : value;
  new_talla : value;
  bsa_redondeado : value;
  tipo : str;
  f_sintomas : str;
  historia_uveitis : bool;
  articulaciones : list str;
  val_fr : str;
  val_acpa : str;
  val_hla : str;
  val_ana : str;
  hoy : str
}.

(** The button shows an error, or hands a record to [guardar_paciente]. *)
Inductive resultado_alta : Type :=
| ErrorAlta (mensaje : str)
| Guardado (pdata : dict).

(** The handler of the save button (lines 226-275); [n_pacientes] is
    [len(cargar_pacientes())]. *)
Definition guardar_click (n_pacientes : nat) (f : formulario) : resultado_alta :=
  if str_eqb (nuevo_nhc f) [] then
    ErrorAlta (u8 "Falta el Número de Historia (NHC).")
  else if str_eqb (new_nombre f) [] then
    ErrorAlta (u8 "Falta el Nombre del paciente.")
  else
    let pos := pos_de (val_fr f) (val_acpa f) (val_hla f) (val_ana f) in
    let diag_fin := diag_fin_de (tipo f) pos in
    let riesgo := riesgo_de (historia_uveitis f) (val_ana f) in
    Guardado
      [ (u8 "id", VStr (u8 "P_" ++ str_of_Z (Z.of_nat n_pacientes + 1)));
        (u8 "numero_historia", VStr (nuevo_nhc f));
        (u8 "nombre", VStr (new_nombre f));
        (u8 "fecha_nacimiento", VStr (f_nac f));
        (u8 "sexo", VStr (sexo f));
        (u8 "edad", VInt (edad f));
        (u8 "peso_actual", new_peso f);
        (u8 "talla", new_talla f);
        (u8 "bsa", bsa_redondeado f);
        (u8 "diagnostico", VStr diag_fin);
        (u8 "fecha_sintomas", VStr (f_sintomas f));
        (u8 "historia_uveitis", VBool (historia_uveitis f));
        (u8 "articulaciones_afectadas", VList (map VStr (articulaciones f)));
        (u8 "perfil_inmuno", VDict [ (u8 "fr", VStr (val_fr f));
                                     (u8 "acpa", VStr (val_acpa f));
                                     (u8 "hla", VStr (val_hla f));
                                     (u8 "ana", VStr (val_ana f)) ]);
        (u8 "ana", VStr (val_ana f));
        (u8 "fr", VStr (val_fr f));
        (u8 "riesgo_uveitis", VStr riesgo);
        (u8 "historial_peso", VDict [ (hoy f, new_peso f) ]) ].

(** A filled form, for examples. *)
Definition formulario_ejemplo : formulario :=
  {| nuevo_nhc := u8 "NHC-001"; new_nombre := u8 "Lucía";
     f_nac := u8 "2015-04-02"; edad := 10; sexo := u8 "Mujer";
     new_peso := VInt 30; new_talla := VInt 135;
     bsa_redondeado := VInt 1; tipo := u8 "AIJ poliarticular";
     f_sintomas := u8 "2024-11-20"; historia_uveitis := false;
     articulaciones := []; val_fr := u8 "Positivo (+)";
     val_acpa := u8 "Negativo (-)"; val_hla := u8 "Negativo (-)";
     val_ana := u8 "Positivo (+)"; hoy := u8 "2025-01-15" |}.

End UiAlta.

(* ====================================================================== *)
(** ** ui_visita.py: the handlers of the visit form *)
(* ====================================================================== *)

Module UiVisitaFormulario.

(** [st.session_state] is a dict from keys to values.  A handler that can
    raise returns an [option]; [None] says that it raised. *)

(** *** Cancelling (lines 207-211) *)

Definition claves_visita : list str :=
  [ u8 "visita_step"; u8 "temp_visita_data"; u8 "visita_arts";
    u8 "ia_validacion_hecha"; u8 "ia_resultado_cache" ].

(** [if k in st.session_state: del st.session_state[k]]. *)
Definition paso_cancelar (ss : dict) (k : str) : dict :=
  if dict_has k ss then dict_del k ss else ss.

(** The session the cancel button leaves when it asks for the rerun. *)
Definition cancelar (session_state : dict) : dict :=
  fold_left paso_cancelar claves_visita
            (dict_set (u8 "modo_visita") (VBool false) session_state).

(** *** Attaching documents (lines 315-326) *)

(** An uploaded file: its name, its type and what [read()] returns. *)
Record upload : Type := {
  uf_name : str;
  uf_type : str;
  uf_read : value
}.

(** [f["nombre"]]; only a dict that has the key gives it. *)
Definition nombre_de (f : value) : option value :=
  match f with
  | VDict d => dict_lookup (u8 "nombre") d
  | _ => None
  end.

(** [[f["nombre"] for f in archivos]]. *)
Fixpoint nombres_de (archivos : list value) : option (list value) :=
  match archivos with
  | [] => Some []
  | f :: resto =>
      match nombre_de f, nombres_de resto with
      | Some n, Some ns => Some (n :: ns)
      | _, _ => None
      end
  end.

(** The record appended for a file. *)
Definition adjunto_de (uf : upload) : value :=
  VDict [ (u8 "nombre", VStr (uf_name uf));
          (u8 "tipo", VStr (uf_type uf));
          (u8 "contenido", uf_read uf) ].

(** One turn of the loop over the uploaded files. *)
Definition adjuntar_uno (archivos : option (list value)) (uf : upload)
  : option (list value) :=
  match archivos with
  | None => None
  | Some a =>
      match nombres_de a with
      | None => None
      | Some ns =>
          if existsb (fun n => eq_str n (uf_name uf)) ns then Some a
          else Some (a ++ [adjunto_de uf])
      end
  end.

(** The loop. *)
Definition adjuntar (uploaded_files : list upload) (archivos : list value)
  : option (list value) :=
  fold_left adjuntar_uno uploaded_files (Some archivos).

(** The whole step on the session. *)
Definition subir_archivos (uploaded_files : list upload) (session_state : dict)
  : option dict :=
  let ss :=
    if dict_has (u8 "archivos_subidos") session_state then session_state
    else dict_set (u8 "archivos_subidos") (VList []) session_state in
  match uploaded_files with
  | [] => Some ss
  | _ =>
      match get ss (u8 "archivos_subidos") with
      | VList a =>
          match adjuntar uploaded_files a with
          | Some a' => Some (dict_set (u8 "archivos_subidos") (VList a') ss)
          | None => None
          end
      | _ => None
      end
  end.

(** *** Adverse effects (lines 408-440) *)

(** [efectos_visita] is set up once per session (lines 427-429); only a
    list or a dict has [copy]. *)
Definition iniciar_efectos (data session_state : dict) : option dict :=
  let efectos_previos := get_or data (u8 "efectos_adversos") (VList []) in
  if dict_has (u8 "efectos_visita") session_state then Some session_state
  else if truthy efectos_previos then
    match efectos_previos with
    | VList _ | VDict _ =>
        Some (dict_set (u8 "efectos_visita") efectos_previos session_state)
    | _ => None
    end
  else Some (dict_set (u8 "efectos_visita") (VList []) session_state).

Definition nuevo_efecto (fecha tipo_med : str) (efectos_sel : list str)
           (descripcion_efecto gravedad : str) : value :=
  VDict [ (u8 "fecha", VStr fecha);
          (u8 "medicacion", VStr tipo_med);
          (u8 "efectos", VList (map VStr efectos_sel));
          (u8 "descripcion", VStr descripcion_efecto);
          (u8 "gravedad", VStr gravedad) ].

(** The button that adds an effect (lines 431-441). *)
Definition anadir_efecto (fecha tipo_med : str) (efectos_sel : list str)
           (descripcion_efecto gravedad : str) (session_state : dict)
  : option dict :=
  if match efectos_sel with [] => false | _ => true end
     || negb (str_eqb descripcion_efecto [])
  then
    match dict_lookup (u8 "efectos_visita") session_state with
    | Some (VList l) =>
        Some (dict_set (u8 "efectos_visita")
                (VList (l ++ [nuevo_efecto fecha tipo_med efectos_sel
                                           descripcion_efecto gravedad]))
                session_state)
    | _ => None
    end
  else Some session_state.

(** *** Saving (lines 582-641) *)

(** [v > 0]; a float is its bit pattern, positive up to infinity.  Other
    objects do not compare with a number. *)
Definition mayor_que_cero (v : value) : option bool :=
  match v with
  | VBool b => Some b
  | VInt z => Some (0 <? z)%Z
  | VFloat bits => Some ((0 <? bits)%N && (bits <=? 9218868437227405312)%N)
  | _ => None
  end.

(** [if clave not in paciente: paciente[clave] = {}] and then
    [paciente[clave][fecha_hoy] = v].  [paciente] is written in place:
    the dict is returned as it stands also when the assignment raises
    (the boolean is [false] then). *)
Definition anotar_historial (clave fecha_hoy : str) (v : value) (paciente : dict)
  : dict * bool :=
  let paciente :=
    if dict_has clave paciente then paciente
    else dict_set clave (VDict []) paciente in
  match get paciente clave with
  | VDict h => (dict_set clave (VDict (dict_set fecha_hoy v h)) paciente, true)
  | _ => (paciente, false)
  end.

(** Weight and height of the patient (lines 585-598). *)
Definition actualizar_biometria (fecha_hoy : str) (data paciente : dict)
  : dict * bool :=
  let nuevo_peso := get data (u8 "peso") in
  match mayor_que_cero nuevo_peso with
  | None => (paciente, false)
  | Some peso_positivo =>
      let '(paciente, ok) :=
        if peso_positivo
        then anotar_historial (u8 "historial_peso") fecha_hoy nuevo_peso
               (dict_set (u8 "peso_actual") nuevo_peso paciente)
        else (paciente, true) in
      if ok then
        let nueva_talla := get data (u8 "talla") in
        if truthy nueva_talla then
          match mayor_que_cero nueva_talla with
          | None => (paciente, false)
          | Some true =>
              anotar_historial (u8 "historial_talla") fecha_hoy nueva_talla
                (dict_set (u8 "talla_actual") nueva_talla
                   (dict_set (u8 "talla") nueva_talla paciente))
          | Some false => (paciente, true)
          end
        else (paciente, true)
      else (paciente, false)
  end.

Fixpoint todos_str (l : list value) : option (list str) :=
  match l with
  | [] => Some []
  | VStr s :: r =>
      match todos_str r with
      | Some ss => Some (s :: ss)
      | None => None
      end
  | _ :: _ => None
  end.

(** [", ".join(v)]: of the strings of a list, of the characters of a
    string, of the keys of a dict. *)
Definition unir_articulaciones (v : value) : option str :=
  match v with
  | VList l =>
      match todos_str l with
      | Some ss => Some (join (u8 ", ") ss)
      | None => None
      end
  | VStr s => Some (join (u8 ", ") (map (fun c => [c]) s))
  | VDict d => Some (join (u8 ", ") (map fst d))
  | _ => None
  end.

Section Guardar.

Variable py_repr : value -> str.

(** [curso] (line 603); a value in the text is its [str()]. *)
Definition curso_clinico (fecha_hoy : str) (data : dict) (arts_str plan_input : str)
  : str :=
  let fmt := py_str py_repr in
  let nuevo_peso := get data (u8 "peso") in
  let eva_med := get_or data (u8 "eva") (VInt 0) in
  let eva_pac := get_or data (u8 "eva_paciente") (VInt 0) in
  u8 "FECHA: " ++ fecha_hoy ++ u8 "
PESO: " ++ fmt nuevo_peso ++ u8 "kg | BSA: " ++ fmt (get data (u8 "bsa")) ++ u8 "m²
EVA: " ++ fmt eva_med ++ u8 "/10 (médico) | " ++ fmt eva_pac ++ u8 "/10 (paciente)
ANAMNESIS: " ++ fmt (get data (u8 "anamnesis")) ++ u8 "
EXPLORACIÓN: " ++ arts_str ++ u8 "
PLAN: " ++ plan_input.

(** [nueva_visita] (lines 623-633), handed to [guardar_historial]. *)
Definition nueva_visita (fecha_hoy : str) (data : dict) (plan_input curso : str)
           (archivos_guardados : list str) (session_state : dict) : dict :=
  [ (u8 "fecha", VStr fecha_hoy);
    (u8 "tipo", VStr (u8 "Seguimiento"));
    (u8 "anamnesis", get data (u8 "anamnesis"));
    (u8 "datos_basicos", VDict [ (u8 "peso", get data (u8 "peso"));
                                 (u8 "talla", get data (u8 "talla"));
                                 (u8 "bsa", get data (u8 "bsa")) ]);
    (u8 "exploracion", VDict data);
    (u8 "analitica", get data (u8 "analitica"));
    (u8 "eva_paciente", get_or data (u8 "eva_paciente") (VInt 0));
    (u8 "plan_tratamiento", VStr plan_input);
    (u8 "curso_clinico_generado", VStr curso);
    (u8 "auditoria_ia", get session_state (u8 "ia_resultado_cache"));
    (u8 "documentos_adjuntos", VList (map VStr archivos_guardados));
    (u8 "efectos_adversos", get_or session_state (u8 "efectos_visita") (VList [])) ].

(** The record saved when nothing before it raises: the joints joined,
    the course written, the visit built. *)
Definition visita_guardada (fecha_hoy : str) (data : dict) (plan_input : str)
           (archivos_guardados : list str) (session_state : dict) : option dict :=
  match unir_articulaciones (get_or data (u8 "arts_activas") (VList [])) with
  | None => None
  | Some arts_str =>
      Some (nueva_visita fecha_hoy data plan_input
              (curso_clinico fecha_hoy data arts_str plan_input)
              archivos_guardados session_state)
  end.

End Guardar.

(** The session after a save (lines 637-641). *)
Definition cerrar_guardado (session_state : dict) : dict :=
  dict_set (u8 "modo_visita") (VBool false)
    (dict_set (u8 "archivos_subidos") (VList []) session_state).

(** Examples: an attachment, and an upload that has its name and other
    contents. *)
Definition adjunto_ejemplo : value :=
  VDict [ (u8 "nombre", VStr (u8 "analitica.pdf"));
          (u8 "tipo", VStr (u8 "application/pdf"));
          (u8 "contenido", VStr (u8 "primera")) ].

Definition upload_ejemplo : upload :=
  {| uf_name := u8 "analitica.pdf"; uf_type := u8 "application/pdf";
     uf_read := VStr (u8 "segunda") |}.

End UiVisitaFormulario.

(* ====================================================================== *)
(** ** Vocabulary for the weight and height histories *)
(* ====================================================================== *)

Module VocabularioBiometria.

(** The history kept under [clave] can be written: the key is missing, or
    it holds a dict. *)
Definition historial_escribible (clave : str) (paciente : dict) : bool :=
  match dict_lookup clave paciente with
  | None => true
  | Some (VDict _) => true
  | Some _ => false
  end.

(** The entries of the history kept under [clave], none when the key is
    missing. *)
Definition historial_de (clave : str) (paciente : dict) : dict :=
  match dict_lookup clave paciente with
  | Some (VDict h) => h
  | _ => []
  end.

(** A patient with two weights on file, and the data of a visit. *)
Definition paciente_ejemplo : dict :=
  [ (u8 "id", VStr (u8 "P-001"));
    (u8 "peso_actual", VInt 30);
    (u8 "historial_peso",
      VDict [ (u8 "2024-01-10", VInt 29); (u8 "2024-03-02", VInt 30) ]) ].

Definition datos_ejemplo : dict :=
  [ (u8 "peso", VInt 32); (u8 "talla", VInt 0) ].

End VocabularioBiometria.

(* ====================================================================== *)
(** ** Facts about strings and dicts *)
(* ====================================================================== *)

Module Lemas.

Lemma str_eqb_eq (a b : str) : str_eqb a b = true <-> a = b.
Proof.
  revert b; induction a as [|x a IH]; intros [|y b]; simpl; split; intro H;
    try reflexivity; try discriminate.
  - apply andb_true_iff in H as [Hx Hab].
    apply N.eqb_eq in Hx. apply IH in Hab. congruence.
  - injection H as -> ->. rewrite N.eqb_refl. simpl. now apply IH.
Qed.

Lemma str_eqb_refl (a : str) : str_eqb a a = true.
Proof. now apply str_eqb_eq. Qed.

Lemma bool_eq_iff (a b : bool) : (a = true <-> b = true) -> a = b.
Proof. destruct a, b; intuition congruence. Qed.

Lemma starts_with_iff (pre s : str) :
  starts_with pre s = true <-> exists t, s = pre ++ t.
Proof.
  revert s; induction pre as [|x pre IH]; intros s; simpl.
  - split; [intros _; now exists s | reflexivity].
  - destruct s as [|y s].
    + split; [discriminate | intros [t Ht]; discriminate].
    + rewrite andb_true_iff, N.eqb_eq, IH. split.
      * intros [-> [t ->]]. now exists t.
      * intros [t Ht]. injection Ht as -> ->. split; [reflexivity | now exists t].
Qed.

Lemma contains_iff (sub s : str) :
  contains sub s = true <-> exists a b, s = a ++ sub ++ b.
Proof.
  induction s as [|c s IH].
  - simpl. rewrite orb_false_r, starts_with_iff. split.
    + intros [t Ht]. now exists [], t.
    + intros [a [b H]]. destruct a; [now exists b | discriminate].
  - cbn [contains]. rewrite orb_true_iff, starts_with_iff, IH. split.
    + intros [[t Ht] | [a [b H]]].
      * now exists [], t.
      * exists (c :: a), b. now rewrite H.
    + intros [[|x a] [b H]].
      * left. now exists b.
      * right. injection H as _ ->. now exists a, b.
Qed.

Lemma contains_rev (sub s : str) : contains sub (rev s) = contains (rev sub) s.
Proof.
  apply bool_eq_iff. rewrite !contains_iff. split; intros [a [b H]].
  - exists (rev b), (rev a).
    rewrite <- (rev_involutive s), H, !rev_app_distr, <- app_assoc. reflexivity.
  - exists (rev b), (rev a).
    rewrite H, !rev_app_distr, rev_involutive, <- app_assoc. reflexivity.
Qed.

(** Leading white space hides no occurrence of a text that starts with
    another character. *)
Lemma contains_drop_while (x : N) (sub s : str) :
  is_space x = false ->
  contains (x :: sub) (drop_while is_space s) = contains (x :: sub) s.
Proof.
  intros Hx. induction s as [|c s IH]; [reflexivity|].
  cbn [drop_while]. destruct (is_space c) eqn:Hc; [|reflexivity].
  rewrite IH. cbn [contains starts_with].
  destruct (N.eqb_spec x c) as [->|_]; [congruence | reflexivity].
Qed.

(** [strip] hides no occurrence of a text that neither starts nor ends
    with white space. *)
Lemma contains_strip (sub s : str) :
  (exists x t, sub = x :: t /\ is_space x = false) ->
  (exists y u, rev sub = y :: u /\ is_space y = false) ->
  contains sub (strip s) = contains sub s.
Proof.
  intros [x [t [-> Hx]]] [y [u [Hr Hy]]]. unfold strip.
  rewrite contains_rev, Hr, (contains_drop_while y u _ Hy), <- Hr, <- contains_rev.
  rewrite rev_involutive. exact (contains_drop_while x t s Hx).
Qed.

(** White space: the code points of [is_space], one by one. *)
Lemma is_space_casos (c : N) :
  is_space c = true ->
  In c [9; 10; 11; 12; 13; 28; 29; 30; 31; 32; 133; 160; 5760;
        8192; 8193; 8194; 8195; 8196; 8197; 8198; 8199; 8200; 8201; 8202;
        8232; 8233; 8239; 8287; 12288]%N.
Proof.
  unfold is_space. intros H.
  repeat (apply orb_true_iff in H; destruct H as [H|H]);
    repeat match goal with
      | H : (_ && _)%bool = true |- _ => apply andb_true_iff in H; destruct H
      | H : (_ <=? _)%N = true |- _ => apply N.leb_le in H
      | H : (_ =? _)%N = true |- _ => apply N.eqb_eq in H
      end;
    cbn [In]; lia.
Qed.

(** White space is lowercased to itself, is not the capital sigma, and is
    neither cased nor case-ignorable. *)
Lemma espacio_lower (c : N) :
  is_space c = true ->
  (c =? 931)%N = false /\ to_lower_full c = [c]
  /\ is_cased c = false /\ is_case_ignorable c = false.
Proof.
  intros H. apply is_space_casos in H. cbn [In] in H.
  repeat (destruct H as [<-|H]; [vm_compute; auto|]).
  destruct H.
Qed.

Lemma drop_while_partes (p : N -> bool) (s : str) :
  exists w, forallb p w = true /\ s = w ++ drop_while p s.
Proof.
  induction s as [|c s [w [Hw Hs]]]; [now exists []|].
  cbn [drop_while]. destruct (p c) eqn:Hc.
  - exists (c :: w). cbn [forallb app]. rewrite Hc, Hw. split; [reflexivity|].
    now rewrite <- Hs.
  - now exists [].
Qed.

Lemma forallb_rev (p : N -> bool) (s : str) :
  forallb p (rev s) = forallb p s.
Proof.
  apply bool_eq_iff. rewrite !forallb_forall. split; intros H x Hx; apply H.
  - now apply -> in_rev.
  - now apply in_rev.
Qed.

(** A text is its trimmed text between two runs of white space. *)
Lemma strip_partes (s : str) :
  exists w1 w2,
    forallb is_space w1 = true /\ forallb is_space w2 = true
    /\ s = w1 ++ strip s ++ w2.
Proof.
  destruct (drop_while_partes is_space s) as [w1 [H1 Hs]].
  destruct (drop_while_partes is_space (rev (drop_while is_space s)))
    as [w2 [H2 Hr]].
  exists w1, (rev w2). rewrite forallb_rev. repeat split; try assumption.
  unfold strip. rewrite <- rev_app_distr, <- Hr, rev_involutive. exact Hs.
Qed.

(** The context of a capital sigma. *)
Lemma cased_antes_app (p q : str) :
  cased_antes (p ++ q)
  = match drop_while is_case_ignorable p with
    | [] => cased_antes q
    | c :: _ => is_cased c
    end.
Proof.
  unfold cased_antes. induction p as [|c p IH]; [reflexivity|].
  cbn [app drop_while]. destruct (is_case_ignorable c); [exact IH | reflexivity].
Qed.

Lemma sin_cased_despues_app (p q : str) :
  sin_cased_despues (p ++ q)
  = match drop_while is_case_ignorable p with
    | [] => sin_cased_despues q
    | c :: _ => negb (is_cased c)
    end.
Proof.
  unfold sin_cased_despues. induction p as [|c p IH]; [reflexivity|].
  cbn [app drop_while]. destruct (is_case_ignorable c); [exact IH | reflexivity].
Qed.

Lemma cased_antes_espacios (w : str) :
  forallb is_space w = true -> cased_antes w = false.
Proof.
  destruct w as [|c w]; [reflexivity|]. cbn [forallb]. intros H.
  apply andb_true_iff in H as [H _].
  destruct (espacio_lower c H) as (_ & _ & Hc & Hi).
  unfold cased_antes. cbn [drop_while]. now rewrite Hi.
Qed.

Lemma sin_cased_despues_espacios (w : str) :
  forallb is_space w = true -> sin_cased_despues w = true.
Proof.
  destruct w as [|c w]; [reflexivity|]. cbn [forallb]. intros H.
  apply andb_true_iff in H as [H _].
  destruct (espacio_lower c H) as (_ & _ & Hc & Hi).
  unfold sin_cased_despues. cbn [drop_while]. now rewrite Hi, Hc.
Qed.

(** The lowercase of a part of a text depends on what surrounds it only
    through the context of its capital sigmas. *)
Lemma lower_aux_contexto (s a a' d d' : str) :
  (forall p, cased_antes (p ++ a) = cased_antes (p ++ a')) ->
  (forall p, sin_cased_despues (p ++ d) = sin_cased_despues (p ++ d')) ->
  lower_aux a s d = lower_aux a' s d'.
Proof.
  revert a a'. induction s as [|c s IH]; intros a a' Ha Hd; [reflexivity|].
  cbn [lower_aux]. unfold handle_capital_sigma.
  pose proof (Ha []) as Ha0. cbn [app] in Ha0.
  rewrite Ha0, (Hd s). f_equal.
  apply IH; [|exact Hd].
  intros p. change (c :: a) with ([c] ++ a). change (c :: a') with ([c] ++ a').
  rewrite !app_assoc. apply Ha.
Qed.

Lemma lower_aux_app (a x y d : str) :
  lower_aux a (x ++ y) d
  = lower_aux a x (y ++ d) ++ lower_aux (rev x ++ a) y d.
Proof.
  revert a. induction x as [|c x IH]; intros a; [reflexivity|].
  cbn [app lower_aux rev]. rewrite IH, <- !app_assoc. reflexivity.
Qed.

Lemma lower_aux_espacios (a w d : str) :
  forallb is_space w = true -> lower_aux a w d = w.
Proof.
  revert a. induction w as [|c w IH]; intros a H; [reflexivity|].
  cbn [forallb] in H. apply andb_true_iff in H as [Hc Hw].
  destruct (espacio_lower c Hc) as (Hs & Hl & _).
  cbn [lower_aux]. rewrite Hs, Hl, (IH _ Hw). reflexivity.
Qed.

(** Lowercasing a text lowercases its trimmed text, between the same
    runs of white space. *)
Lemma lower_strip (s : str) :
  exists w1 w2,
    forallb is_space w1 = true /\ forallb is_space w2 = true
    /\ lower s = w1 ++ lower (strip s) ++ w2.
Proof.
  destruct (strip_partes s) as [w1 [w2 [H1 [H2 Hs]]]].
  exists w1, w2. repeat split; try assumption.
  rewrite Hs at 1. unfold lower.
  rewrite lower_aux_app, lower_aux_app.
  rewrite (lower_aux_espacios _ w1 _ H1), (lower_aux_espacios _ w2 _ H2).
  f_equal. f_equal.
  apply lower_aux_contexto; intros p.
  - rewrite (cased_antes_app p (rev w1 ++ [])), (cased_antes_app p []).
    rewrite app_nil_r, cased_antes_espacios by now rewrite forallb_rev.
    reflexivity.
  - rewrite (sin_cased_despues_app p (w2 ++ [])), (sin_cased_despues_app p []).
    rewrite app_nil_r, sin_cased_despues_espacios by assumption.
    reflexivity.
Qed.

Lemma contains_tras_espacios (x : N) (sub w s : str) :
  is_space x = false -> forallb is_space w = true ->
  contains (x :: sub) (w ++ s) = contains (x :: sub) s.
Proof.
  intros Hx. induction w as [|c w IH]; intros Hw; [reflexivity|].
  cbn [forallb] in Hw. apply andb_true_iff in Hw as [Hc Hw].
  cbn [app contains starts_with]. rewrite (IH Hw).
  destruct (N.eqb_spec x c) as [->|_]; [congruence | reflexivity].
Qed.

(** Trimming does not change whether a lowercased text holds a word made
    of letters. *)
Lemma contains_lower_strip (sub s : str) :
  (exists x t, sub = x :: t /\ is_space x = false) ->
  (exists y u, rev sub = y :: u /\ is_space y = false) ->
  contains sub (lower (strip s)) = contains sub (lower s).
Proof.
  intros [x [t [-> Hx]]] [y [u [Hr Hy]]].
  destruct (lower_strip s) as [w1 [w2 [H1 [H2 ->]]]].
  rewrite (contains_tras_espacios x t w1 _ Hx H1).
  rewrite <- (rev_involutive (lower (strip s) ++ w2)) at 1.
  rewrite contains_rev, Hr, rev_app_distr.
  rewrite (contains_tras_espacios y u (rev w2)) by (try rewrite forallb_rev; assumption).
  rewrite <- Hr, <- contains_rev, rev_involutive. reflexivity.
Qed.

Lemma dict_has_false_get (k : str) (d : dict) :
  dict_has k d = false -> get d k = VNone.
Proof.
  unfold dict_has, get, get_or. now destruct (dict_lookup k d).
Qed.

Lemma lookup_get (k : str) (d : dict) (v : value) :
  dict_lookup k d = Some v -> get d k = v.
Proof. unfold get, get_or. now intros ->. Qed.

Lemma lookup_has (k : str) (d : dict) (v : value) :
  dict_lookup k d = Some v -> dict_has k d = true.
Proof. unfold dict_has. now intros ->. Qed.

(** [lower] beyond the Latin letters: the dotted capital I gives two code
    points, the Kelvin sign gives "k", and the capital sigma is final at
    the end of a word only. *)
Lemma lower_ejemplos :
  lower [80; 69; 82; 68; 304]%N = [112; 101; 114; 100; 105; 775]%N
  /\ lower [109; 103; 47; 8490; 103]%N = [109; 103; 47; 107; 103]%N
  /\ lower [927; 916; 927; 931; 32; 931; 917]%N
     = [959; 948; 959; 962; 32; 963; 949]%N.
Proof. vm_compute. repeat split. Qed.

(** The digits of [\d]: decimal digits of any script (here Basic Latin,
    Arabic-Indic and fullwidth), and not the superscript two or the
    fraction one half. *)
Lemma is_digit_ejemplos :
  is_digit 53 = true /\ is_digit 1635 = true /\ is_digit 65301 = true
  /\ is_digit 178 = false /\ is_digit 189 = false.
Proof. vm_compute. repeat split. Qed.

End Lemas.

(* ====================================================================== *)
(** ** Properties of the normaliser *)
(* ====================================================================== *)

Module NormalizadorProps.

Import UiVisita Vocabulario Lemas.

Lemma es_canonico_false (d : dict) :
  es_canonico d = false ->
  dict_has (u8 "analisis") d = false /\ dict_has (u8 "auditoria") d = false
  /\ dict_has (u8 "estado") d = false.
Proof.
  unfold es_canonico. intros H.
  apply orb_false_iff in H as [H H3]. apply orb_false_iff in H as [H1 H2].
  auto.
Qed.

Lemma solo_plano_split (d : dict) :
  solo_plano d = true -> es_canonico d = false /\ es_plano d = true.
Proof.
  unfold solo_plano. intros H. apply andb_true_iff in H as [H1 H2].
  apply negb_true_iff in H1. auto.
Qed.

(** The record a flat dict is reshaped into. *)
Lemma normalizar_plano (d : dict) :
  solo_plano d = true ->
  _normalizar_schema (VDict d) =
  Some (VDict
    [ (u8 "estado",
        VStr (if is_True (indicador_aij d) then u8 "Aprobada" else u8 "Alerta"));
      (u8 "analisis", VDict
        [ (u8 "farmaco", get d (u8 "farmaco"));
          (u8 "dosis_calculada", get d (u8 "dosis_calculada"));
          (u8 "dosis_mg_kg_detectada",
             get_or d (u8 "dosis_mg_kg_detectada") (get d (u8 "dosis_mg_kg")));
          (u8 "frecuencia",
             get_or d (u8 "frecuencia") (get d (u8 "frecuencia_texto")));
          (u8 "frecuencia_horas", get d (u8 "frecuencia_horas")) ]);
      (u8 "auditoria", VDict
        [ (u8 "es_aij", indicador_aij d);
          (u8 "es_tratamiento_aij", get d (u8 "es_tratamiento_aij"));
          (u8 "razon", get_or d (u8 "razon") (get d (u8 "razon_decision")));
          (u8 "razon_decision", get d (u8 "razon_decision")) ]);
      (u8 "decision", py_or (get d (u8 "decision")) (get d (u8 "severidad"))) ]).
Proof.
  intros H. apply solo_plano_split in H as [Hc Hp].
  unfold _normalizar_schema. rewrite Hc, Hp. unfold reshape.
  apply es_canonico_false in Hc as (_ & _ & He).
  rewrite (dict_has_false_get _ _ He). cbn [truthy negb].
  fold (indicador_aij d).
  destruct (is_True (indicador_aij d)); reflexivity.
Qed.

Lemma tres_claves_plano (d : dict) :
  solo_plano d = true -> tres_claves (normalizar_o_devolver (VDict d)) = true.
Proof.
  intros H. unfold normalizar_o_devolver. rewrite (normalizar_plano _ H).
  destruct (is_True (indicador_aij d)); vm_compute; reflexivity.
Qed.

Lemma tres_claves_fallback (t : str) : tres_claves (fallback t) = true.
Proof. vm_compute. reflexivity. Qed.

Lemma normalizar_canonico (d : dict) :
  es_canonico d = true -> normalizar_o_devolver (VDict d) = VDict d.
Proof. intros H. unfold normalizar_o_devolver, _normalizar_schema. now rewrite H. Qed.

(** Whatever dict the schema step returns, it returns again unchanged. *)
Lemma normalizar_punto_fijo (o : value) (d : dict) :
  normalizar_o_devolver o = VDict d -> normalizar_o_devolver (VDict d) = VDict d.
Proof.
  destruct o as [| | | | | |d0]; try (intros H; discriminate H).
  unfold normalizar_o_devolver at 1, _normalizar_schema.
  destruct (es_canonico d0) eqn:Hc.
  - intros H. injection H as <-. now apply normalizar_canonico.
  - destruct (es_plano d0) eqn:Hp.
    + unfold reshape. intros H. injection H as <-.
      apply normalizar_canonico. vm_compute. reflexivity.
    + intros H. injection H as <-.
      unfold normalizar_o_devolver, _normalizar_schema. now rewrite Hc, Hp.
Qed.

Lemma limpiar_texto_cases (E : externals) (t : str) :
  limpiar_texto E t = fallback t
  \/ exists o, limpiar_texto E t = normalizar_o_devolver o.
Proof.
  unfold limpiar_texto.
  destruct (repair_json E t) as [[| | | | |[|x l]|d]|]; eauto.
Qed.

Lemma limpiar_cases (E : externals) (x : respuesta) :
  limpiar_respuesta_ia E x = sin_respuesta
  \/ (exists t, limpiar_respuesta_ia E x = fallback t)
  \/ exists o, limpiar_respuesta_ia E x = normalizar_o_devolver o.
Proof.
  assert (Ht : forall t, limpiar_texto E t = sin_respuesta
      \/ (exists t', limpiar_texto E t = fallback t')
      \/ exists o, limpiar_texto E t = normalizar_o_devolver o).
  { intros t. destruct (limpiar_texto_cases E t) as [H|H]; eauto. }
  destruct x as [v|[raw|] [jd|] texto]; cbn.
  - destruct v; cbn; eauto.
  - apply Ht.
  - apply Ht.
  - destruct (truthy jd); eauto.
  - apply Ht.
Qed.

(** C1 (as the code has it).  The record has the keys [estado], [analisis]
    and [auditoria], none of them [None], on the paths where the normaliser
    builds it: for a missing response; for a dict that shows a flat field
    and none of the three keys, whether it is the input itself, its
    [json_dict], the repaired object or the first element of the repaired
    list; and for a text in which the repair finds no object (it raises, or
    returns neither a dict nor a non-empty list), where the record is the
    fallback one.  A dict that has one of the three keys is returned as it
    was received. *)
Theorem limpiar_claves_construidas (E : externals) :
  tres_claves (limpiar_respuesta_ia E (Data VNone)) = true
  /\ (forall d texto,
        solo_plano d = true ->
        tres_claves (limpiar_respuesta_ia E (Data (VDict d))) = true
        /\ tres_claves (limpiar_respuesta_ia E (Objeto None (Some (VDict d)) texto)) = true)
  /\ (forall x t d resto,
        x <> Data VNone -> paso_1 E x = inr t -> solo_plano d = true ->
        repair_json E t = Some (VDict d)
        \/ repair_json E t = Some (VList (VDict d :: resto)) ->
        tres_claves (limpiar_respuesta_ia E x) = true)
  /\ (forall x t,
        x <> Data VNone -> paso_1 E x = inr t -> sin_objeto (repair_json E t) = true ->
        limpiar_respuesta_ia E x = fallback t
        /\ tres_claves (limpiar_respuesta_ia E x) = true)
  /\ (forall d,
        es_canonico d = true ->
        limpiar_respuesta_ia E (Data (VDict d)) = VDict d).
Proof.
  assert (Hlimpiar : forall x t, x <> Data VNone -> paso_1 E x = inr t ->
            limpiar_respuesta_ia E x = limpiar_texto E t).
  { intros x t Hx Hp. unfold limpiar_respuesta_ia.
    destruct x as [v|raw jd texto].
    - destruct v; try (now rewrite Hp). now elim Hx.
    - now rewrite Hp. }
  split; [vm_compute; reflexivity|]. split; [|split; [|split]].
  - intros d texto H. split.
    + cbn. now apply tres_claves_plano.
    + assert (Ht : truthy (VDict d) = true).
      { apply solo_plano_split in H as [_ Hp]. destruct d; [discriminate Hp|reflexivity]. }
      unfold limpiar_respuesta_ia, paso_1. rewrite Ht. now apply tres_claves_plano.
  - intros x t d resto Hx Hp Hd Hr. rewrite (Hlimpiar _ _ Hx Hp).
    unfold limpiar_texto. destruct Hr as [-> | ->]; now apply tres_claves_plano.
  - intros x t Hx Hp Hs. rewrite (Hlimpiar _ _ Hx Hp).
    assert (Hf : limpiar_texto E t = fallback t).
    { unfold limpiar_texto.
      destruct (repair_json E t) as [[| | | | |[|y l]|d]|]; try reflexivity;
        discriminate Hs. }
    rewrite Hf. split; [reflexivity | apply tres_claves_fallback].
  - intros d Hd. cbn [limpiar_respuesta_ia paso_1]. now apply normalizar_canonico.
Qed.

(** C1, witness: a flat tool output handed over as a dict, and a sentence
    with no object in it handed over as a string. *)
Lemma limpiar_claves_construidas_witness :
  tres_claves (limpiar_respuesta_ia externos_ejemplo (Data (VDict plano_simple))) = true
  /\ tres_claves (limpiar_respuesta_ia externos_ejemplo
                    (Data (VStr (u8 "El plan es correcto y queda **aprobado**.")))) = true.
Proof.
  destruct (limpiar_claves_construidas externos_ejemplo) as (_ & Hd & _ & Hf & _).
  split.
  - apply (Hd plano_simple []). vm_compute. reflexivity.
  - apply (Hf (Data (VStr (u8 "El plan es correcto y queda **aprobado**.")))
             (u8 "El plan es correcto y queda **aprobado**.")).
    + discriminate.
    + reflexivity.
    + vm_compute. reflexivity.
Defined.

(** C1, counterexample: a dict that has [estado] alone is returned as it
    is, without [analisis] or [auditoria]; no external is consulted. *)
Lemma limpiar_solo_estado_sin_claves :
  tres_claves (VDict solo_estado) = false
  /\ dict_has (u8 "analisis") solo_estado = false
  /\ (forall E, limpiar_respuesta_ia E (Data (VDict solo_estado)) = VDict solo_estado).
Proof. repeat split. Qed.

(** C3 (as the code has it).  A dict that shows a flat field and none of
    the keys [estado], [analisis], [auditoria] is reshaped: [analisis] holds
    the drug, dose and frequency fields (the specific name before its
    alias), [auditoria] the relevance and justification fields, and [estado]
    is "Aprobada" exactly when the AIJ flag is [True], "Alerta" otherwise. *)
Theorem plano_reestructurado (E : externals) (d : dict) :
  es_canonico d = false -> es_plano d = true ->
  limpiar_respuesta_ia E (Data (VDict d)) =
  VDict
    [ (u8 "estado",
        VStr (if is_True (indicador_aij d) then u8 "Aprobada" else u8 "Alerta"));
      (u8 "analisis", VDict
        [ (u8 "farmaco", get d (u8 "farmaco"));
          (u8 "dosis_calculada", get d (u8 "dosis_calculada"));
          (u8 "dosis_mg_kg_detectada",
             get_or d (u8 "dosis_mg_kg_detectada") (get d (u8 "dosis_mg_kg")));
          (u8 "frecuencia",
             get_or d (u8 "frecuencia") (get d (u8 "frecuencia_texto")));
          (u8 "frecuencia_horas", get d (u8 "frecuencia_horas")) ]);
      (u8 "auditoria", VDict
        [ (u8 "es_aij", indicador_aij d);
          (u8 "es_tratamiento_aij", get d (u8 "es_tratamiento_aij"));
          (u8 "razon", get_or d (u8 "razon") (get d (u8 "razon_decision")));
          (u8 "razon_decision", get d (u8 "razon_decision")) ]);
      (u8 "decision", py_or (get d (u8 "decision")) (get d (u8 "severidad"))) ].
Proof.
  intros Hc Hp.
  assert (H : solo_plano d = true) by (unfold solo_plano; now rewrite Hc, Hp).
  cbn [limpiar_respuesta_ia paso_1]. unfold normalizar_o_devolver.
  now rewrite (normalizar_plano _ H).
Qed.

(** C3, witness: a flat tool output with [es_aij] set. *)
Lemma plano_reestructurado_witness :
  get_or
    match limpiar_respuesta_ia externos_ejemplo (Data (VDict plano_simple)) with
    | VDict r => r
    | _ => []
    end (u8 "estado") VNone = VStr (u8 "Aprobada").
Proof.
  rewrite (plano_reestructurado externos_ejemplo plano_simple eq_refl eq_refl).
  reflexivity.
Defined.

(** C3, counterexample: a flat record that carries [estado] is returned as
    it is; no [analisis] and no [auditoria] is built from its flat fields. *)
Lemma plano_con_estado_no_se_reestructura :
  es_plano plano_con_estado = true
  /\ _normalizar_schema (VDict plano_con_estado) = Some (VDict plano_con_estado)
  /\ (forall E, limpiar_respuesta_ia E (Data (VDict plano_con_estado))
                = VDict plano_con_estado)
  /\ dict_has (u8 "analisis") plano_con_estado = false
  /\ dict_has (u8 "auditoria") plano_con_estado = false.
Proof. repeat split. Qed.

(** C9 (as the code has it).  When the normaliser returns a dict, handing
    that dict back to it returns the same dict. *)
Theorem limpiar_idempotente_en_registros (E : externals) (x : respuesta) (d : dict) :
  limpiar_respuesta_ia E x = VDict d ->
  limpiar_respuesta_ia E (Data (VDict d)) = VDict d.
Proof.
  intros H. cbn [limpiar_respuesta_ia paso_1].
  destruct (limpiar_cases E x) as [Hx | [[t Hx] | [o Hx]]]; rewrite Hx in H.
  - injection H as <-. now apply normalizar_canonico.
  - unfold fallback in H. injection H as <-. now apply normalizar_canonico.
  - now apply normalizar_punto_fijo with o.
Qed.

(** C9, witness: the record reshaped from a flat tool output. *)
Lemma limpiar_idempotente_en_registros_witness :
  exists d,
    limpiar_respuesta_ia externos_ejemplo (Data (VDict plano_simple)) = VDict d
    /\ limpiar_respuesta_ia externos_ejemplo (Data (VDict d)) = VDict d.
Proof.
  eexists. split; [reflexivity|].
  apply (limpiar_idempotente_en_registros externos_ejemplo (Data (VDict plano_simple))).
  reflexivity.
Defined.

(** C9, counterexample: the text [[null]] is repaired to a list whose first
    element is [None]; that element is returned, and handing it back gives
    the record of a missing response. *)
Lemma limpiar_no_idempotente_lista :
  limpiar_respuesta_ia externos_ejemplo (Data (VStr (u8 "[null]"))) = VNone
  /\ limpiar_respuesta_ia externos_ejemplo
       (Data (limpiar_respuesta_ia externos_ejemplo (Data (VStr (u8 "[null]")))))
     = sin_respuesta.
Proof. split; vm_compute; reflexivity. Qed.

End NormalizadorProps.

(* ====================================================================== *)
(** ** Properties of the decision *)
(* ====================================================================== *)

Module DecisionProps.

Import UiVisita Vocabulario Lemas NormalizadorProps.

Lemma palabra_sin_espacios_rech :
  (exists x t, u8 "rech" = x :: t /\ is_space x = false)
  /\ (exists y u, rev (u8 "rech") = y :: u /\ is_space y = false).
Proof. split; vm_compute; do 2 eexists; split; reflexivity. Qed.

Lemma palabra_sin_espacios_aprob :
  (exists x t, u8 "aprob" = x :: t /\ is_space x = false)
  /\ (exists y u, rev (u8 "aprob") = y :: u /\ is_space y = false).
Proof. split; vm_compute; do 2 eexists; split; reflexivity. Qed.

(** The decision once [auditoria] is known to be a dict. *)
Lemma decision_tarjeta_eq (E : externals) (r a : dict) :
  get_or r (u8 "auditoria") (VDict []) = VDict a ->
  decision_tarjeta E (VDict r) =
  let decision_txt := decision_txt_de E r a in
  if contains (u8 "aprob") decision_txt then Ok Aprobada
  else if contains (u8 "rech") decision_txt then Ok Rechazada
  else if contains (u8 "alert") decision_txt then Ok Alerta
  else if es_valido_de r a then Ok Aprobada
  else if _es_rechazo_por_texto (razon_texto_de E r a) then Ok Rechazada
  else Ok Alerta.
Proof. unfold decision_tarjeta. now intros ->. Qed.

(** The decision text when the hint is a string found in [decision], or in
    [severidad] while [decision] is missing or falsy. *)
Lemma decision_txt_de_str (E : externals) (r a : dict) (s : str) :
  s <> [] ->
  dict_lookup (u8 "decision") r = Some (VStr s)
  \/ (truthy (get r (u8 "decision")) = false
      /\ dict_lookup (u8 "severidad") r = Some (VStr s)) ->
  decision_txt_de E r a = lower (strip s).
Proof.
  intros Hs H. unfold decision_txt_de.
  assert (Ht : truthy (VStr s) = true).
  { cbn. destruct s; [now elim Hs | reflexivity]. }
  destruct H as [H | [Hd H]].
  - rewrite (lookup_get _ _ _ H). unfold py_or. now rewrite !Ht.
  - rewrite (lookup_get _ _ _ H). unfold py_or. now rewrite Hd, Ht.
Qed.

(** C2.  A record whose decision hint (the [decision] field, or [severidad]
    when [decision] is missing or empty) is a text that holds "rech" and not
    "aprob", letter case aside, is decided Rechazada, whatever its [estado]
    and its [auditoria] flags say; so is the record with estado "Aprobada"
    and decision "rechazada", whose [estado] alone would approve it. *)
Theorem decision_explicita_rechaza :
  (forall (E : externals) (r a : dict) (s : str),
      get_or r (u8 "auditoria") (VDict []) = VDict a ->
      dict_lookup (u8 "decision") r = Some (VStr s)
      \/ (truthy (get r (u8 "decision")) = false
          /\ dict_lookup (u8 "severidad") r = Some (VStr s)) ->
      contains (u8 "rech") (lower s) = true ->
      contains (u8 "aprob") (lower s) = false ->
      decision_tarjeta E (VDict r) = Ok Rechazada)
  /\ es_valido_de aprobada_con_rechazo [] = true
  /\ (forall E : externals,
        decision_tarjeta E (VDict aprobada_con_rechazo) = Ok Rechazada).
Proof.
  assert (Hgen : forall (E : externals) (r a : dict) (s : str),
      get_or r (u8 "auditoria") (VDict []) = VDict a ->
      dict_lookup (u8 "decision") r = Some (VStr s)
      \/ (truthy (get r (u8 "decision")) = false
          /\ dict_lookup (u8 "severidad") r = Some (VStr s)) ->
      contains (u8 "rech") (lower s) = true ->
      contains (u8 "aprob") (lower s) = false ->
      decision_tarjeta E (VDict r) = Ok Rechazada).
  { intros E r a s Ha Hd Hr Hn.
    assert (Hs : s <> []) by (intros ->; discriminate Hr).
    rewrite (decision_tarjeta_eq E r a Ha). cbv zeta.
    rewrite (decision_txt_de_str E r a s Hs Hd).
    destruct palabra_sin_espacios_rech as [R1 R2].
    destruct palabra_sin_espacios_aprob as [A1 A2].
    rewrite (contains_lower_strip _ s A1 A2), Hn.
    rewrite (contains_lower_strip _ s R1 R2), Hr. reflexivity. }
  split; [exact Hgen|]. split; [reflexivity|].
  intros E.
  apply (Hgen E aprobada_con_rechazo [] (u8 "rechazada")).
  - reflexivity.
  - left. reflexivity.
  - vm_compute. reflexivity.
  - vm_compute. reflexivity.
Qed.

(** C2, witness: severity "RECHAZADO por dosis" on a record whose flags
    approve it. *)
Lemma decision_explicita_rechaza_witness :
  decision_tarjeta externos_ejemplo
    (VDict [ (u8 "estado", VStr (u8 "Aprobada"));
             (u8 "auditoria", VDict [ (u8 "es_aij", VBool true) ]);
             (u8 "severidad", VStr (u8 " RECHAZADO por dosis ")) ])
  = Ok Rechazada.
Proof.
  apply (proj1 decision_explicita_rechaza externos_ejemplo _
           [ (u8 "es_aij", VBool true) ] (u8 " RECHAZADO por dosis ")).
  - reflexivity.
  - right. split; reflexivity.
  - vm_compute. reflexivity.
  - vm_compute. reflexivity.
Defined.

Lemma decision_txt_de_vacio (E : externals) (r a : dict) :
  dict_has (u8 "decision") r = false ->
  dict_has (u8 "severidad") r = false ->
  dict_has (u8 "decision") a = false ->
  decision_txt_de E r a = [].
Proof.
  intros H1 H2 H3. unfold decision_txt_de.
  rewrite (dict_has_false_get _ _ H1), (dict_has_false_get _ _ H2),
    (dict_has_false_get _ _ H3).
  reflexivity.
Qed.

Lemma es_rechazo_por_texto_eq (t : str) :
  _es_rechazo_por_texto t = any_in palabras_rechazo (lower t).
Proof.
  unfold _es_rechazo_por_texto. destruct (str_eqb t []) eqn:H; [|reflexivity].
  apply str_eqb_eq in H. now subst.
Qed.

(** C4 (as the code has it).  The decision hint is the first truthy of
    [decision], [severidad] and the [decision] nested in [auditoria], as
    text, trimmed and lowercased.  A record whose hint holds none of
    "aprob", "rech" and "alert", and that has no approval flag (estado is
    not "Aprobada", neither [es_tratamiento_aij] nor [es_aij] is [True]),
    is decided Rechazada when the lowercased justification text holds one
    of the rejection keywords and Alerta when it holds none.  The hint is
    empty, so this applies, when [decision] and [severidad] are missing,
    [None] or otherwise falsy and the nested [decision] is missing, [None]
    or a blank text.  The record with estado "Alerta" and razon "dosis
    excesiva detectada" is decided Rechazada. *)
Theorem decision_por_texto :
  (forall (E : externals) (r a : dict),
      get_or r (u8 "auditoria") (VDict []) = VDict a ->
      contains (u8 "aprob") (decision_txt_de E r a) = false ->
      contains (u8 "rech") (decision_txt_de E r a) = false ->
      contains (u8 "alert") (decision_txt_de E r a) = false ->
      eq_str (get_or r (u8 "estado") (VStr (u8 "Desconocido"))) (u8 "Aprobada") = false ->
      is_True (get a (u8 "es_tratamiento_aij")) = false ->
      is_True (get a (u8 "es_aij")) = false ->
      decision_tarjeta E (VDict r) =
      Ok (if any_in palabras_rechazo (lower (razon_texto_de E r a))
          then Rechazada else Alerta))
  /\ (forall (E : externals) (r a : dict),
        get_or r (u8 "auditoria") (VDict []) = VDict a ->
        truthy (get r (u8 "decision")) = false ->
        truthy (get r (u8 "severidad")) = false ->
        get a (u8 "decision") = VNone
        \/ (exists s, get a (u8 "decision") = VStr s /\ strip s = []) ->
        eq_str (get_or r (u8 "estado") (VStr (u8 "Desconocido"))) (u8 "Aprobada") = false ->
        is_True (get a (u8 "es_tratamiento_aij")) = false ->
        is_True (get a (u8 "es_aij")) = false ->
        decision_tarjeta E (VDict r) =
        Ok (if any_in palabras_rechazo (lower (razon_texto_de E r a))
            then Rechazada else Alerta))
  /\ (forall E : externals,
        decision_tarjeta E (VDict alerta_dosis_excesiva) = Ok Rechazada).
Proof.
  assert (Hgen : forall (E : externals) (r a : dict),
      get_or r (u8 "auditoria") (VDict []) = VDict a ->
      contains (u8 "aprob") (decision_txt_de E r a) = false ->
      contains (u8 "rech") (decision_txt_de E r a) = false ->
      contains (u8 "alert") (decision_txt_de E r a) = false ->
      eq_str (get_or r (u8 "estado") (VStr (u8 "Desconocido"))) (u8 "Aprobada") = false ->
      is_True (get a (u8 "es_tratamiento_aij")) = false ->
      is_True (get a (u8 "es_aij")) = false ->
      decision_tarjeta E (VDict r) =
      Ok (if any_in palabras_rechazo (lower (razon_texto_de E r a))
          then Rechazada else Alerta)).
  { intros E r a Ha H1 H2 H3 He Ht Hj.
    rewrite (decision_tarjeta_eq E r a Ha). cbv zeta.
    rewrite H1, H2, H3.
    unfold es_valido_de. rewrite He, Ht, Hj. cbn [orb].
    rewrite es_rechazo_por_texto_eq.
    now destruct (any_in palabras_rechazo (lower (razon_texto_de E r a))). }
  assert (Hvacia : forall (E : externals) (r a : dict),
      truthy (get r (u8 "decision")) = false ->
      truthy (get r (u8 "severidad")) = false ->
      get a (u8 "decision") = VNone
      \/ (exists s, get a (u8 "decision") = VStr s /\ strip s = []) ->
      decision_txt_de E r a = []).
  { intros E r a H1 H2 H3. unfold decision_txt_de, py_or. rewrite H1, H2.
    destruct H3 as [-> | [s [-> Hs]]]; cbn [_coerce_text py_str].
    - reflexivity.
    - now rewrite Hs. }
  split; [exact Hgen|]. split.
  - intros E r a Ha H1 H2 H3 He Ht Hj.
    apply (Hgen E r a Ha); try assumption;
      rewrite (Hvacia E r a H1 H2 H3); vm_compute; reflexivity.
  - intros E.
    rewrite (Hgen E alerta_dosis_excesiva
               [ (u8 "es_aij", VNone); (u8 "razon", VStr (u8 "dosis excesiva detectada")) ]);
      reflexivity.
Qed.

(** C4, witness: the decision fields are there and hold [None], and the
    justification has no keyword: the decision is Alerta. *)
Lemma decision_por_texto_witness :
  decision_tarjeta externos_ejemplo (VDict alerta_decision_nula) = Ok Alerta.
Proof.
  rewrite (proj1 (proj2 decision_por_texto) externos_ejemplo alerta_decision_nula
             [ (u8 "es_aij", VNone); (u8 "decision", VNone);
               (u8 "razon", VStr (u8 "revisar pauta")) ]);
    try reflexivity.
  left. reflexivity.
Defined.

(** C4, counterexample: a record with no [decision] or [severidad] field
    and no approval flag, which the normaliser returns as it is, and whose
    justification holds the rejection keyword "dosis excesiva"; the
    [decision] nested in its [auditoria] makes the card decide Aprobada. *)
Lemma decision_anidada_gana_al_texto :
  dict_has (u8 "decision") alerta_con_decision_anidada = false
  /\ dict_has (u8 "severidad") alerta_con_decision_anidada = false
  /\ eq_str (get_or alerta_con_decision_anidada (u8 "estado")
                    (VStr (u8 "Desconocido"))) (u8 "Aprobada") = false
  /\ is_True (get auditoria_con_decision (u8 "es_tratamiento_aij")) = false
  /\ is_True (get auditoria_con_decision (u8 "es_aij")) = false
  /\ (forall E : externals,
        limpiar_respuesta_ia E (Data (VDict alerta_con_decision_anidada))
        = VDict alerta_con_decision_anidada)
  /\ (forall E : externals,
        any_in palabras_rechazo
          (lower (razon_texto_de E alerta_con_decision_anidada auditoria_con_decision))
        = true)
  /\ (forall E : externals,
        decision_tarjeta E (VDict alerta_con_decision_anidada) = Ok Aprobada).
Proof. repeat split. Qed.

(** C10.  A flat record whose [es_aij] is [False] and whose
    [es_tratamiento_aij] is [True], with no [estado], [decision] or
    [severidad], is normalised with estado "Alerta" ([es_tratamiento_aij]
    is read for the state only when [es_aij] is missing or [None], where
    the state is "Aprobada"), and the card decides Aprobada for the
    normalised record. *)
Theorem alerta_normalizada_aprobada_en_tarjeta (E : externals) (d : dict) :
  es_canonico d = false ->
  dict_lookup (u8 "es_tratamiento_aij") d = Some (VBool true) ->
  dict_has (u8 "decision") d = false ->
  dict_has (u8 "severidad") d = false ->
  (dict_lookup (u8 "es_aij") d = Some (VBool false) ->
   exists r,
     limpiar_respuesta_ia E (Data (VDict d)) = VDict r
     /\ get r (u8 "estado") = VStr (u8 "Alerta")
     /\ decision_tarjeta E (VDict r) = Ok Aprobada)
  /\ (is_None (get d (u8 "es_aij")) = true ->
      exists r,
        limpiar_respuesta_ia E (Data (VDict d)) = VDict r
        /\ get r (u8 "estado") = VStr (u8 "Aprobada")).
Proof.
  intros Hc Ht Hd Hs.
  assert (Hp : es_plano d = true).
  { unfold es_plano. apply existsb_exists. exists (u8 "es_tratamiento_aij").
    split; [vm_compute; tauto | now apply lookup_has with (VBool true)]. }
  pose proof (plano_claves := normalizar_plano d).
  assert (Hsp : solo_plano d = true) by (unfold solo_plano; now rewrite Hc, Hp).
  specialize (plano_claves Hsp).
  assert (Hl : forall v, limpiar_respuesta_ia E (Data (VDict d)) = v <->
                         _normalizar_schema (VDict d) = Some v).
  { intros v. cbn [limpiar_respuesta_ia paso_1]. unfold normalizar_o_devolver.
    rewrite plano_claves. split; [intros <-; reflexivity | intros H; now injection H]. }
  split.
  - intros Ha. eexists. split; [apply Hl; exact plano_claves|].
    unfold indicador_aij.
    rewrite (lookup_get _ _ _ Ha), (lookup_get _ _ _ Ht),
      (dict_has_false_get _ _ Hd), (dict_has_false_get _ _ Hs).
    split; reflexivity.
  - intros Ha. eexists. split; [apply Hl; exact plano_claves|].
    unfold indicador_aij. rewrite Ha, (lookup_get _ _ _ Ht). reflexivity.
Qed.

(** C10, witness: the record with [es_aij] [False] and
    [es_tratamiento_aij] [True]. *)
Lemma alerta_normalizada_aprobada_en_tarjeta_witness :
  exists r,
    limpiar_respuesta_ia externos_ejemplo (Data (VDict plano_contradictorio)) = VDict r
    /\ get r (u8 "estado") = VStr (u8 "Alerta")
    /\ decision_tarjeta externos_ejemplo (VDict r) = Ok Aprobada.
Proof.
  apply (alerta_normalizada_aprobada_en_tarjeta externos_ejemplo plano_contradictorio);
    reflexivity.
Defined.

End DecisionProps.

(* ====================================================================== *)
(** ** Properties of the extractor and the responder *)
(* ====================================================================== *)

Module PatientBotProps.

Import PatientBot Vocabulario Lemas.

Lemma subsecuencia_skip_end {A : Type} (x : A) (l1 l2 : list A) :
  subsecuencia l1 l2 -> subsecuencia l1 (l2 ++ [x]).
Proof.
  induction 1 as [|y l1 l2 _ IH|y l1 l2 _ IH]; cbn.
  - apply sub_skip, sub_nil.
  - now apply sub_skip.
  - now apply sub_take.
Qed.

Lemma subsecuencia_take_end {A : Type} (x : A) (l1 l2 : list A) :
  subsecuencia l1 l2 -> subsecuencia (l1 ++ [x]) (l2 ++ [x]).
Proof.
  induction 1 as [|y l1 l2 _ IH|y l1 l2 _ IH]; cbn.
  - apply sub_take, sub_nil.
  - now apply sub_skip.
  - now apply sub_take.
Qed.

(** The loop over the table keeps the lines in the order of the table. *)
Lemma bucle_en_orden (texto_lower : str) (resto hechos : list med_info)
      (ms : list med_info) (medicaciones : list str) :
  subsecuencia ms hechos ->
  Forall2 (fun m x => linea texto_lower m = Some x) ms medicaciones ->
  exists ms',
    subsecuencia ms' (hechos ++ resto)
    /\ Forall2 (fun m x => linea texto_lower m = Some x) ms'
         (fold_left (paso_medicamento texto_lower) resto medicaciones).
Proof.
  revert hechos ms medicaciones.
  induction resto as [|m resto IH]; intros hechos ms medicaciones Hs Hf.
  - exists ms. now rewrite app_nil_r.
  - cbn [fold_left].
    replace (hechos ++ m :: resto) with ((hechos ++ [m]) ++ resto)
      by (rewrite <- app_assoc; reflexivity).
    unfold paso_medicamento at 2.
    destruct (List.find (fun variante => contains variante texto_lower) (variantes m))
      as [variante|] eqn:Hfind.
    + destruct (str_in (med_str_de m variante texto_lower) medicaciones).
      * apply (IH (hechos ++ [m]) ms); [now apply subsecuencia_skip_end | exact Hf].
      * apply (IH (hechos ++ [m]) (ms ++ [m])).
        -- now apply subsecuencia_take_end.
        -- apply Forall2_app; [exact Hf|].
           constructor; [|constructor]. unfold linea. now rewrite Hfind.
    + apply (IH (hechos ++ [m]) ms); [now apply subsecuencia_skip_end | exact Hf].
Qed.

(** C8.  The plan "Metotrexato 15 mg semanal y Ácido Fólico 5 mg diario"
    gives two lines, Metotrexato with 15 mg and semanal, then Ácido Fólico
    with 5 mg and diario; the doses are what the pattern captures after each
    name.  The order is the table's: for every plan the lines are those of
    a subsequence of the table, and with the two drugs written the other
    way round Metotrexato is still listed first. *)
Theorem extraer_plan_ejemplo :
  _extraer_medicaciones_del_plan (VStr plan_ejemplo)
  = Ok (Some [ u8 "💉 **Metotrexato** 15 mg (semanal)";
               u8 "💊 **Ácido Fólico** 5 mg (diario)" ])
  /\ re_search (patron_dosis (u8 "metotrexato")) (lower plan_ejemplo)
     = Some (Some (u8 "15"))
  /\ re_search (patron_dosis (u8 "ácido fólico")) (lower plan_ejemplo)
     = Some (Some (u8 "5"))
  /\ map med_nombre medicamentos_info
     = [ u8 "Metotrexato"; u8 "Ácido Fólico"; u8 "Ibuprofeno"; u8 "Naproxeno";
         u8 "Prednisona"; u8 "Adalimumab (Humira)"; u8 "Tocilizumab";
         u8 "Etanercept" ]
  /\ _extraer_medicaciones_del_plan (VStr plan_invertido)
     = Ok (Some [ u8 "💉 **Metotrexato** 15 mg (semanal)";
                  u8 "💊 **Ácido Fólico** 5 mg (semanal)" ])
  /\ (forall (plan : str) (medicaciones : list str),
        _extraer_medicaciones_del_plan (VStr plan) = Ok (Some medicaciones) ->
        exists ms,
          subsecuencia ms medicamentos_info
          /\ Forall2 (fun m x => linea (lower plan) m = Some x) ms medicaciones).
Proof.
  do 5 (split; [vm_compute; reflexivity|]).
  intros plan medicaciones H.
  unfold _extraer_medicaciones_del_plan in H.
  destruct (negb (truthy (VStr plan))); [discriminate H|].
  destruct (bucle_en_orden (lower plan) medicamentos_info [] [] [])
    as [ms [Hs Hf]]; [constructor | constructor |].
  cbn [app] in Hs.
  destruct (fold_left (paso_medicamento (lower plan)) medicamentos_info [])
    as [|x l] eqn:Hfold; [discriminate H|].
  injection H as <-. now exists ms.
Qed.

(** C8, witness: the two lines of the example are those of the first two
    drugs of the table. *)
Lemma extraer_plan_ejemplo_witness :
  exists ms,
    subsecuencia ms medicamentos_info
    /\ Forall2 (fun m x => linea (lower plan_ejemplo) m = Some x) ms
         [ u8 "💉 **Metotrexato** 15 mg (semanal)";
           u8 "💊 **Ácido Fólico** 5 mg (diario)" ].
Proof.
  apply (proj2 (proj2 (proj2 (proj2 (proj2 extraer_plan_ejemplo)))) plan_ejemplo).
  vm_compute. reflexivity.
Defined.

Section Env.

Variable store : Type.
Variable store_truthy : store -> bool.
Variable RAG_DISPONIBLE : bool.
Variable cargar_conocimiento : result (option store).
Variable consultar_rag : store -> str -> result str.
Variable py_repr : value -> str.

Let responder :=
  responder_duda_paciente store_truthy RAG_DISPONIBLE cargar_conocimiento
    consultar_rag py_repr.

Lemma no_es_saludo (t nombre : str) :
  primero t <> Some 161%N -> Ok t <> Ok (texto_saludo nombre).
Proof. intros H Heq. injection Heq as ->. now apply H. Qed.

Lemma distintos_por_primero (t u : str) :
  primero t <> primero u -> @Ok str t <> Ok u.
Proof. intros H Heq. apply H. now injection Heq as ->. Qed.

Lemma primero_app (a b : str) (c : N) : primero a = Some c -> primero (a ++ b) = Some c.
Proof. destruct a; [discriminate | trivial]. Qed.

Lemma primero_lista (meds : list str) (acc : str) (c : N) :
  primero acc = Some c ->
  primero (fold_left (fun respuesta med => respuesta ++ u8 "• " ++ med ++ [10%N])
                     meds acc) = Some c.
Proof.
  revert acc. induction meds as [|m meds IH]; intros acc H; [exact H|].
  cbn [fold_left]. apply IH. now apply primero_app.
Qed.

Lemma rama_olvido_no_saludo (p nombre : str) :
  Ok (rama_olvido p) <> Ok (texto_saludo nombre).
Proof.
  apply no_es_saludo. unfold rama_olvido.
  destruct (any_in palabras_metotrexato p); [vm_compute; discriminate|].
  destruct (any_in palabras_folico p); [vm_compute; discriminate|].
  destruct (any_in palabras_adalimumab p); vm_compute; discriminate.
Qed.

Lemma rama_medicacion_no_saludo (historial : list value) (nombre : str) :
  rama_medicacion py_repr historial <> Ok (texto_saludo nombre).
Proof.
  unfold rama_medicacion.
  destruct (ultimo_plan_de historial) as [plan|e]; [|discriminate].
  destruct (truthy plan).
  - destruct (_extraer_medicaciones_del_plan plan) as [[meds|]|e]; [| |discriminate].
    + apply no_es_saludo.
      rewrite (primero_app _ _ 128138%N); [discriminate|].
      apply primero_lista. reflexivity.
    + apply no_es_saludo. rewrite (primero_app _ _ 128203%N); [discriminate|reflexivity].
  - apply no_es_saludo. vm_compute. discriminate.
Qed.

(** The knowledge-lookup branch returns an answer under its heading, the
    final message, or the exception of the loading. *)
Lemma rama_rag_cases (pregunta : str) (st : session store) :
  let r := fst (rama_rag store_truthy RAG_DISPONIBLE cargar_conocimiento
                  consultar_rag pregunta st) in
  r = Ok texto_fallback
  \/ (exists t, r = Ok (cabecera_rag ++ t))
  \/ (exists e, r = Raised e /\ cargar_conocimiento = Raised e).
Proof.
  cbv zeta. unfold rama_rag.
  assert (Hcierre : forall (t : str) (st' : session store),
    fst (cierre t, st') = Ok texto_fallback
    \/ (exists t', fst (cierre t, st') = Ok (cabecera_rag ++ t'))
    \/ (exists e, fst (cierre t, st') = Raised e /\ cargar_conocimiento = Raised e)).
  { intros t st'. cbn [fst]. unfold cierre.
    destruct (negb (str_eqb t (u8 "NO_CONTEXT"))); eauto. }
  destruct RAG_DISPONIBLE; [|apply Hcierre].
  destruct (vectorstore_cache st) as [vs|].
  - apply Hcierre.
  - destruct cargar_conocimiento as [c|e]; [apply Hcierre|].
    right. right. exists e. split; reflexivity.
Qed.

Lemma rama_rag_no_saludo (pregunta nombre : str) (st : session store) :
  fst (rama_rag store_truthy RAG_DISPONIBLE cargar_conocimiento
         consultar_rag pregunta st) <> Ok (texto_saludo nombre).
Proof.
  destruct (rama_rag_cases pregunta st) as [H | [[t H] | [e [H _]]]];
    cbv zeta in H; rewrite H.
  - apply no_es_saludo. vm_compute. discriminate.
  - apply no_es_saludo. rewrite (primero_app _ _ 128218%N); [discriminate|reflexivity].
  - discriminate.
Qed.

(** The responder, branch by branch. *)
Lemma responder_eq (pregunta : str) (historial : list value) (nombre : str)
      (st : session store) :
  responder pregunta historial nombre st =
  let p := lower pregunta in
  if str_in p saludos then (Ok (texto_saludo nombre), st)
  else if any_in palabras_urgencia p then (Ok texto_urgencia, st)
  else if any_in palabras_olvido p then (Ok (rama_olvido p), st)
  else if any_in palabras_medicacion p then (rama_medicacion py_repr historial, st)
  else if any_in palabras_cita p then (Ok texto_citas, st)
  else rama_rag store_truthy RAG_DISPONIBLE cargar_conocimiento consultar_rag pregunta st.
Proof. reflexivity. Qed.

Lemma saludo_sii (pregunta : str) (historial : list value) (nombre : str)
      (st : session store) :
  fst (responder pregunta historial nombre st) = Ok (texto_saludo nombre)
  <-> str_in (lower pregunta) saludos = true.
Proof.
  rewrite responder_eq. cbv zeta.
  destruct (str_in (lower pregunta) saludos); [split; reflexivity|].
  split; [|discriminate]. intros H. exfalso. revert H.
  destruct (any_in palabras_urgencia (lower pregunta)).
  { cbn [fst]. apply no_es_saludo. vm_compute. discriminate. }
  destruct (any_in palabras_olvido (lower pregunta)).
  { cbn [fst]. apply rama_olvido_no_saludo. }
  destruct (any_in palabras_medicacion (lower pregunta)).
  { cbn [fst]. apply rama_medicacion_no_saludo. }
  destruct (any_in palabras_cita (lower pregunta)).
  { cbn [fst]. apply no_es_saludo. vm_compute. discriminate. }
  apply rama_rag_no_saludo.
Qed.

Lemma olvido_metotrexato (pregunta : str) (historial : list value) (nombre : str)
      (st : session store) :
  str_in (lower pregunta) saludos = false ->
  any_in palabras_urgencia (lower pregunta) = false ->
  any_in palabras_olvido (lower pregunta) = true ->
  any_in palabras_metotrexato (lower pregunta) = true ->
  responder pregunta historial nombre st = (Ok protocolo_metotrexato, st).
Proof.
  intros H1 H2 H3 H4. rewrite responder_eq. cbv zeta.
  rewrite H1, H2, H3. unfold rama_olvido. now rewrite H4.
Qed.

Lemma llega_a_rag_eq (pregunta : str) (historial : list value) (nombre : str)
      (st : session store) :
  llega_a_rag pregunta = true ->
  responder pregunta historial nombre st
  = rama_rag store_truthy RAG_DISPONIBLE cargar_conocimiento consultar_rag pregunta st.
Proof.
  unfold llega_a_rag. cbv zeta. intros H.
  repeat (apply andb_true_iff in H as [H ?]).
  repeat match goal with
         | Hn : negb _ = true |- _ => apply negb_true_iff in Hn
         end.
  rewrite responder_eq. cbv zeta.
  repeat match goal with
         | Hn : _ = false |- _ => rewrite Hn; clear Hn
         end.
  reflexivity.
Qed.

End Env.

(** C7 (as the code has it).  The greeting is returned exactly when the
    lowercased question, as typed and not trimmed, is one of the six
    greeting phrases; the session is then left as it was, and the answer
    names the patient whatever the history holds.  "hola" from Lucía is
    greeted. *)
Theorem saludo_exacto :
  (forall (store : Type) (store_truthy : store -> bool) (RAG_DISPONIBLE : bool)
          (cargar_conocimiento : result (option store))
          (consultar_rag : store -> str -> result str) (py_repr : value -> str)
          (pregunta : str) (historial : list value) (nombre : str)
          (st : session store),
      (fst (responder_duda_paciente store_truthy RAG_DISPONIBLE cargar_conocimiento
              consultar_rag py_repr pregunta historial nombre st)
       = Ok (texto_saludo nombre)
       <-> str_in (lower pregunta) saludos = true)
      /\ (str_in (lower pregunta) saludos = true ->
          responder_duda_paciente store_truthy RAG_DISPONIBLE cargar_conocimiento
            consultar_rag py_repr pregunta historial nombre st
          = (Ok (texto_saludo nombre), st)))
  /\ responder_sin_rag (u8 "hola") [] (u8 "Lucía")
     = Ok (u8 "¡Hola Lucía! Soy tu asistente virtual de la unidad. Estoy aquí para ayudarte con cualquier duda sobre tu tratamiento o medicación.").
Proof.
  split; [|vm_compute; reflexivity].
  intros store store_truthy RAG cargar consultar py_repr pregunta historial nombre st.
  split; [apply saludo_sii|].
  intros H. rewrite responder_eq. cbv zeta. now rewrite H.
Qed.

(** C7, witness: "Buenas Tardes" is greeted, through the lowercasing. *)
Lemma saludo_exacto_witness :
  responder_duda_paciente (fun _ : unit => true) false (Ok None)
    (fun _ _ => Raised CollaboratorError) (fun _ => [])
    (u8 "Buenas Tardes") [] (u8 "Lucía") sesion_vacia
  = (Ok (texto_saludo (u8 "Lucía")), sesion_vacia).
Proof.
  apply (proj1 saludo_exacto). vm_compute. reflexivity.
Defined.

(** C7, counterexample: "hola " with a trailing blank trims to a greeting
    phrase and is not greeted; it falls through to the final message. *)
Lemma saludo_no_recorta :
  str_in (strip (lower (u8 "hola "))) saludos = true
  /\ str_in (lower (u8 "hola ")) saludos = false
  /\ responder_sin_rag (u8 "hola ") [] (u8 "Lucía") = Ok texto_fallback
  /\ str_eqb texto_fallback (texto_saludo (u8 "Lucía")) = false.
Proof. repeat split; vm_compute; reflexivity. Qed.

(** C6 (as the code has it).  A question that is not a greeting, holds no
    urgency keyword, holds one of the missed-dose phrases of the list and
    names metotrexato, metotrexate or mtx gets the methotrexate missed-dose
    protocol, whatever the history and the name; "olvidé la pinchada de
    metotrexato" is such a question. *)
Theorem olvido_metotrexato_protocolo
        (store : Type) (store_truthy : store -> bool) (RAG_DISPONIBLE : bool)
        (cargar_conocimiento : result (option store))
        (consultar_rag : store -> str -> result str) (py_repr : value -> str)
        (pregunta : str) (historial : list value) (nombre : str)
        (st : session store) :
  str_in (lower pregunta) saludos = false ->
  any_in palabras_urgencia (lower pregunta) = false ->
  any_in palabras_olvido (lower pregunta) = true ->
  any_in palabras_metotrexato (lower pregunta) = true ->
  responder_duda_paciente store_truthy RAG_DISPONIBLE cargar_conocimiento
    consultar_rag py_repr pregunta historial nombre st
  = (Ok protocolo_metotrexato, st)
  /\ primero protocolo_metotrexato = Some 9888%N
  /\ str_eqb protocolo_metotrexato protocolo_generico = false.
Proof.
  intros H1 H2 H3 H4. split; [now apply olvido_metotrexato|].
  split; vm_compute; reflexivity.
Qed.

(** C6, witness: "olvidé la pinchada de metotrexato". *)
Lemma olvido_metotrexato_protocolo_witness :
  responder_sin_rag pregunta_olvide [] (u8 "Lucía") = Ok protocolo_metotrexato.
Proof.
  unfold responder_sin_rag.
  rewrite (proj1 (olvido_metotrexato_protocolo unit (fun _ => true) false (Ok None)
             (fun _ _ => Raised CollaboratorError) (fun _ => [])
             pregunta_olvide [] (u8 "Lucía") sesion_vacia
             eq_refl eq_refl eq_refl eq_refl)).
  reflexivity.
Defined.

(** C6, counterexample: "se me olvidó la pinchada de metotrexato" holds
    none of the missed-dose phrases ("olvidó" is not one of them), nor a
    keyword of any later branch before the knowledge lookup; without the
    collaborator the answer is the final message, and with it the answer
    is never the methotrexate protocol. *)
Lemma olvido_claim_no_es_olvido :
  any_in palabras_olvido (lower pregunta_olvido_claim) = false
  /\ llega_a_rag pregunta_olvido_claim = true
  /\ responder_sin_rag pregunta_olvido_claim [] (u8 "Lucía") = Ok texto_fallback
  /\ str_eqb texto_fallback protocolo_metotrexato = false
  /\ (forall (store : Type) (store_truthy : store -> bool) (RAG_DISPONIBLE : bool)
             (cargar_conocimiento : result (option store))
             (consultar_rag : store -> str -> result str) (py_repr : value -> str)
             (historial : list value) (nombre : str) (st : session store),
         fst (responder_duda_paciente store_truthy RAG_DISPONIBLE cargar_conocimiento
                consultar_rag py_repr pregunta_olvido_claim historial nombre st)
         <> Ok protocolo_metotrexato).
Proof.
  split; [vm_compute; reflexivity|]. split; [vm_compute; reflexivity|].
  split; [vm_compute; reflexivity|]. split; [vm_compute; reflexivity|].
  intros store store_truthy RAG cargar consultar py_repr historial nombre st.
  rewrite llega_a_rag_eq by (vm_compute; reflexivity).
  destruct (rama_rag_cases store store_truthy RAG cargar consultar py_repr pregunta_olvido_claim st)
    as [H | [[t H] | [e [H _]]]]; cbv zeta in H; rewrite H.
  - apply distintos_por_primero. vm_compute. discriminate.
  - apply distintos_por_primero.
    rewrite (primero_app _ _ 128218%N) by reflexivity. vm_compute. discriminate.
  - discriminate.
Qed.

(** C5 (as the code has it).  For a question that reaches the knowledge
    lookup: when the store is in the session, or is loaded now, a query
    that raises is answered like one whose text holds "NO_CONTEXT" or has
    fewer than six characters, with the final message; so is a load that
    returns no store, and a collaborator that is not available. *)
Theorem consulta_rag_contenida
        (store : Type) (store_truthy : store -> bool) (RAG_DISPONIBLE : bool)
        (cargar_conocimiento : result (option store))
        (consultar_rag : store -> str -> result str) (py_repr : value -> str)
        (pregunta : str) (historial : list value) (nombre : str)
        (st : session store) :
  llega_a_rag pregunta = true ->
  (forall vs,
      vectorstore_cache st = Some vs
      \/ (vectorstore_cache st = None /\ cargar_conocimiento = Ok (Some vs)) ->
      sin_respuesta_rag (consultar_rag vs pregunta) = true ->
      fst (responder_duda_paciente store_truthy RAG_DISPONIBLE cargar_conocimiento
             consultar_rag py_repr pregunta historial nombre st)
      = Ok texto_fallback)
  /\ (vectorstore_cache st = None -> cargar_conocimiento = Ok None ->
      fst (responder_duda_paciente store_truthy RAG_DISPONIBLE cargar_conocimiento
             consultar_rag py_repr pregunta historial nombre st)
      = Ok texto_fallback)
  /\ (RAG_DISPONIBLE = false ->
      fst (responder_duda_paciente store_truthy RAG_DISPONIBLE cargar_conocimiento
             consultar_rag py_repr pregunta historial nombre st)
      = Ok texto_fallback).
Proof.
  intros Hl. rewrite (llega_a_rag_eq _ _ _ _ _ _ _ _ _ _ Hl).
  assert (Hsent : cierre (u8 "NO_CONTEXT") = Ok texto_fallback) by reflexivity.
  unfold rama_rag. cbv zeta. split; [|split].
  - intros vs Hvs Hq.
    destruct RAG_DISPONIBLE; [|exact Hsent].
    assert (Hquery :
      cierre (if store_truthy vs then
                match consultar_rag vs pregunta with
                | Ok raw_response =>
                    if negb (contains (u8 "NO_CONTEXT") raw_response)
                       && (5 <? List.length raw_response)%nat
                    then raw_response else u8 "NO_CONTEXT"
                | Raised _ => u8 "NO_CONTEXT"
                end
              else u8 "NO_CONTEXT") = Ok texto_fallback).
    { destruct (store_truthy vs); [|exact Hsent].
      destruct (consultar_rag vs pregunta) as [raw|e]; [|exact Hsent].
      cbn [sin_respuesta_rag] in Hq.
      destruct (contains (u8 "NO_CONTEXT") raw); [exact Hsent|].
      cbn [orb] in Hq. apply Nat.ltb_lt in Hq.
      replace (5 <? List.length raw)%nat with false
        by (symmetry; apply Nat.ltb_ge; lia).
      exact Hsent. }
    destruct Hvs as [Hc | [Hc Hload]].
    + rewrite Hc. cbn [fst]. rewrite Hc. exact Hquery.
    + rewrite Hc, Hload. cbn [fst vectorstore_cache]. exact Hquery.
  - intros Hc Hload. destruct RAG_DISPONIBLE; [|exact Hsent].
    rewrite Hc, Hload. exact Hsent.
  - intros ->. exact Hsent.
Qed.

(** C5, witness: the store is in the session and the query raises. *)
Lemma consulta_rag_contenida_witness :
  fst (responder_duda_paciente (fun _ : unit => true) true (Ok None)
         (fun _ _ => Raised CollaboratorError) (fun _ => [])
         (u8 "qué es la uveítis") [] (u8 "Lucía") {| vectorstore_cache := Some tt |})
  = Ok texto_fallback.
Proof.
  apply (proj1 (consulta_rag_contenida unit (fun _ => true) true (Ok None)
                  (fun _ _ => Raised CollaboratorError) (fun _ => [])
                  (u8 "qué es la uveítis") [] (u8 "Lucía")
                  {| vectorstore_cache := Some tt |} eq_refl) tt).
  - left. reflexivity.
  - reflexivity.
Defined.

(** C5, counterexample: the collaborator is available, the session holds
    no store yet, and loading it raises: the exception leaves the
    responder. *)
Lemma carga_rag_no_contenida :
  llega_a_rag (u8 "qué es la uveítis") = true
  /\ responder_carga_falla (u8 "qué es la uveítis") = Raised CollaboratorError.
Proof. split; vm_compute; reflexivity. Qed.

End PatientBotProps.

(* ====================================================================== *)
(** ** Further properties of the responder *)
(* ====================================================================== *)

Module ResponderExtra.

Import PatientBot Vocabulario VocabularioBot Lemas PatientBotProps.

Lemma textos_distintos (a b : str) : str_eqb a b = false -> @Ok str a <> Ok b.
Proof.
  intros H Heq. injection Heq as Heq. apply str_eqb_eq in Heq. congruence.
Qed.

Lemma rama_olvido_no_urgencia (p : str) : Ok (rama_olvido p) <> Ok texto_urgencia.
Proof.
  unfold rama_olvido.
  destruct (any_in palabras_metotrexato p);
    [apply textos_distintos; vm_compute; reflexivity|].
  destruct (any_in palabras_folico p);
    [apply textos_distintos; vm_compute; reflexivity|].
  destruct (any_in palabras_adalimumab p);
    apply textos_distintos; vm_compute; reflexivity.
Qed.

(** What the medication branch answers starts with the pill or with the
    clipboard. *)
Lemma rama_medicacion_cabeza (py_repr : value -> str) (historial : list value) :
  match rama_medicacion py_repr historial with
  | Ok t => primero t = Some 128138%N \/ primero t = Some 128203%N
  | Raised _ => True
  end.
Proof.
  unfold rama_medicacion.
  destruct (ultimo_plan_de historial) as [plan|e]; [|exact I].
  destruct (truthy plan).
  - destruct (_extraer_medicaciones_del_plan plan) as [[meds|]|e]; [| |exact I].
    + left. apply primero_app. apply primero_lista. reflexivity.
    + right. now apply primero_app.
  - right. reflexivity.
Qed.

Lemma rama_medicacion_primero (py_repr : value -> str) (historial : list value)
      (t : str) :
  rama_medicacion py_repr historial = Ok t ->
  primero t = Some 128138%N \/ primero t = Some 128203%N.
Proof.
  intros H. pose proof (rama_medicacion_cabeza py_repr historial) as Hc.
  now rewrite H in Hc.
Qed.

Section Env.

Variable store : Type.
Variable store_truthy : store -> bool.
Variable RAG_DISPONIBLE : bool.
Variable cargar_conocimiento : result (option store).
Variable consultar_rag : store -> str -> result str.
Variable py_repr : value -> str.

Lemma urgencia_sii (pregunta : str) (historial : list value) (nombre : str)
      (st : session store) :
  fst (responder_duda_paciente store_truthy RAG_DISPONIBLE cargar_conocimiento
         consultar_rag py_repr pregunta historial nombre st) = Ok texto_urgencia
  <-> str_in (lower pregunta) saludos = false
      /\ any_in palabras_urgencia (lower pregunta) = true.
Proof.
  rewrite responder_eq. cbv zeta.
  destruct (str_in (lower pregunta) saludos).
  { cbn [fst]. split; [|intros [H _]; discriminate H].
    intros H. exfalso. revert H. apply distintos_por_primero.
    vm_compute. discriminate. }
  destruct (any_in palabras_urgencia (lower pregunta)); [now split|].
  split; [|intros [_ H]; discriminate H].
  intros H. exfalso. revert H.
  destruct (any_in palabras_olvido (lower pregunta)).
  { cbn [fst]. apply rama_olvido_no_urgencia. }
  destruct (any_in palabras_medicacion (lower pregunta)).
  { cbn [fst]. intros H.
    destruct (rama_medicacion_primero _ _ _ H) as [Hp|Hp];
      vm_compute in Hp; discriminate Hp. }
  destruct (any_in palabras_cita (lower pregunta)).
  { cbn [fst]. apply textos_distintos. vm_compute. reflexivity. }
  destruct (rama_rag_cases store store_truthy RAG_DISPONIBLE cargar_conocimiento
              consultar_rag py_repr pregunta st) as [H | [[t H] | [e [H _]]]];
    cbv zeta in H; rewrite H.
  - apply textos_distintos. vm_compute. reflexivity.
  - apply distintos_por_primero.
    rewrite (primero_app _ _ 128218%N) by reflexivity. vm_compute. discriminate.
  - discriminate.
Qed.

End Env.

(** X1.  The alert text is the answer exactly when the lowercased question
    is not one of the greeting phrases and holds an urgency keyword; the
    history, the collaborator and the words of later branches play no part,
    and the session is left as it was. *)
Theorem urgencia_exacta
        (store : Type) (store_truthy : store -> bool) (RAG_DISPONIBLE : bool)
        (cargar_conocimiento : result (option store))
        (consultar_rag : store -> str -> result str) (py_repr : value -> str)
        (pregunta : str) (historial : list value) (nombre : str)
        (st : session store) :
  (fst (responder_duda_paciente store_truthy RAG_DISPONIBLE cargar_conocimiento
          consultar_rag py_repr pregunta historial nombre st) = Ok texto_urgencia
   <-> str_in (lower pregunta) saludos = false
       /\ any_in palabras_urgencia (lower pregunta) = true)
  /\ (str_in (lower pregunta) saludos = false ->
      any_in palabras_urgencia (lower pregunta) = true ->
      responder_duda_paciente store_truthy RAG_DISPONIBLE cargar_conocimiento
        consultar_rag py_repr pregunta historial nombre st
      = (Ok texto_urgencia, st)).
Proof.
  split; [apply urgencia_sii|].
  intros H1 H2. rewrite responder_eq. cbv zeta. now rewrite H1, H2.
Qed.

(** X1, witness: a missed dose told together with a high fever is answered
    with the alert. *)
Lemma urgencia_exacta_witness :
  responder_sin_rag (u8 "Olvidé el metotrexato y tengo fiebre alta") [] (u8 "Lucía")
  = Ok texto_urgencia.
Proof.
  unfold responder_sin_rag.
  rewrite (proj2 (urgencia_exacta unit (fun _ => true) false (Ok None)
                    (fun _ _ => Raised CollaboratorError) (fun _ => [])
                    (u8 "Olvidé el metotrexato y tengo fiebre alta") []
                    (u8 "Lucía") sesion_vacia) eq_refl eq_refl).
  reflexivity.
Defined.

(** X2.  The session changes only by loading the store: a question that
    stops at an earlier branch leaves it as it was; with a store already in
    the session nothing is loaded, so the answer and the session do not
    depend on the loader; and a load that succeeds puts its result in the
    session. *)
Theorem sesion_solo_por_carga
        (store : Type) (store_truthy : store -> bool) (RAG_DISPONIBLE : bool)
        (cargar_conocimiento : result (option store))
        (consultar_rag : store -> str -> result str) (py_repr : value -> str)
        (pregunta : str) (historial : list value) (nombre : str)
        (st : session store) :
  (llega_a_rag pregunta = false ->
   snd (responder_duda_paciente store_truthy RAG_DISPONIBLE cargar_conocimiento
          consultar_rag py_repr pregunta historial nombre st) = st)
  /\ (forall vs otra_carga,
        vectorstore_cache st = Some vs ->
        snd (responder_duda_paciente store_truthy RAG_DISPONIBLE cargar_conocimiento
               consultar_rag py_repr pregunta historial nombre st) = st
        /\ responder_duda_paciente store_truthy RAG_DISPONIBLE otra_carga
             consultar_rag py_repr pregunta historial nombre st
           = responder_duda_paciente store_truthy RAG_DISPONIBLE cargar_conocimiento
               consultar_rag py_repr pregunta historial nombre st)
  /\ (forall c,
        llega_a_rag pregunta = true -> RAG_DISPONIBLE = true ->
        vectorstore_cache st = None -> cargar_conocimiento = Ok c ->
        snd (responder_duda_paciente store_truthy RAG_DISPONIBLE cargar_conocimiento
               consultar_rag py_repr pregunta historial nombre st)
        = {| vectorstore_cache := c |}).
Proof.
  split; [|split].
  - intros H. rewrite responder_eq. cbv zeta.
    unfold llega_a_rag in H. cbv zeta in H.
    destruct (str_in (lower pregunta) saludos); [reflexivity|].
    destruct (any_in palabras_urgencia (lower pregunta)); [reflexivity|].
    destruct (any_in palabras_olvido (lower pregunta)); [reflexivity|].
    destruct (any_in palabras_medicacion (lower pregunta)); [reflexivity|].
    destruct (any_in palabras_cita (lower pregunta)); [reflexivity|].
    discriminate H.
  - intros vs otra Hc. rewrite !responder_eq. cbv zeta.
    destruct (str_in (lower pregunta) saludos); [now split|].
    destruct (any_in palabras_urgencia (lower pregunta)); [now split|].
    destruct (any_in palabras_olvido (lower pregunta)); [now split|].
    destruct (any_in palabras_medicacion (lower pregunta)); [now split|].
    destruct (any_in palabras_cita (lower pregunta)); [now split|].
    unfold rama_rag. cbv zeta. rewrite Hc.
    destruct RAG_DISPONIBLE; now split.
  - intros c Hl -> Hc Hload.
    rewrite (llega_a_rag_eq _ _ _ _ _ _ _ _ _ _ Hl).
    unfold rama_rag. cbv zeta. now rewrite Hc, Hload.
Qed.

(** X2, witness: the first question loads the store, and the next one is
    answered from the session although loading would now fail. *)
Lemma sesion_solo_por_carga_witness :
  snd (responder_duda_paciente (fun _ : unit => true) true (Ok (Some tt))
         (fun _ _ => Ok (u8 "La uveítis es una inflamación del ojo."))
         (fun _ => []) (u8 "qué es la uveítis") [] (u8 "Lucía") sesion_vacia)
  = {| vectorstore_cache := Some tt |}
  /\ responder_duda_paciente (fun _ : unit => true) true (Raised CollaboratorError)
       (fun _ _ => Ok (u8 "La uveítis es una inflamación del ojo."))
       (fun _ => []) (u8 "qué es la uveítis") [] (u8 "Lucía")
       {| vectorstore_cache := Some tt |}
     = responder_duda_paciente (fun _ : unit => true) true (Ok (Some tt))
         (fun _ _ => Ok (u8 "La uveítis es una inflamación del ojo."))
         (fun _ => []) (u8 "qué es la uveítis") [] (u8 "Lucía")
         {| vectorstore_cache := Some tt |}.
Proof.
  split.
  - apply (proj2 (proj2 (sesion_solo_por_carga unit (fun _ => true) true
             (Ok (Some tt)) (fun _ _ => Ok (u8 "La uveítis es una inflamación del ojo."))
             (fun _ => []) (u8 "qué es la uveítis") [] (u8 "Lucía") sesion_vacia))
             (Some tt)); reflexivity.
  - apply (proj1 (proj2 (sesion_solo_por_carga unit (fun _ => true) true
             (Ok (Some tt)) (fun _ _ => Ok (u8 "La uveítis es una inflamación del ojo."))
             (fun _ => []) (u8 "qué es la uveítis") [] (u8 "Lucía")
             {| vectorstore_cache := Some tt |})) tt (Raised CollaboratorError)).
    reflexivity.
Defined.

(** X3.  For a question that reaches the knowledge lookup with a usable
    store (in the session, or loaded now), the answer is the text of the
    lookup under the heading when that text is usable, and the final
    message otherwise; a store that is falsy is not queried. *)
Theorem respuesta_de_consulta
        (store : Type) (store_truthy : store -> bool)
        (cargar_conocimiento : result (option store))
        (consultar_rag : store -> str -> result str) (py_repr : value -> str)
        (pregunta : str) (historial : list value) (nombre : str)
        (st : session store) (vs : store) :
  llega_a_rag pregunta = true ->
  vectorstore_cache st = Some vs
  \/ (vectorstore_cache st = None /\ cargar_conocimiento = Ok (Some vs)) ->
  fst (responder_duda_paciente store_truthy true cargar_conocimiento
         consultar_rag py_repr pregunta historial nombre st)
  = if store_truthy vs then
      match consultar_rag vs pregunta with
      | Ok raw_response =>
          if respuesta_usable raw_response
          then Ok (cabecera_rag ++ raw_response)
          else Ok texto_fallback
      | Raised _ => Ok texto_fallback
      end
    else Ok texto_fallback.
Proof.
  intros Hl Hvs. rewrite (llega_a_rag_eq _ _ _ _ _ _ _ _ _ _ Hl).
  assert (Hsent : cierre (u8 "NO_CONTEXT") = Ok texto_fallback) by reflexivity.
  assert (Husable : forall raw, respuesta_usable raw = true ->
                                cierre raw = Ok (cabecera_rag ++ raw)).
  { intros raw H. unfold respuesta_usable in H.
    apply andb_true_iff in H as [H _]. apply negb_true_iff in H.
    unfold cierre.
    destruct (str_eqb raw (u8 "NO_CONTEXT")) eqn:He; [|reflexivity].
    apply str_eqb_eq in He. subst raw. vm_compute in H. discriminate H. }
  assert (Hq :
    cierre (if store_truthy vs then
              match consultar_rag vs pregunta with
              | Ok raw_response =>
                  if negb (contains (u8 "NO_CONTEXT") raw_response)
                     && (5 <? List.length raw_response)%nat
                  then raw_response else u8 "NO_CONTEXT"
              | Raised _ => u8 "NO_CONTEXT"
              end
            else u8 "NO_CONTEXT")
    = if store_truthy vs then
        match consultar_rag vs pregunta with
        | Ok raw_response =>
            if respuesta_usable raw_response
            then Ok (cabecera_rag ++ raw_response)
            else Ok texto_fallback
        | Raised _ => Ok texto_fallback
        end
      else Ok texto_fallback).
  { destruct (store_truthy vs); [|exact Hsent].
    destruct (consultar_rag vs pregunta) as [raw|e]; [|exact Hsent].
    fold (respuesta_usable raw).
    destruct (respuesta_usable raw) eqn:Hu; [now apply Husable | exact Hsent]. }
  unfold rama_rag. cbv zeta.
  destruct Hvs as [Hc | [Hc Hload]].
  - rewrite Hc. cbn [fst]. rewrite Hc. exact Hq.
  - rewrite Hc, Hload. cbn [fst vectorstore_cache]. exact Hq.
Qed.

(** X3, witness: a usable answer is passed on under the heading. *)
Lemma respuesta_de_consulta_witness :
  fst (responder_duda_paciente (fun _ : unit => true) true (Ok (Some tt))
         (fun _ _ => Ok (u8 "La uveítis es una inflamación del ojo."))
         (fun _ => []) (u8 "qué es la uveítis") [] (u8 "Lucía") sesion_vacia)
  = Ok (cabecera_rag ++ u8 "La uveítis es una inflamación del ojo.").
Proof.
  rewrite (respuesta_de_consulta unit (fun _ => true) (Ok (Some tt))
             (fun _ _ => Ok (u8 "La uveítis es una inflamación del ojo."))
             (fun _ => []) (u8 "qué es la uveítis") [] (u8 "Lucía") sesion_vacia tt
             eq_refl (or_intror (conj eq_refl eq_refl))).
  reflexivity.
Defined.

(** A question written with the dotted capital I: its lowercase holds
    "perdi", so it is answered as a missed dose and does not reach the
    knowledge lookup. *)
Lemma perdi_con_i_punteada :
  llega_a_rag (u8 "PERDİ el frasco") = false
  /\ llega_a_medicacion (u8 "PERDİ la pastilla") = false
  /\ responder_sin_rag (u8 "PERDİ el frasco") [] (u8 "Lucía") = Ok protocolo_generico.
Proof. vm_compute. repeat split. Qed.

End ResponderExtra.

(* ====================================================================== *)
(** ** Further properties of the medication branch and the extractor *)
(* ====================================================================== *)

Module MedicacionExtra.

Import PatientBot Vocabulario VocabularioBot Lemas PatientBotProps.

Lemma ultimo_plan_de_ultima (historial : list value) (v : value) :
  ultimo_plan_de (historial ++ [v]) = ultimo_plan_de [v].
Proof.
  unfold ultimo_plan_de. rewrite last_last.
  destruct historial; reflexivity.
Qed.

Lemma llega_a_medicacion_eq
      (store : Type) (store_truthy : store -> bool) (RAG_DISPONIBLE : bool)
      (cargar_conocimiento : result (option store))
      (consultar_rag : store -> str -> result str) (py_repr : value -> str)
      (pregunta : str) (historial : list value) (nombre : str)
      (st : session store) :
  llega_a_medicacion pregunta = true ->
  responder_duda_paciente store_truthy RAG_DISPONIBLE cargar_conocimiento
    consultar_rag py_repr pregunta historial nombre st
  = (rama_medicacion py_repr historial, st).
Proof.
  unfold llega_a_medicacion. cbv zeta. intros H.
  apply andb_true_iff in H as [H H4]. apply andb_true_iff in H as [H H3].
  apply andb_true_iff in H as [H1 H2].
  apply negb_true_iff in H1, H2, H3.
  rewrite responder_eq. cbv zeta. now rewrite H1, H2, H3, H4.
Qed.

(** X4.  Of the history only the last visit is read, whatever the
    question; and when that visit has a non-empty [plan_tratamiento] text,
    a medication question is answered from it alone, the clinical course
    being left aside: with the lines of the drugs found, or else with the
    plan itself. *)
Theorem solo_la_ultima_visita
        (store : Type) (store_truthy : store -> bool) (RAG_DISPONIBLE : bool)
        (cargar_conocimiento : result (option store))
        (consultar_rag : store -> str -> result str) (py_repr : value -> str)
        (pregunta : str) (historial : list value) (nombre : str)
        (st : session store) :
  (forall v,
      responder_duda_paciente store_truthy RAG_DISPONIBLE cargar_conocimiento
        consultar_rag py_repr pregunta (historial ++ [v]) nombre st
      = responder_duda_paciente store_truthy RAG_DISPONIBLE cargar_conocimiento
          consultar_rag py_repr pregunta [v] nombre st)
  /\ (forall ultimo plan,
        llega_a_medicacion pregunta = true ->
        dict_lookup (u8 "plan_tratamiento") ultimo = Some (VStr plan) ->
        plan <> [] ->
        fst (responder_duda_paciente store_truthy RAG_DISPONIBLE cargar_conocimiento
               consultar_rag py_repr pregunta (historial ++ [VDict ultimo]) nombre st)
        = match fold_left (paso_medicamento (lower plan)) medicamentos_info [] with
          | [] => Ok (cabecera_plan ++ plan)
          | medicaciones =>
              Ok (fold_left (fun respuesta med => respuesta ++ u8 "• " ++ med ++ [10%N])
                            medicaciones cabecera_medicacion
                  ++ pie_medicacion)
          end).
Proof.
  split.
  - intros v. rewrite !responder_eq. cbv zeta. unfold rama_medicacion.
    now rewrite ultimo_plan_de_ultima.
  - intros ultimo plan Hl Hp Hne.
    rewrite (llega_a_medicacion_eq _ _ _ _ _ _ _ _ _ _ Hl). cbn [fst].
    unfold rama_medicacion. rewrite ultimo_plan_de_ultima.
    assert (Ht : truthy (VStr plan) = true).
    { cbn. destruct plan; [now elim Hne | reflexivity]. }
    assert (Hu : ultimo_plan_de [VDict ultimo] = Ok (VStr plan)).
    { unfold ultimo_plan_de. cbn [last]. unfold get_or. rewrite Hp.
      now rewrite Ht. }
    rewrite Hu, Ht. unfold _extraer_medicaciones_del_plan. rewrite Ht. cbn [negb].
    destruct (fold_left (paso_medicamento (lower plan)) medicamentos_info []);
      reflexivity.
Qed.

(** X4, witness: an older visit with another plan is not read. *)
Lemma solo_la_ultima_visita_witness :
  responder_sin_rag (u8 "qué medicación llevo")
    [ VDict [ (u8 "plan_tratamiento", VStr (u8 "Naproxeno 250 mg cada 12 horas")) ];
      VDict [ (u8 "plan_tratamiento", VStr (u8 "Reposo relativo"));
              (u8 "curso_clinico_generado", VStr (u8 "PLAN: Metotrexato 15 mg")) ] ]
    (u8 "Lucía")
  = Ok (cabecera_plan ++ u8 "Reposo relativo").
Proof.
  unfold responder_sin_rag.
  refine (eq_trans
    (proj2 (solo_la_ultima_visita unit (fun _ => true) false (Ok None)
              (fun _ _ => Raised CollaboratorError) (fun _ => [])
              (u8 "qué medicación llevo")
              [ VDict [ (u8 "plan_tratamiento",
                         VStr (u8 "Naproxeno 250 mg cada 12 horas")) ] ]
              (u8 "Lucía") sesion_vacia)
           [ (u8 "plan_tratamiento", VStr (u8 "Reposo relativo"));
             (u8 "curso_clinico_generado", VStr (u8 "PLAN: Metotrexato 15 mg")) ]
           (u8 "Reposo relativo") eq_refl eq_refl _) _).
  - vm_compute. discriminate.
  - vm_compute. reflexivity.
Defined.

(** X5.  A medication question gets the no-plan message when the history
    is empty, when the last visit is not a record, and when the last
    visit has neither a plan nor a clinical course; when the plan is empty
    and the course is [None], a boolean or a number, the responder raises
    [TypeError]. *)
Theorem sin_plan_activo
        (store : Type) (store_truthy : store -> bool) (RAG_DISPONIBLE : bool)
        (cargar_conocimiento : result (option store))
        (consultar_rag : store -> str -> result str) (py_repr : value -> str)
        (pregunta : str) (historial : list value) (nombre : str)
        (st : session store) :
  llega_a_medicacion pregunta = true ->
  responder_duda_paciente store_truthy RAG_DISPONIBLE cargar_conocimiento
    consultar_rag py_repr pregunta [] nombre st = (Ok texto_sin_plan, st)
  /\ (forall v,
        is_dict v = false ->
        responder_duda_paciente store_truthy RAG_DISPONIBLE cargar_conocimiento
          consultar_rag py_repr pregunta (historial ++ [v]) nombre st
        = (Ok texto_sin_plan, st))
  /\ (forall ultimo,
        truthy (get_or ultimo (u8 "plan_tratamiento") (VStr [])) = false ->
        get_or ultimo (u8 "curso_clinico_generado") (VStr []) = VStr [] ->
        responder_duda_paciente store_truthy RAG_DISPONIBLE cargar_conocimiento
          consultar_rag py_repr pregunta (historial ++ [VDict ultimo]) nombre st
        = (Ok texto_sin_plan, st))
  /\ (forall ultimo curso,
        truthy (get_or ultimo (u8 "plan_tratamiento") (VStr [])) = false ->
        dict_lookup (u8 "curso_clinico_generado") ultimo = Some curso ->
        match curso with
        | VNone | VBool _ | VInt _ | VFloat _ => True
        | _ => False
        end ->
        responder_duda_paciente store_truthy RAG_DISPONIBLE cargar_conocimiento
          consultar_rag py_repr pregunta (historial ++ [VDict ultimo]) nombre st
        = (Raised TypeError, st)).
Proof.
  intros Hl. split; [|split; [|split]].
  - now rewrite (llega_a_medicacion_eq _ _ _ _ _ _ _ _ _ _ Hl).
  - intros v Hv. rewrite (llega_a_medicacion_eq _ _ _ _ _ _ _ _ _ _ Hl).
    unfold rama_medicacion. rewrite ultimo_plan_de_ultima.
    destruct v; try reflexivity; discriminate Hv.
  - intros ultimo Hp Hc. rewrite (llega_a_medicacion_eq _ _ _ _ _ _ _ _ _ _ Hl).
    unfold rama_medicacion. rewrite ultimo_plan_de_ultima.
    unfold ultimo_plan_de. cbn [last]. rewrite Hp, Hc. reflexivity.
  - intros ultimo curso Hp Hc Hk.
    rewrite (llega_a_medicacion_eq _ _ _ _ _ _ _ _ _ _ Hl).
    unfold rama_medicacion. rewrite ultimo_plan_de_ultima.
    unfold ultimo_plan_de. cbn [last]. rewrite Hp. cbn [negb].
    unfold get_or at 1. rewrite Hc.
    destruct curso; try (now elim Hk); reflexivity.
Qed.

(** X5, witness: a last visit with an empty plan and a null course. *)
Lemma sin_plan_activo_witness :
  responder_sin_rag (u8 "qué medicación llevo")
    [ VDict [ (u8 "plan_tratamiento", VStr []);
              (u8 "curso_clinico_generado", VNone) ] ] (u8 "Lucía")
  = Raised TypeError.
Proof.
  unfold responder_sin_rag.
  exact (f_equal fst
    (proj2 (proj2 (proj2 (sin_plan_activo unit (fun _ => true) false (Ok None)
       (fun _ _ => Raised CollaboratorError) (fun _ => [])
       (u8 "qué medicación llevo") [] (u8 "Lucía") sesion_vacia eq_refl)))
       [ (u8 "plan_tratamiento", VStr []);
         (u8 "curso_clinico_generado", VNone) ] VNone eq_refl eq_refl I)).
Defined.

(** *** The extractor *)

Lemma str_in_In (x : str) (l : list str) : str_in x l = true <-> In x l.
Proof.
  unfold str_in. rewrite existsb_exists. split.
  - intros [y [Hy He]]. apply str_eqb_eq in He. now subst.
  - intros H. exists x. split; [exact H | apply str_eqb_refl].
Qed.

Lemma paso_medicamento_linea (texto_lower : str) (medicaciones : list str)
      (m : med_info) :
  paso_medicamento texto_lower medicaciones m =
  match linea texto_lower m with
  | Some med_str =>
      if str_in med_str medicaciones then medicaciones
      else medicaciones ++ [med_str]
  | None => medicaciones
  end.
Proof.
  unfold paso_medicamento, linea.
  now destruct (List.find (fun variante => contains variante texto_lower) (variantes m)).
Qed.

Lemma bucle_vacio (texto_lower : str) (tabla : list med_info)
      (medicaciones : list str) :
  fold_left (paso_medicamento texto_lower) tabla medicaciones = []
  <-> medicaciones = [] /\ forall m, In m tabla -> linea texto_lower m = None.
Proof.
  revert medicaciones. induction tabla as [|m tabla IH]; intros medicaciones.
  - cbn. split; [intros ->; split; [reflexivity | contradiction] | now intros [-> _]].
  - cbn [fold_left]. rewrite IH, paso_medicamento_linea.
    destruct (linea texto_lower m) as [x|] eqn:Hm.
    + split.
      * intros [H _]. exfalso.
        destruct (str_in x medicaciones) eqn:Hin.
        -- subst medicaciones. discriminate Hin.
        -- now destruct medicaciones.
      * intros [_ H]. specialize (H m (or_introl eq_refl)). congruence.
    + split.
      * intros [-> H]. split; [reflexivity|].
        intros m' [<- | Hin]; [exact Hm | now apply H].
      * intros [-> H]. split; [reflexivity|].
        intros m' Hin. apply H. now right.
Qed.

Lemma bucle_sin_repetidos (texto_lower : str) (tabla : list med_info)
      (medicaciones : list str) :
  NoDup medicaciones ->
  NoDup (fold_left (paso_medicamento texto_lower) tabla medicaciones).
Proof.
  revert medicaciones. induction tabla as [|m tabla IH]; intros medicaciones Hn.
  - exact Hn.
  - cbn [fold_left]. apply IH. rewrite paso_medicamento_linea.
    destruct (linea texto_lower m) as [x|]; [|exact Hn].
    destruct (str_in x medicaciones) eqn:Hin; [exact Hn|].
    apply NoDup_app; [exact Hn | repeat constructor; intros [] |].
    intros y Hy [<- | []].
    apply str_in_In in Hy. congruence.
Qed.

Lemma subsecuencia_length {A : Type} (l1 l2 : list A) :
  subsecuencia l1 l2 -> (List.length l1 <= List.length l2)%nat.
Proof. induction 1; cbn; lia. Qed.

Lemma tabla_sin_texto_vacio :
  forall m, In m medicamentos_info -> linea [] m = None.
Proof.
  assert (H : forallb (fun m => match linea [] m with None => true | Some _ => false end)
                      medicamentos_info = true) by (vm_compute; reflexivity).
  intros m Hm. rewrite forallb_forall in H. specialize (H m Hm).
  now destruct (linea [] m).
Qed.

(** X6.  The extractor returns [None] for an empty or otherwise falsy
    plan, raises [AttributeError] for a truthy plan that is not a text, and
    for a text returns [None] exactly when no drug of the table has a
    variant in the lowercased text. *)
Theorem extraer_sin_medicacion :
  (forall v, truthy v = false -> _extraer_medicaciones_del_plan v = Ok None)
  /\ (forall v,
        truthy v = true -> (forall s, v <> VStr s) ->
        _extraer_medicaciones_del_plan v = Raised AttributeError)
  /\ (forall s,
        _extraer_medicaciones_del_plan (VStr s) = Ok None
        <-> forall m, In m medicamentos_info -> linea (lower s) m = None).
Proof.
  split; [|split].
  - intros v Hv. unfold _extraer_medicaciones_del_plan. now rewrite Hv.
  - intros v Hv Hs. unfold _extraer_medicaciones_del_plan. rewrite Hv. cbn [negb].
    destruct v; try reflexivity. now elim (Hs s).
  - intros s. unfold _extraer_medicaciones_del_plan.
    destruct s as [|c s].
    + cbn [truthy str_eqb negb]. split; [intros _|reflexivity].
      apply tabla_sin_texto_vacio.
    + cbn [truthy str_eqb negb].
      pose proof (bucle_vacio (lower (c :: s)) medicamentos_info []) as Hb.
      destruct (fold_left (paso_medicamento (lower (c :: s))) medicamentos_info [])
        as [|x l].
      * split; [intros _; now apply Hb | reflexivity].
      * split; [discriminate|]. intros H.
        assert (Hc : x :: l = []) by (apply Hb; now split). discriminate Hc.
Qed.

(** X6, witness: a number is not a plan text. *)
Lemma extraer_sin_medicacion_witness :
  _extraer_medicaciones_del_plan (VInt 15) = Raised AttributeError.
Proof.
  apply (proj1 (proj2 extraer_sin_medicacion)); [reflexivity|].
  intros s. discriminate.
Defined.

(** X7.  When the extractor returns lines, there are between one and
    eight of them (one at most per drug of the table) and no line occurs
    twice. *)
Theorem extraer_sin_repetidos (s : str) (medicaciones : list str) :
  _extraer_medicaciones_del_plan (VStr s) = Ok (Some medicaciones) ->
  NoDup medicaciones
  /\ (1 <= List.length medicaciones <= 8)%nat.
Proof.
  unfold _extraer_medicaciones_del_plan.
  destruct (negb (truthy (VStr s))); [discriminate|].
  pose proof (bucle_sin_repetidos (lower s) medicamentos_info [] (NoDup_nil _)) as Hn.
  destruct (bucle_en_orden (lower s) medicamentos_info [] [] [])
    as [ms [Hs Hf]]; [constructor | constructor |].
  cbn [app] in Hs.
  apply subsecuencia_length in Hs. apply Forall2_length in Hf.
  destruct (fold_left (paso_medicamento (lower s)) medicamentos_info [])
    as [|x l]; [discriminate|].
  intros H. injection H as <-. split; [exact Hn|].
  change (List.length medicamentos_info) with 8%nat in Hs.
  cbn [List.length] in *. lia.
Qed.

(** X7, witness: a plan that names one drug by two of its variants. *)
Lemma extraer_sin_repetidos_witness :
  NoDup [ u8 "💉 **Metotrexato** 10 mg" ]
  /\ (1 <= List.length [ u8 "💉 **Metotrexato** 10 mg" ] <= 8)%nat.
Proof.
  apply (extraer_sin_repetidos (u8 "MTX semanal (metotrexato 10 mg)")).
  vm_compute. reflexivity.
Defined.

End MedicacionExtra.

(* ====================================================================== *)
(** ** The dose pattern finds numbers that are in the text *)
(* ====================================================================== *)

Module PatronExtra.

Import PatientBot Vocabulario VocabularioBot Lemas.















End PatronExtra.

(* ====================================================================== *)
(** ** Further properties of the validation card *)
(* ====================================================================== *)

Module TarjetaExtra.

Import UiVisita UiVisitaTarjeta Vocabulario Lemas NormalizadorProps DecisionProps.

Lemma palabra_sin_espacios_alert :
  (exists x t, u8 "alert" = x :: t /\ is_space x = false)
  /\ (exists y u, rev (u8 "alert") = y :: u /\ is_space y = false).
Proof. split; vm_compute; do 2 eexists; split; reflexivity. Qed.

Lemma decision_tarjeta_definida (E : externals) (r a : dict) :
  get_or r (u8 "auditoria") (VDict []) = VDict a ->
  exists d, decision_tarjeta E (VDict r) = Ok d.
Proof.
  intros Ha. rewrite (decision_tarjeta_eq E r a Ha). cbv zeta.
  repeat match goal with
         | |- context [if ?b then _ else _] => destruct b
         end; eauto.
Qed.

(** X9.  An approval word in the decision hint wins over everything: a
    hint that holds "aprob" is decided Aprobada even when it also holds
    "rech" and whatever the flags and the justification say; and a hint
    that holds "alert" and neither "aprob" nor "rech" is decided Alerta
    even when the flags approve. *)
Theorem pista_aprob_antes_que_rech (E : externals) (r a : dict) (s : str) :
  get_or r (u8 "auditoria") (VDict []) = VDict a ->
  dict_lookup (u8 "decision") r = Some (VStr s)
  \/ (truthy (get r (u8 "decision")) = false
      /\ dict_lookup (u8 "severidad") r = Some (VStr s)) ->
  (contains (u8 "aprob") (lower s) = true ->
   decision_tarjeta E (VDict r) = Ok Aprobada)
  /\ (contains (u8 "aprob") (lower s) = false ->
      contains (u8 "rech") (lower s) = false ->
      contains (u8 "alert") (lower s) = true ->
      decision_tarjeta E (VDict r) = Ok Alerta).
Proof.
  intros Ha Hd.
  destruct palabra_sin_espacios_rech as [R1 R2].
  destruct palabra_sin_espacios_aprob as [A1 A2].
  destruct palabra_sin_espacios_alert as [L1 L2].
  split.
  - intros Hap.
    assert (Hs : s <> []) by (intros ->; discriminate Hap).
    rewrite (decision_tarjeta_eq E r a Ha). cbv zeta.
    rewrite (decision_txt_de_str E r a s Hs Hd).
    now rewrite (contains_lower_strip _ s A1 A2), Hap.
  - intros Hap Hre Hal.
    assert (Hs : s <> []) by (intros ->; discriminate Hal).
    rewrite (decision_tarjeta_eq E r a Ha). cbv zeta.
    rewrite (decision_txt_de_str E r a s Hs Hd).
    rewrite (contains_lower_strip _ s A1 A2), Hap.
    rewrite (contains_lower_strip _ s R1 R2), Hre.
    now rewrite (contains_lower_strip _ s L1 L2), Hal.
Qed.

(** X9, witness: "No aprobado: rechazar" is read as an approval. *)
Lemma pista_aprob_antes_que_rech_witness :
  decision_tarjeta externos_ejemplo
    (VDict [ (u8 "estado", VStr (u8 "Alerta"));
             (u8 "decision", VStr (u8 "No aprobado: rechazar")) ])
  = Ok Aprobada.
Proof.
  apply (proj1 (pista_aprob_antes_que_rech externos_ejemplo
                  [ (u8 "estado", VStr (u8 "Alerta"));
                    (u8 "decision", VStr (u8 "No aprobado: rechazar")) ]
                  [] (u8 "No aprobado: rechazar") eq_refl (or_introl eq_refl))).
  vm_compute. reflexivity.
Defined.

(** X10.  The card is computed exactly for a dict whose [auditoria] is
    missing or a dict; otherwise it raises [AttributeError].  The
    normaliser returns a dict with a null or otherwise non-dict
    [auditoria] as it is, so the card raises on it. *)
Theorem tarjeta_lanza_atributo (E : externals) :
  (forall res,
      (exists d, decision_tarjeta E res = Ok d)
      <-> exists r, res = VDict r
                    /\ is_dict (get_or r (u8 "auditoria") (VDict [])) = true)
  /\ (forall res,
        decision_tarjeta E res = Raised AttributeError
        \/ exists d, decision_tarjeta E res = Ok d)
  /\ (forall d v,
        dict_lookup (u8 "auditoria") d = Some v -> is_dict v = false ->
        decision_tarjeta E (limpiar_respuesta_ia E (Data (VDict d)))
        = Raised AttributeError).
Proof.
  pose proof (decision_tarjeta_definida E) as Hok.
  assert (Hbad : forall r, is_dict (get_or r (u8 "auditoria") (VDict [])) = false ->
                           decision_tarjeta E (VDict r) = Raised AttributeError).
  { intros r Hr. unfold decision_tarjeta.
    destruct (get_or r (u8 "auditoria") (VDict [])); try reflexivity.
    discriminate Hr. }
  split; [|split].
  - intros res. split.
    + intros [d Hd]. destruct res as [| | | | | |r]; try discriminate Hd.
      exists r. split; [reflexivity|].
      destruct (is_dict (get_or r (u8 "auditoria") (VDict []))) eqn:Hr;
        [reflexivity|].
      rewrite (Hbad r Hr) in Hd. discriminate Hd.
    + intros [r [-> Hr]].
      destruct (get_or r (u8 "auditoria") (VDict [])) as [| | | | | |a] eqn:Ha;
        try discriminate Hr.
      now apply Hok with a.
  - intros res. destruct res as [| | | | | |r]; try (left; reflexivity).
    destruct (get_or r (u8 "auditoria") (VDict [])) as [| | | | | |a] eqn:Ha;
      try (left; apply Hbad; now rewrite Ha).
    right. now apply Hok with a.
  - intros d v Hv Hd.
    assert (Hc : es_canonico d = true).
    { unfold es_canonico. rewrite (lookup_has _ _ _ Hv). now rewrite orb_true_r. }
    cbn [limpiar_respuesta_ia paso_1]. rewrite (normalizar_canonico d Hc).
    apply Hbad. unfold get_or. now rewrite Hv.
Qed.

(** X10, witness: an approved record whose [auditoria] is null. *)
Lemma tarjeta_lanza_atributo_witness :
  decision_tarjeta externos_ejemplo
    (limpiar_respuesta_ia externos_ejemplo
       (Data (VDict [ (u8 "estado", VStr (u8 "Aprobada"));
                      (u8 "auditoria", VNone) ])))
  = Raised AttributeError.
Proof.
  apply (proj2 (proj2 (tarjeta_lanza_atributo externos_ejemplo))
           [ (u8 "estado", VStr (u8 "Aprobada")); (u8 "auditoria", VNone) ] VNone);
    reflexivity.
Defined.

(** The decision of a record that carries no decision hint. *)
Lemma decision_sin_pista (E : externals) (r a : dict) :
  get_or r (u8 "auditoria") (VDict []) = VDict a ->
  truthy (get r (u8 "decision")) = false ->
  truthy (get r (u8 "severidad")) = false ->
  is_None (get a (u8 "decision")) = true ->
  decision_tarjeta E (VDict r) =
  Ok (if es_valido_de r a then Aprobada
      else if any_in palabras_rechazo (lower (razon_texto_de E r a))
           then Rechazada else Alerta).
Proof.
  intros Ha H1 H2 H3. rewrite (decision_tarjeta_eq E r a Ha). cbv zeta.
  assert (Ht : decision_txt_de E r a = []).
  { unfold decision_txt_de, py_or. rewrite H1, H2.
    destruct (get a (u8 "decision")); try discriminate H3. reflexivity. }
  rewrite Ht.
  replace (contains (u8 "aprob") []) with false by (vm_compute; reflexivity).
  replace (contains (u8 "rech") []) with false by (vm_compute; reflexivity).
  replace (contains (u8 "alert") []) with false by (vm_compute; reflexivity).
  rewrite es_rechazo_por_texto_eq.
  destruct (es_valido_de r a); [reflexivity|].
  now destruct (any_in palabras_rechazo (lower (razon_texto_de E r a))).
Qed.

Lemma is_True_indicador (d : dict) :
  is_True (indicador_aij d) || is_True (get d (u8 "es_tratamiento_aij"))
  = is_True (get d (u8 "es_aij")) || is_True (get d (u8 "es_tratamiento_aij")).
Proof.
  unfold indicador_aij.
  destruct (get d (u8 "es_aij")) as [|[|]| | | | |]; cbn;
    try reflexivity; now rewrite orb_diag.
Qed.

(** X11.  For a flat tool output that carries no [decision] and no
    [severidad], the card shown for the normalised record is computed
    (it never raises) and is the approval exactly when [es_aij] or
    [es_tratamiento_aij] is [True]. *)
Theorem tarjeta_de_salida_plana (E : externals) (d : dict) :
  es_canonico d = false -> es_plano d = true ->
  dict_has (u8 "decision") d = false ->
  dict_has (u8 "severidad") d = false ->
  exists dec,
    decision_tarjeta E (limpiar_respuesta_ia E (Data (VDict d))) = Ok dec
    /\ (dec = Aprobada
        <-> is_True (get d (u8 "es_aij"))
            || is_True (get d (u8 "es_tratamiento_aij")) = true).
Proof.
  intros Hc Hp Hd Hs.
  assert (H : solo_plano d = true) by (unfold solo_plano; now rewrite Hc, Hp).
  cbn [limpiar_respuesta_ia paso_1]. unfold normalizar_o_devolver.
  rewrite (normalizar_plano d H).
  rewrite (dict_has_false_get _ _ Hd), (dict_has_false_get _ _ Hs).
  match goal with
  | |- context [decision_tarjeta E (VDict ?r)] => set (rec := r)
  end.
  set (a := [ (u8 "es_aij", indicador_aij d);
              (u8 "es_tratamiento_aij", get d (u8 "es_tratamiento_aij"));
              (u8 "razon", get_or d (u8 "razon") (get d (u8 "razon_decision")));
              (u8 "razon_decision", get d (u8 "razon_decision")) ]).
  rewrite (decision_sin_pista E rec a); try reflexivity.
  assert (Hv : es_valido_de rec a
               = is_True (get d (u8 "es_aij"))
                 || is_True (get d (u8 "es_tratamiento_aij"))).
  { rewrite <- is_True_indicador. unfold es_valido_de.
    change (get_or rec (u8 "estado") (VStr (u8 "Desconocido")))
      with (VStr (if is_True (indicador_aij d) then u8 "Aprobada" else u8 "Alerta")).
    change (get a (u8 "es_tratamiento_aij")) with (get d (u8 "es_tratamiento_aij")).
    change (get a (u8 "es_aij")) with (indicador_aij d).
    destruct (is_True (indicador_aij d));
      destruct (is_True (get d (u8 "es_tratamiento_aij"))); reflexivity. }
  rewrite Hv.
  destruct (is_True (get d (u8 "es_aij")) || is_True (get d (u8 "es_tratamiento_aij"))).
  - eexists. split; [reflexivity | now split].
  - destruct (any_in palabras_rechazo (lower (razon_texto_de E rec a)));
      eexists; (split; [reflexivity | split; discriminate]).
Qed.

(** X11, witness: the flat output with [es_aij] set. *)
Lemma tarjeta_de_salida_plana_witness :
  exists dec,
    decision_tarjeta externos_ejemplo
      (limpiar_respuesta_ia externos_ejemplo (Data (VDict plano_simple))) = Ok dec
    /\ (dec = Aprobada
        <-> is_True (get plano_simple (u8 "es_aij"))
            || is_True (get plano_simple (u8 "es_tratamiento_aij")) = true).
Proof.
  apply (tarjeta_de_salida_plana externos_ejemplo plano_simple); reflexivity.
Defined.

(** Lowercasing keeps the unit the card appends. *)
Lemma lower_con_unidad (t : str) :
  exists p, lower (t ++ u8 " mg/kg") = p ++ u8 " mg/kg".
Proof.
  unfold lower. rewrite lower_aux_app.
  exists (lower_aux [] t (u8 " mg/kg" ++ [])). apply f_equal.
  generalize (rev t ++ []). intros a. vm_compute. reflexivity.
Qed.

(** The text of the dose once the mg/kg value is a non-empty text. *)
Lemma dosis_txt_de_texto (E : externals) (res analisis : dict) (t : str) :
  dosis_mg_kg_de res analisis = VStr t -> t <> [] ->
  dosis_txt_de E res analisis
  = if contains (u8 "mg/kg") (lower t) then t else t ++ u8 " mg/kg".
Proof.
  intros Hv Ht. unfold dosis_txt_de. cbv zeta. rewrite Hv.
  cbn [_coerce_text_none _coerce_text py_str].
  assert (He : str_eqb t [] = false) by (destruct t; [now elim Ht | reflexivity]).
  rewrite He. cbn [negb andb].
  destruct (contains (u8 "mg/kg") (lower t)); cbn [negb].
  - now rewrite He.
  - destruct t; [now elim Ht | reflexivity].
Qed.

(** X12.  When the mg/kg value of the record (nested before flat) is a
    non-empty text, the dose shown is that text, followed by " mg/kg"
    exactly when the text does not already hold "mg/kg" in any letter
    case; so the dose shown always names the unit, and a flat tool output
    with such a dose is shown with it after normalisation. *)
Theorem dosis_con_unidad (E : externals) :
  (forall res analisis t,
      dosis_mg_kg_de res analisis = VStr t -> t <> [] ->
      dosis_txt_de E res analisis
      = (if contains (u8 "mg/kg") (lower t) then t else t ++ u8 " mg/kg")
      /\ contains (u8 "mg/kg") (lower (dosis_txt_de E res analisis)) = true)
  /\ (forall d t,
        es_canonico d = false -> es_plano d = true ->
        get_or d (u8 "dosis_mg_kg_detectada") (get d (u8 "dosis_mg_kg")) = VStr t ->
        t <> [] ->
        exists c,
          render_tarjeta E (limpiar_respuesta_ia E (Data (VDict d))) = Ok c
          /\ t_dosis c
             = if contains (u8 "mg/kg") (lower t) then t else t ++ u8 " mg/kg").
Proof.
  split.
  - intros res analisis t Hv Ht.
    rewrite (dosis_txt_de_texto E res analisis t Hv Ht). split; [reflexivity|].
    destruct (contains (u8 "mg/kg") (lower t)) eqn:Hc; [exact Hc|].
    destruct (lower_con_unidad t) as [p ->]. apply contains_iff.
    exists (p ++ [32%N]), []. rewrite <- app_assoc. reflexivity.
  - intros d t Hc Hp Hv Ht.
    assert (H : solo_plano d = true) by (unfold solo_plano; now rewrite Hc, Hp).
    cbn [limpiar_respuesta_ia paso_1]. unfold normalizar_o_devolver.
    rewrite (normalizar_plano d H). rewrite Hv.
    match goal with
    | |- context [render_tarjeta E (VDict ?r)] => set (rec := r)
    end.
    destruct (decision_tarjeta_definida E rec
                [ (u8 "es_aij", indicador_aij d);
                  (u8 "es_tratamiento_aij", get d (u8 "es_tratamiento_aij"));
                  (u8 "razon", get_or d (u8 "razon") (get d (u8 "razon_decision")));
                  (u8 "razon_decision", get d (u8 "razon_decision")) ] eq_refl)
      as [dec Hdec].
    unfold render_tarjeta. rewrite Hdec.
    eexists. split; [reflexivity|]. cbn [t_dosis].
    apply dosis_txt_de_texto; [|exact Ht].
    assert (Htr : truthy (VStr t) = true)
      by (cbn; destruct t; [now elim Ht | reflexivity]).
    unfold dosis_mg_kg_de.
    match goal with
    | |- context [get ?an (u8 "dosis_mg_kg_detectada")] =>
        assert (H1 : get an (u8 "dosis_mg_kg") = VNone) by reflexivity;
        assert (H2 : get an (u8 "dosis_mg_kg_detectada") = VStr t) by reflexivity;
        rewrite H1, H2
    end.
    change (py_or VNone (VStr t)) with (VStr t).
    assert (Hpo : forall b, py_or (VStr t) b = VStr t)
      by (intros b; unfold py_or; now rewrite Htr).
    now rewrite !Hpo.
Qed.

(** X12, witness: the dose "0.4" of a flat output is shown as
    "0.4 mg/kg". *)
Lemma dosis_con_unidad_witness :
  exists c,
    render_tarjeta externos_ejemplo
      (limpiar_respuesta_ia externos_ejemplo (Data (VDict plano_simple))) = Ok c
    /\ t_dosis c = u8 "0.4 mg/kg".
Proof.
  destruct (proj2 (dosis_con_unidad externos_ejemplo) plano_simple (u8 "0.4")
              eq_refl eq_refl eq_refl) as [c [Hc Hd]].
  - vm_compute. discriminate.
  - exists c. split; [exact Hc|]. rewrite Hd. vm_compute. reflexivity.
Defined.

(** The card of the record built for an unparseable text. *)
Lemma tarjeta_fallback (E : externals) (t : str) :
  exists c,
    render_tarjeta E (fallback t) = Ok c
    /\ t_decision c <> Aprobada
    /\ t_farmaco c = u8 "Ver texto"
    /\ t_dosis c = u8 "-".
Proof.
  unfold fallback. cbv zeta.
  set (tl := strip (replace (u8 "```") [] (replace (u8 "```json") []
                (replace (u8 "**") [] t)))).
  unfold render_tarjeta.
  match goal with
  | |- context [decision_tarjeta E (VDict ?r)] => set (rec := r)
  end.
  rewrite (decision_sin_pista E rec
             [ (u8 "es_aij", VNone); (u8 "razon", VStr tl) ]); try reflexivity.
  change (es_valido_de rec [ (u8 "es_aij", VNone); (u8 "razon", VStr tl) ]) with false.
  cbv iota.
  eexists. split; [reflexivity|]. cbn [t_decision t_farmaco t_dosis].
  split; [|split; reflexivity].
  match goal with
  | |- context [if ?b then _ else _] => destruct b; discriminate
  end.
Qed.

(** X13.  What is not a structured answer is never shown as a validated
    plan: without the agent the card is the alert with no drug and no
    dose; when the agent raises, or returns nothing, or returns a text in
    which no object is found, the card is computed and its decision is
    not Aprobada (for an exception it is Rechazada exactly when the error
    text holds a rejection keyword). *)
Theorem sin_estructura_no_aprueba (E : externals) :
  (forall agente,
      render_tarjeta E (validar E false agente)
      = Ok {| t_decision := Alerta;
              t_farmaco := u8 "-";
              t_dosis := u8 "-";
              t_frecuencia := None;
              t_dictamen := u8 "Sin comentarios.";
              t_origen := u8 "Agente" |})
  /\ (forall e,
        exists c,
          render_tarjeta E (validar E true (inr e)) = Ok c
          /\ t_decision c
             = (if any_in palabras_rechazo (lower (u8 "Error: " ++ e))
                then Rechazada else Alerta)
          /\ t_dictamen c = u8 "Error: " ++ e)
  /\ render_tarjeta E (validar E true (inl (Data VNone)))
     = Ok {| t_decision := Alerta;
             t_farmaco := u8 "-";
             t_dosis := u8 "-";
             t_frecuencia := None;
             t_dictamen := u8 "No hay respuesta";
             t_origen := u8 "Agente" |}
  /\ (forall x t,
        x <> Data VNone -> paso_1 E x = inr t ->
        sin_objeto (repair_json E t) = true ->
        exists c,
          render_tarjeta E (validar E true (inl x)) = Ok c
          /\ t_decision c <> Aprobada
          /\ t_farmaco c = u8 "Ver texto"
          /\ t_dosis c = u8 "-").
Proof.
  split; [|split; [|split]].
  - intros agente. vm_compute. reflexivity.
  - intros e. unfold validar, render_tarjeta.
    match goal with
    | |- context [decision_tarjeta E (VDict ?r)] => set (rec := r)
    end.
    set (a := [ (u8 "es_aij", VNone); (u8 "razon", VStr (u8 "Error: " ++ e)) ]).
    rewrite (decision_sin_pista E rec a); try reflexivity.
    change (es_valido_de rec a) with false. cbv iota.
    change (razon_texto_de E rec a) with (u8 "Error: " ++ e).
    eexists. split; [reflexivity|]. split; reflexivity.
  - vm_compute. reflexivity.
  - intros x t Hx Hp Hs. unfold validar.
    assert (Htxt : limpiar_texto E t = fallback t).
    { unfold limpiar_texto.
      destruct (repair_json E t) as [[| | | | |[|y ys]|d0]|];
        try reflexivity; discriminate Hs. }
    assert (Hf : limpiar_respuesta_ia E x = fallback t).
    { unfold limpiar_respuesta_ia.
      destruct x as [v|raw jd texto].
      - destruct v; try (now elim Hx); now rewrite Hp.
      - now rewrite Hp. }
    rewrite Hf. apply tarjeta_fallback.
Qed.

(** X13, witness: a text in which the repair finds nothing. *)
Lemma sin_estructura_no_aprueba_witness :
  exists c,
    render_tarjeta externos_ejemplo
      (validar externos_ejemplo true
         (inl (Data (VStr (u8 "El plan es correcto y queda **aprobado**."))))) = Ok c
    /\ t_decision c <> Aprobada
    /\ t_farmaco c = u8 "Ver texto"
    /\ t_dosis c = u8 "-".
Proof.
  apply (proj2 (proj2 (proj2 (sin_estructura_no_aprueba externos_ejemplo)))
           (Data (VStr (u8 "El plan es correcto y queda **aprobado**.")))
           (u8 "El plan es correcto y queda **aprobado**.")).
  - discriminate.
  - reflexivity.
  - vm_compute. reflexivity.
Defined.

End TarjetaExtra.

(* ====================================================================== *)
(** ** Properties of the login *)
(* ====================================================================== *)

Module DictLemas.

Import Lemas.

Lemma str_eqb_sym (a b : str) : str_eqb a b = str_eqb b a.
Proof.
  apply bool_eq_iff. rewrite !str_eqb_eq. split; congruence.
Qed.

Lemma lookup_set_same (k : str) (v : value) (d : dict) :
  dict_lookup k (dict_set k v d) = Some v.
Proof.
  induction d as [|[k' v'] d IH]; cbn.
  - now rewrite str_eqb_refl.
  - destruct (str_eqb k k') eqn:He; cbn.
    + now rewrite str_eqb_refl.
    + now rewrite He.
Qed.

Lemma lookup_set_other (k k' : str) (v : value) (d : dict) :
  str_eqb k' k = false ->
  dict_lookup k' (dict_set k v d) = dict_lookup k' d.
Proof.
  intros Hk. induction d as [|[k0 v0] d IH]; cbn.
  - now rewrite Hk.
  - destruct (str_eqb k k0) eqn:He; cbn.
    + apply str_eqb_eq in He. subst k0. now rewrite Hk.
    + now rewrite IH.
Qed.

Lemma lookup_del_same (k : str) (d : dict) : dict_lookup k (dict_del k d) = None.
Proof.
  induction d as [|[k0 v0] d IH]; cbn; [reflexivity|].
  destruct (str_eqb k k0) eqn:He; cbn; [exact IH | now rewrite He].
Qed.

Lemma lookup_del_other (k k' : str) (d : dict) :
  str_eqb k' k = false ->
  dict_lookup k' (dict_del k d) = dict_lookup k' d.
Proof.
  intros Hk. unfold dict_del.
  induction d as [|[k0 v0] d IH]; cbn; [reflexivity|].
  destruct (str_eqb k k0) eqn:He; cbn.
  - apply str_eqb_eq in He. subst k0. now rewrite Hk.
  - now rewrite IH.
Qed.

Lemma has_lookup (k : str) (d : dict) :
  dict_has k d = false <-> dict_lookup k d = None.
Proof.
  unfold dict_has. destruct (dict_lookup k d); split; congruence.
Qed.

Lemma del_absent (k : str) (d : dict) : dict_lookup k d = None -> dict_del k d = d.
Proof.
  unfold dict_del.
  induction d as [|[k0 v0] d IH]; cbn; [reflexivity|].
  destruct (str_eqb k k0) eqn:He; [discriminate|].
  intros H. cbn. now rewrite IH.
Qed.

Lemma eq_str_eq (v : value) (s : str) : eq_str v s = true <-> v = VStr s.
Proof.
  destruct v; cbn; try (split; [discriminate | intros H; discriminate H]).
  rewrite str_eqb_eq. split; congruence.
Qed.

End DictLemas.

Module AuthProps.

Import Auth Lemas DictLemas.

Lemma claves_login_distintas :
  str_eqb (u8 "password_correct") (u8 "password") = false
  /\ str_eqb (u8 "password_correct") (u8 "username") = false
  /\ str_eqb (u8 "password") (u8 "username") = false
  /\ str_eqb (u8 "password") (u8 "password_correct") = false
  /\ str_eqb (u8 "username") (u8 "password_correct") = false
  /\ str_eqb (u8 "username") (u8 "password") = false.
Proof. repeat split; vm_compute; reflexivity. Qed.

(** X14.  With a user name and a password in the session, the login
    callback does not raise, and afterwards access is granted exactly
    when both are the text "admin".  On success the two credentials are
    deleted from the session; on failure they both stay in it, and the
    screen is the error message alone, without the form.  No other key of
    the session changes. *)
Theorem acceso_solo_admin (session_state : dict) (username password : value) :
  dict_lookup (u8 "username") session_state = Some username ->
  dict_lookup (u8 "password") session_state = Some password ->
  exists despues,
    password_entered session_state = Some despues
    /\ (fst (check_password despues) = true
        <-> username = VStr (u8 "admin") /\ password = VStr (u8 "admin"))
    /\ (fst (check_password despues) = true ->
        dict_has (u8 "password") despues = false
        /\ dict_has (u8 "username") despues = false)
    /\ (fst (check_password despues) = false ->
        dict_lookup (u8 "password") despues = Some password
        /\ dict_lookup (u8 "username") despues = Some username
        /\ check_password despues = (false, ErrorUsuario))
    /\ (forall k,
          str_eqb k (u8 "username") = false ->
          str_eqb k (u8 "password") = false ->
          str_eqb k (u8 "password_correct") = false ->
          dict_lookup k despues = dict_lookup k session_state).
Proof.
  intros Hu Hp.
  destruct claves_login_distintas as (C1 & C2 & C3 & C4 & C5 & C6).
  unfold password_entered. rewrite Hu.
  assert (Hfail :
    let despues := dict_set (u8 "password_correct") (VBool false) session_state in
    ~ (username = VStr (u8 "admin") /\ password = VStr (u8 "admin")) ->
    (fst (check_password despues) = true
        <-> username = VStr (u8 "admin") /\ password = VStr (u8 "admin"))
    /\ (fst (check_password despues) = true ->
        dict_has (u8 "password") despues = false
        /\ dict_has (u8 "username") despues = false)
    /\ (fst (check_password despues) = false ->
        dict_lookup (u8 "password") despues = Some password
        /\ dict_lookup (u8 "username") despues = Some username
        /\ check_password despues = (false, ErrorUsuario))
    /\ (forall k,
          str_eqb k (u8 "username") = false ->
          str_eqb k (u8 "password") = false ->
          str_eqb k (u8 "password_correct") = false ->
          dict_lookup k despues = dict_lookup k session_state)).
  { cbv zeta. intros Hno.
    assert (Hc : check_password
                   (dict_set (u8 "password_correct") (VBool false) session_state)
                 = (false, ErrorUsuario)).
    { unfold check_password. now rewrite lookup_set_same. }
    rewrite Hc. cbn [fst]. split; [|split; [|split]].
    - split; [discriminate | intros H; now elim Hno].
    - discriminate.
    - intros _. rewrite !lookup_set_other by assumption. now repeat split.
    - intros k _ _ Hk. now apply lookup_set_other. }
  destruct (eq_str username (u8 "admin")) eqn:Heu.
  - rewrite Hp. destruct (eq_str password (u8 "admin")) eqn:Hep.
    + apply eq_str_eq in Heu, Hep. subst username password.
      eexists. split; [reflexivity|].
      assert (Hc : check_password
                     (dict_del (u8 "username")
                        (dict_del (u8 "password")
                           (dict_set (u8 "password_correct") (VBool true)
                                     session_state)))
                   = (true, Acceso)).
      { unfold check_password.
        rewrite !lookup_del_other by assumption. now rewrite lookup_set_same. }
      rewrite Hc. cbn [fst]. split; [|split; [|split]].
      * now split.
      * intros _. split; apply has_lookup.
        -- rewrite lookup_del_other by assumption. apply lookup_del_same.
        -- apply lookup_del_same.
      * discriminate.
      * intros k K1 K2 K3.
        rewrite !lookup_del_other by assumption. now apply lookup_set_other.
    + eexists. split; [reflexivity|]. apply Hfail.
      intros [_ H]. apply eq_str_eq in H. congruence.
  - eexists. split; [reflexivity|]. apply Hfail.
    intros [H _]. apply eq_str_eq in H. congruence.
Qed.

(** X14, witness: "Admin" with a capital letter is refused, and the
    password typed stays in the session. *)
Lemma acceso_solo_admin_witness :
  exists despues,
    password_entered [ (u8 "username", VStr (u8 "Admin"));
                       (u8 "password", VStr (u8 "admin")) ] = Some despues
    /\ check_password despues = (false, ErrorUsuario)
    /\ dict_lookup (u8 "password") despues = Some (VStr (u8 "admin")).
Proof.
  destruct (acceso_solo_admin
              [ (u8 "username", VStr (u8 "Admin")); (u8 "password", VStr (u8 "admin")) ]
              (VStr (u8 "Admin")) (VStr (u8 "admin")) eq_refl eq_refl)
    as (despues & He & Hiff & _ & Hf & _).
  exists despues. split; [exact He|].
  assert (Hno : fst (check_password despues) = false).
  { destruct (fst (check_password despues)) eqn:Hc; [|reflexivity].
    destruct (proj1 Hiff eq_refl) as [Hc' _]. vm_compute in Hc'. discriminate Hc'. }
  destruct (Hf Hno) as (H1 & _ & H3). now split.
Defined.

(** X15.  The login callback raises [KeyError] exactly when the session
    has no user name, or has the user name "admin" and no password; with
    another user name a missing password is not noticed. *)
Theorem password_entered_key_error (session_state : dict) :
  password_entered session_state = None
  <-> dict_lookup (u8 "username") session_state = None
      \/ (dict_lookup (u8 "username") session_state = Some (VStr (u8 "admin"))
          /\ dict_lookup (u8 "password") session_state = None).
Proof.
  unfold password_entered.
  destruct (dict_lookup (u8 "username") session_state) as [u|] eqn:Hu.
  - destruct (eq_str u (u8 "admin")) eqn:He.
    + apply eq_str_eq in He. subst u.
      destruct (dict_lookup (u8 "password") session_state) as [p|] eqn:Hp.
      * destruct (eq_str p (u8 "admin")); split; try discriminate;
          intros [H | [_ H]]; discriminate H.
      * split; [intros _; right; now split | reflexivity].
    + split; [discriminate|].
      intros [H | [H _]]; [discriminate H|].
      injection H as H. apply eq_str_eq in H. congruence.
  - split; [now left | reflexivity].
Qed.

(** X16.  After [cerrar_sesion] the login form is shown and access is
    refused, whatever the session held; the other keys are kept, and
    closing twice is closing once. *)
Theorem cerrar_sesion_vuelve_al_login (session_state : dict) :
  check_password (cerrar_sesion session_state) = (false, Login)
  /\ (forall k,
        str_eqb k (u8 "password_correct") = false ->
        dict_lookup k (cerrar_sesion session_state) = dict_lookup k session_state)
  /\ cerrar_sesion (cerrar_sesion session_state) = cerrar_sesion session_state.
Proof.
  assert (Hl : dict_lookup (u8 "password_correct") (cerrar_sesion session_state) = None).
  { unfold cerrar_sesion.
    destruct (dict_has (u8 "password_correct") session_state) eqn:Hh.
    - apply lookup_del_same.
    - now apply has_lookup. }
  split; [|split].
  - unfold check_password. now rewrite Hl.
  - intros k Hk. unfold cerrar_sesion.
    destruct (dict_has (u8 "password_correct") session_state); [|reflexivity].
    now apply lookup_del_other.
  - unfold cerrar_sesion at 1.
    apply has_lookup in Hl. now rewrite Hl.
Qed.

End AuthProps.

(* ====================================================================== *)
(** ** Properties of the intake form *)
(* ====================================================================== *)

Module AltaProps.

Import UiAlta Lemas DictLemas.

Lemma opcion_anticuerpo (v : str) :
  In v opciones_anticuerpo -> v = u8 "Negativo (-)" \/ v = u8 "Positivo (+)".
Proof. intros [<- | [<- | []]]; auto. Qed.

(** The label over the options of the form. *)
Lemma etiqueta_opciones (t v1 v2 v3 v4 : str) :
  In t tipos_diagnostico ->
  In v1 opciones_anticuerpo -> In v2 opciones_anticuerpo ->
  In v3 opciones_anticuerpo -> In v4 opciones_anticuerpo ->
  let diag := diag_fin_de t (pos_de v1 v2 v3 v4) in
  contains (u8 "FR+") diag = str_eqb v1 (u8 "Positivo (+)")
  /\ contains (u8 "ACPA+") diag = str_eqb v2 (u8 "Positivo (+)")
  /\ contains (u8 "HLA-B27+") diag = str_eqb v3 (u8 "Positivo (+)")
  /\ contains (u8 "ANA+") diag = str_eqb v4 (u8 "Positivo (+)")
  /\ starts_with t diag = true.
Proof.
  intros Ht H1 H2 H3 H4.
  apply opcion_anticuerpo in H1, H2, H3, H4.
  cbn in Ht.
  destruct Ht as [<-|[<-|[<-|[<-|[<-|[<-|[]]]]]]];
    destruct H1 as [-> | ->]; destruct H2 as [-> | ->];
    destruct H3 as [-> | ->]; destruct H4 as [-> | ->];
    vm_compute; repeat split.
Qed.

(** X17.  The save button of the intake form hands a record over exactly
    when the chart number and the name are not empty (the chart number is
    looked at first).  For every choice the selectors offer, the
    diagnosis saved begins with the type chosen and names exactly the
    markers that are positive, and the uveitis risk saved is "Bajo"
    exactly when there is no history of uveitis and the ANAs are
    negative. *)
Theorem alta_guardada (n_pacientes : nat) (f : formulario) :
  ((exists pdata, guardar_click n_pacientes f = Guardado pdata)
   <-> nuevo_nhc f <> [] /\ new_nombre f <> [])
  /\ (nuevo_nhc f = [] ->
      guardar_click n_pacientes f
      = ErrorAlta (u8 "Falta el Número de Historia (NHC)."))
  /\ (forall pdata,
        guardar_click n_pacientes f = Guardado pdata ->
        In (tipo f) tipos_diagnostico ->
        In (val_fr f) opciones_anticuerpo -> In (val_acpa f) opciones_anticuerpo ->
        In (val_hla f) opciones_anticuerpo -> In (val_ana f) opciones_anticuerpo ->
        exists diag riesgo,
          dict_lookup (u8 "diagnostico") pdata = Some (VStr diag)
          /\ dict_lookup (u8 "riesgo_uveitis") pdata = Some (VStr riesgo)
          /\ starts_with (tipo f) diag = true
          /\ contains (u8 "FR+") diag = str_eqb (val_fr f) (u8 "Positivo (+)")
          /\ contains (u8 "ACPA+") diag = str_eqb (val_acpa f) (u8 "Positivo (+)")
          /\ contains (u8 "HLA-B27+") diag = str_eqb (val_hla f) (u8 "Positivo (+)")
          /\ contains (u8 "ANA+") diag = str_eqb (val_ana f) (u8 "Positivo (+)")
          /\ str_eqb riesgo (u8 "Bajo")
             = negb (historia_uveitis f)
               && str_eqb (val_ana f) (u8 "Negativo (-)")).
Proof.
  unfold guardar_click. split; [|split].
  - destruct (str_eqb (nuevo_nhc f) []) eqn:Hn.
    + apply str_eqb_eq in Hn. split; [intros [p Hp]; discriminate Hp|].
      intros [H _]. now elim H.
    + destruct (str_eqb (new_nombre f) []) eqn:Hm.
      * apply str_eqb_eq in Hm. split; [intros [p Hp]; discriminate Hp|].
        intros [_ H]. now elim H.
      * split; [|eauto]. intros _.
        split; intros H; rewrite H in *; discriminate.
  - intros ->. reflexivity.
  - intros pdata Hg Ht H1 H2 H3 H4.
    destruct (str_eqb (nuevo_nhc f) []); [discriminate Hg|].
    destruct (str_eqb (new_nombre f) []); [discriminate Hg|].
    injection Hg as <-.
    destruct (etiqueta_opciones _ _ _ _ _ Ht H1 H2 H3 H4) as (E1 & E2 & E3 & E4 & E5).
    do 2 eexists. split; [reflexivity|]. split; [reflexivity|].
    repeat (split; [assumption|]).
    unfold riesgo_de. apply opcion_anticuerpo in H4.
    destruct (historia_uveitis f); destruct H4 as [-> | ->]; vm_compute; reflexivity.
Qed.

Ltac en_lista := cbn; repeat (first [left; reflexivity | right]).

(** X17, witness: a polyarticular onset with FR and ANAs positive. *)
Lemma alta_guardada_witness :
  exists pdata diag riesgo,
    guardar_click 3 formulario_ejemplo = Guardado pdata
    /\ dict_lookup (u8 "diagnostico") pdata = Some (VStr diag)
    /\ dict_lookup (u8 "riesgo_uveitis") pdata = Some (VStr riesgo)
    /\ contains (u8 "FR+") diag = true
    /\ contains (u8 "ACPA+") diag = false
    /\ str_eqb riesgo (u8 "Bajo") = false.
Proof.
  destruct (proj2 (proj2 (alta_guardada 3 formulario_ejemplo)) _ eq_refl)
    as (diag & riesgo & Hd & Hr & _ & H1 & H2 & _ & _ & Hb);
    [en_lista | en_lista | en_lista | en_lista | en_lista |].
  eexists. exists diag, riesgo.
  split; [reflexivity|]. split; [exact Hd|]. split; [exact Hr|].
  split; [rewrite H1; vm_compute; reflexivity|].
  split; [rewrite H2; vm_compute; reflexivity|].
  rewrite Hb. vm_compute. reflexivity.
Defined.

End AltaProps.

(* ====================================================================== *)
(** ** Properties of the visit form *)
(* ====================================================================== *)

Module FormularioProps.

Import UiVisitaFormulario PatientBot Lemas DictLemas.

(** *** Attached documents *)

Lemma nombres_de_app (a b : list value) :
  nombres_de (a ++ b) =
  match nombres_de a, nombres_de b with
  | Some x, Some y => Some (x ++ y)
  | _, _ => None
  end.
Proof.
  induction a as [|f a IH]; cbn [app nombres_de].
  - now destruct (nombres_de b).
  - destruct (nombre_de f) as [n|]; [|reflexivity].
    rewrite IH. destruct (nombres_de a), (nombres_de b); reflexivity.
Qed.

Lemma nombre_en_lista (nombre : str) (ns : list value) :
  existsb (fun n => eq_str n nombre) ns = true <-> In (VStr nombre) ns.
Proof.
  rewrite existsb_exists. split.
  - intros [n [Hn He]]. apply eq_str_eq in He. now subst.
  - intros H. exists (VStr nombre). split; [exact H | now apply eq_str_eq].
Qed.

(** Files whose names are all attached already change nothing. *)
Lemma adjuntar_nada (uploaded_files : list upload) (a ns : list value) :
  nombres_de a = Some ns ->
  (forall uf, In uf uploaded_files -> In (VStr (uf_name uf)) ns) ->
  adjuntar uploaded_files a = Some a.
Proof.
  intros Hn. unfold adjuntar.
  induction uploaded_files as [|uf ufs IH]; intros Hin; [reflexivity|].
  cbn [fold_left adjuntar_uno]. rewrite Hn.
  assert (He : existsb (fun n => eq_str n (uf_name uf)) ns = true).
  { apply nombre_en_lista, Hin. now left. }
  rewrite He. apply IH. intros uf' H'. apply Hin. now right.
Qed.

Lemma adjuntar_extiende (uploaded_files : list upload) :
  forall (a ns : list value),
    nombres_de a = Some ns -> NoDup ns ->
    exists nuevos ns_nuevos,
      adjuntar uploaded_files a = Some (a ++ nuevos)
      /\ nombres_de nuevos = Some ns_nuevos
      /\ NoDup (ns ++ ns_nuevos)
      /\ (forall uf, In uf uploaded_files -> In (VStr (uf_name uf)) (ns ++ ns_nuevos)).
Proof.
  induction uploaded_files as [|uf ufs IH]; intros a ns Hn Hd.
  - exists [], []. rewrite !app_nil_r. repeat split; [assumption | contradiction].
  - unfold adjuntar. cbn [fold_left adjuntar_uno]. rewrite Hn.
    destruct (existsb (fun n => eq_str n (uf_name uf)) ns) eqn:He.
    + destruct (IH a ns Hn Hd) as (nuevos & nn & Ha & Hnn & Hnd & Hin).
      exists nuevos, nn. repeat split; try assumption.
      intros uf' [<- | H']; [|now apply Hin].
      apply in_or_app. left. now apply nombre_en_lista.
    + assert (Hn1 : nombres_de (a ++ [adjunto_de uf]) = Some (ns ++ [VStr (uf_name uf)])).
      { rewrite nombres_de_app, Hn. reflexivity. }
      assert (Hd1 : NoDup (ns ++ [VStr (uf_name uf)])).
      { apply NoDup_app; [exact Hd | repeat constructor; intros [] |].
        intros x Hx [<- | []]. apply nombre_en_lista in Hx. congruence. }
      destruct (IH _ _ Hn1 Hd1) as (nuevos & nn & Ha & Hnn & Hnd & Hin).
      exists (adjunto_de uf :: nuevos), (VStr (uf_name uf) :: nn).
      rewrite <- !app_assoc in *. cbn [app] in *.
      repeat split.
      * exact Ha.
      * cbn [nombres_de nombre_de adjunto_de]. now rewrite Hnn.
      * exact Hnd.
      * intros uf' [<- | H']; [|now apply Hin].
        apply in_or_app. right. now left.
Qed.

(** X18.  Attaching files to a list of attachments whose names are all
    different keeps what was attached, in place, and adds at its end one
    record for each new name; the names stay all different, every
    uploaded name is then attached, a file whose name was attached
    already is left out whatever it holds, and attaching the same files
    again changes nothing. *)
Theorem adjuntar_sin_repetir (uploaded_files : list upload) (a ns : list value) :
  nombres_de a = Some ns -> NoDup ns ->
  exists nuevos ns_nuevos,
    adjuntar uploaded_files a = Some (a ++ nuevos)
    /\ nombres_de (a ++ nuevos) = Some (ns ++ ns_nuevos)
    /\ NoDup (ns ++ ns_nuevos)
    /\ (forall uf, In uf uploaded_files -> In (VStr (uf_name uf)) (ns ++ ns_nuevos))
    /\ (forall uf, In uf uploaded_files -> In (VStr (uf_name uf)) ns ->
                   ~ In (VStr (uf_name uf)) ns_nuevos)
    /\ adjuntar uploaded_files (a ++ nuevos) = Some (a ++ nuevos).
Proof.
  intros Hn Hd.
  destruct (adjuntar_extiende uploaded_files a ns Hn Hd)
    as (nuevos & nn & Ha & Hnn & Hnd & Hin).
  assert (Hall : nombres_de (a ++ nuevos) = Some (ns ++ nn))
    by (now rewrite nombres_de_app, Hn, Hnn).
  exists nuevos, nn. repeat split; try assumption.
  - intros uf _ H1 H2.
    apply NoDup_app_remove_l in Hnd as Hnn'.
    clear Hnn'. revert H1 H2. clear - Hnd.
    induction ns as [|x ns IH]; [contradiction|].
    intros [<- | H1] H2.
    + cbn in Hnd. apply NoDup_cons_iff in Hnd as [Hx _].
      apply Hx, in_or_app. now right.
    + cbn in Hnd. apply NoDup_cons_iff in Hnd as [_ Hnd]. now apply IH.
  - now apply adjuntar_nada with (ns ++ nn).
Qed.

(** X18, witness: a second file named like the first is left out. *)
Lemma adjuntar_sin_repetir_witness :
  exists nuevos ns_nuevos,
    adjuntar [upload_ejemplo] [adjunto_ejemplo] = Some ([adjunto_ejemplo] ++ nuevos)
    /\ nombres_de ([adjunto_ejemplo] ++ nuevos)
       = Some ([VStr (u8 "analitica.pdf")] ++ ns_nuevos)
    /\ NoDup ([VStr (u8 "analitica.pdf")] ++ ns_nuevos)
    /\ (forall uf, In uf [upload_ejemplo] ->
                   In (VStr (uf_name uf)) ([VStr (u8 "analitica.pdf")] ++ ns_nuevos))
    /\ (forall uf, In uf [upload_ejemplo] ->
                   In (VStr (uf_name uf)) [VStr (u8 "analitica.pdf")] ->
                   ~ In (VStr (uf_name uf)) ns_nuevos)
    /\ adjuntar [upload_ejemplo] ([adjunto_ejemplo] ++ nuevos)
       = Some ([adjunto_ejemplo] ++ nuevos).
Proof.
  apply (adjuntar_sin_repetir [upload_ejemplo] [adjunto_ejemplo]
           [VStr (u8 "analitica.pdf")] eq_refl).
  repeat constructor. intros [].
Defined.

(** *** Adverse effects *)

(** X19.  With the list of effects in the session, the add button does
    not raise: it leaves the session as it was when no effect is chosen
    and the description is empty, and otherwise appends the new entry
    after the entries already there; no other key changes, and the visit
    built from the session carries the list as it then stands, in its
    order. *)
Theorem efecto_anadido_al_final
        (fecha tipo_med : str) (efectos_sel : list str)
        (descripcion_efecto gravedad : str) (session_state : dict)
        (efectos : list value) :
  dict_lookup (u8 "efectos_visita") session_state = Some (VList efectos) ->
  exists despues,
    anadir_efecto fecha tipo_med efectos_sel descripcion_efecto gravedad
                  session_state = Some despues
    /\ (efectos_sel = [] -> descripcion_efecto = [] -> despues = session_state)
    /\ (efectos_sel <> [] \/ descripcion_efecto <> [] ->
        dict_lookup (u8 "efectos_visita") despues
        = Some (VList (efectos ++ [nuevo_efecto fecha tipo_med efectos_sel
                                               descripcion_efecto gravedad])))
    /\ (forall k,
          str_eqb k (u8 "efectos_visita") = false ->
          dict_lookup k despues = dict_lookup k session_state)
    /\ (forall fecha_hoy data plan_input curso archivos_guardados,
          dict_lookup (u8 "efectos_adversos")
            (nueva_visita fecha_hoy data plan_input curso archivos_guardados despues)
          = dict_lookup (u8 "efectos_visita") despues).
Proof.
  intros Hl. unfold anadir_efecto. rewrite Hl.
  assert (Hv : forall ss l fecha_hoy data plan_input curso archivos_guardados,
             dict_lookup (u8 "efectos_visita") ss = Some l ->
             dict_lookup (u8 "efectos_adversos")
               (nueva_visita fecha_hoy data plan_input curso archivos_guardados ss)
             = Some l).
  { intros ss l f d p c ar H. unfold nueva_visita, get_or. now rewrite H. }
  destruct efectos_sel as [|e es].
  - destruct (str_eqb descripcion_efecto []) eqn:Hd; cbn [orb negb].
    + eexists. split; [reflexivity|]. split; [reflexivity|].
      split; [|split; [reflexivity|]].
      * apply str_eqb_eq in Hd. intros [H | H]; now elim H.
      * intros. rewrite Hl. now apply Hv.
    + eexists. split; [reflexivity|]. split; [|split; [|split]].
      * intros _ ->. discriminate Hd.
      * intros _. apply lookup_set_same.
      * intros k Hk. now apply lookup_set_other.
      * intros. rewrite lookup_set_same. apply Hv, lookup_set_same.
  - cbn [orb]. eexists. split; [reflexivity|]. split; [|split; [|split]].
    + discriminate.
    + intros _. apply lookup_set_same.
    + intros k Hk. now apply lookup_set_other.
    + intros. rewrite lookup_set_same. apply Hv, lookup_set_same.
Qed.

(** X19, witness: a second effect goes after the first. *)
Lemma efecto_anadido_al_final_witness :
  exists despues,
    anadir_efecto (u8 "2025-01-15") (u8 "AINEs") [u8 "Náuseas"] [] (u8 "Leve")
      [ (u8 "efectos_visita",
         VList [ nuevo_efecto (u8 "2025-01-15") (u8 "Otro") [] (u8 "Mareo") (u8 "Leve") ]) ]
    = Some despues
    /\ dict_lookup (u8 "efectos_visita") despues
       = Some (VList [ nuevo_efecto (u8 "2025-01-15") (u8 "Otro") [] (u8 "Mareo") (u8 "Leve");
                       nuevo_efecto (u8 "2025-01-15") (u8 "AINEs") [u8 "Náuseas"] []
                                    (u8 "Leve") ]).
Proof.
  destruct (efecto_anadido_al_final (u8 "2025-01-15") (u8 "AINEs") [u8 "Náuseas"] []
              (u8 "Leve")
              [ (u8 "efectos_visita",
                 VList [ nuevo_efecto (u8 "2025-01-15") (u8 "Otro") [] (u8 "Mareo")
                                      (u8 "Leve") ]) ]
              [ nuevo_efecto (u8 "2025-01-15") (u8 "Otro") [] (u8 "Mareo") (u8 "Leve") ]
              eq_refl)
    as (despues & Ha & _ & Hb & _).
  exists despues. split; [exact Ha|]. apply Hb. left. discriminate.
Defined.

(** *** What stays in the session *)

Lemma paso_cancelar_otra (ss : dict) (k k' : str) :
  str_eqb k' k = false ->
  dict_lookup k' (paso_cancelar ss k) = dict_lookup k' ss.
Proof.
  intros H. unfold paso_cancelar.
  destruct (dict_has k ss); [now apply lookup_del_other | reflexivity].
Qed.

Lemma paso_cancelar_none (ss : dict) (k k' : str) :
  dict_lookup k' ss = None -> dict_lookup k' (paso_cancelar ss k) = None.
Proof.
  intros H. unfold paso_cancelar. destruct (dict_has k ss); [|exact H].
  destruct (str_eqb k' k) eqn:He.
  - apply str_eqb_eq in He. subst. apply lookup_del_same.
  - now rewrite lookup_del_other.
Qed.

Lemma bucle_cancelar_otra (claves : list str) (ss : dict) (k' : str) :
  str_in k' claves = false ->
  dict_lookup k' (fold_left paso_cancelar claves ss) = dict_lookup k' ss.
Proof.
  revert ss. induction claves as [|k claves IH]; intros ss H; [reflexivity|].
  cbn in H. apply orb_false_iff in H as [Hk H].
  cbn [fold_left]. rewrite (IH _ H). now apply paso_cancelar_otra.
Qed.

Lemma bucle_cancelar_none (claves : list str) (ss : dict) (k' : str) :
  dict_lookup k' ss = None ->
  dict_lookup k' (fold_left paso_cancelar claves ss) = None.
Proof.
  revert ss. induction claves as [|k claves IH]; intros ss H; [exact H|].
  cbn [fold_left]. apply IH. now apply paso_cancelar_none.
Qed.

Lemma bucle_cancelar_borra (claves : list str) (ss : dict) (k' : str) :
  In k' claves ->
  dict_lookup k' (fold_left paso_cancelar claves ss) = None.
Proof.
  revert ss. induction claves as [|k claves IH]; intros ss H; [contradiction|].
  cbn [fold_left]. destruct H as [-> | H]; [|now apply IH].
  apply bucle_cancelar_none. unfold paso_cancelar.
  destruct (dict_has k' ss) eqn:Hh; [apply lookup_del_same | now apply has_lookup].
Qed.

Lemma lookup_cancelar (ss : dict) (k : str) :
  str_in k (u8 "modo_visita" :: claves_visita) = false ->
  dict_lookup k (cancelar ss) = dict_lookup k ss.
Proof.
  intros H. cbn [str_in existsb] in H. apply orb_false_iff in H as [Hm H].
  unfold cancelar.
  rewrite (bucle_cancelar_otra claves_visita _ k H).
  now apply lookup_set_other.
Qed.

(** X20.  Cancelling a visit deletes the five keys of the visit and
    nothing else: the adverse effects and the attachments recorded so far
    stay in the session.  Saving empties the attachments and keeps the
    effects.  In both cases the effects are not set up again for the next
    visit of the session, whatever its data, and the visit then built
    carries them. *)
Theorem efectos_quedan_en_sesion (session_state : dict) (efectos : value) :
  dict_lookup (u8 "efectos_visita") session_state = Some efectos ->
  (forall k, In k claves_visita -> dict_has k (cancelar session_state) = false)
  /\ dict_lookup (u8 "efectos_visita") (cancelar session_state) = Some efectos
  /\ dict_lookup (u8 "archivos_subidos") (cancelar session_state)
     = dict_lookup (u8 "archivos_subidos") session_state
  /\ dict_lookup (u8 "efectos_visita") (cerrar_guardado session_state) = Some efectos
  /\ dict_lookup (u8 "archivos_subidos") (cerrar_guardado session_state)
     = Some (VList [])
  /\ (forall despues,
        despues = cancelar session_state \/ despues = cerrar_guardado session_state ->
        forall data fecha_hoy plan_input curso archivos_guardados,
          iniciar_efectos data despues = Some despues
          /\ dict_lookup (u8 "efectos_adversos")
               (nueva_visita fecha_hoy data plan_input curso archivos_guardados despues)
             = Some efectos).
Proof.
  intros He.
  assert (Hc : dict_lookup (u8 "efectos_visita") (cancelar session_state) = Some efectos).
  { rewrite lookup_cancelar; [exact He | vm_compute; reflexivity]. }
  assert (Hg : dict_lookup (u8 "efectos_visita") (cerrar_guardado session_state)
               = Some efectos).
  { unfold cerrar_guardado.
    rewrite !lookup_set_other by (vm_compute; reflexivity). exact He. }
  split; [|split; [|split; [|split; [|split]]]]; try assumption.
  - intros k Hk. apply has_lookup. unfold cancelar.
    now apply bucle_cancelar_borra.
  - apply lookup_cancelar. vm_compute. reflexivity.
  - unfold cerrar_guardado.
    rewrite lookup_set_other by (vm_compute; reflexivity). apply lookup_set_same.
  - intros despues Hd data fecha_hoy plan_input curso archivos_guardados.
    assert (Hl : dict_lookup (u8 "efectos_visita") despues = Some efectos)
      by (destruct Hd as [-> | ->]; assumption).
    split.
    + unfold iniciar_efectos. now rewrite (lookup_has _ _ _ Hl).
    + unfold nueva_visita, get_or. now rewrite Hl.
Qed.

(** X20, witness: an effect recorded in a visit that is then cancelled. *)
Lemma efectos_quedan_en_sesion_witness :
  dict_lookup (u8 "efectos_visita")
    (cancelar [ (u8 "visita_step", VInt 2);
                (u8 "efectos_visita",
                 VList [ nuevo_efecto (u8 "2025-01-15") (u8 "Otro") [] (u8 "Mareo")
                                      (u8 "Leve") ]) ])
  = Some (VList [ nuevo_efecto (u8 "2025-01-15") (u8 "Otro") [] (u8 "Mareo") (u8 "Leve") ]).
Proof.
  apply (efectos_quedan_en_sesion
           [ (u8 "visita_step", VInt 2);
             (u8 "efectos_visita",
              VList [ nuevo_efecto (u8 "2025-01-15") (u8 "Otro") [] (u8 "Mareo")
                                   (u8 "Leve") ]) ]
           (VList [ nuevo_efecto (u8 "2025-01-15") (u8 "Otro") [] (u8 "Mareo")
                                 (u8 "Leve") ]) eq_refl).
Defined.

End FormularioProps.

(* ====================================================================== *)
(** ** The chatbot reads back what the visit form saves *)
(* ====================================================================== *)

Module GuardarProps.

Import UiVisitaFormulario PatientBot Lemas DictLemas.

(** A text without the separator is one piece. *)
Lemma split_aux_sin_sep (sep : str) (b cur : str) :
  sep <> [] -> contains sep b = false ->
  split_aux sep 0 cur b = [rev cur ++ b].
Proof.
  intros Hs. revert cur. induction b as [|x t IH]; intros cur Hc.
  - cbn. now rewrite app_nil_r.
  - cbn [contains] in Hc. apply orb_false_iff in Hc as [Hst Hc].
    cbn [split_aux]. rewrite Hst. rewrite (IH _ Hc). cbn [rev].
    now rewrite <- app_assoc.
Qed.

(** The characters of the separator just found are passed over. *)
Lemma split_aux_skip (sep w s cur : str) :
  split_aux sep (List.length w) cur (w ++ s) = split_aux sep 0 cur s.
Proof.
  induction w as [|x w IH]; [reflexivity|]. exact IH.
Qed.

Lemma last_cons_no_vacia {A : Type} (x d : A) (l : list A) :
  l <> [] -> last (x :: l) d = last l d.
Proof. destruct l; [intros H; now elim H | reflexivity]. Qed.

Lemma split_aux_no_vacia (sep : str) (s : str) :
  forall skip cur, split_aux sep skip cur s <> [].
Proof.
  induction s as [|x t IH]; intros skip cur; cbn [split_aux]; [discriminate|].
  destruct skip; [|apply IH].
  destruct (starts_with sep (x :: t)); [discriminate | apply IH].
Qed.

(** After the last separator.  The first character [c] of the separator
    does not occur again in it, so two occurrences never overlap. *)
Lemma last_split_aux (c : N) (resto b : str) :
  forallb (fun x => negb (x =? c)%N) resto = true ->
  contains (c :: resto) b = false ->
  forall (a : str) (skip : nat) (cur : str),
    forallb (fun x => negb (x =? c)%N)
            (firstn skip (a ++ (c :: resto) ++ b)) = true ->
    last (split_aux (c :: resto) skip cur (a ++ (c :: resto) ++ b)) [] = b.
Proof.
  intros Hr Hb. induction a as [|x a IH]; intros skip cur Hk.
  - cbn [app] in *. destruct skip as [|k].
    + cbn [split_aux].
      assert (Hst : starts_with (c :: resto) (c :: resto ++ b) = true)
        by (apply starts_with_iff; now exists b).
      rewrite Hst. cbn [List.length]. rewrite Nat.sub_succ, Nat.sub_0_r.
      rewrite split_aux_skip.
      rewrite split_aux_sin_sep by (assumption || discriminate). reflexivity.
    + cbn [firstn forallb] in Hk. rewrite N.eqb_refl in Hk. discriminate Hk.
  - cbn [app]. destruct skip as [|k].
    + cbn [split_aux].
      match goal with
      | |- context [starts_with ?p ?s] => destruct (starts_with p s) eqn:Hst
      end.
      * rewrite last_cons_no_vacia by apply split_aux_no_vacia.
        apply IH. cbn [starts_with] in Hst.
        apply andb_true_iff in Hst as [_ Hst].
        apply starts_with_iff in Hst as [t Ht].
        change ((c :: resto) ++ b) with (c :: resto ++ b). rewrite Ht.
        cbn [List.length]. rewrite Nat.sub_succ, Nat.sub_0_r.
        rewrite firstn_app, Nat.sub_diag, firstn_all. cbn [firstn].
        now rewrite app_nil_r.
      * apply IH. reflexivity.
    + cbn [split_aux]. apply IH.
      cbn [app firstn forallb] in Hk. now apply andb_true_iff in Hk as [_ Hk].
Qed.

(** What follows the last plan marker of a text that ends with the
    marker and a text without marker. *)
Lemma tras_ultimo_marcador (a b : str) :
  contains (u8 "PLAN:") b = false ->
  last (split (u8 "PLAN:") (a ++ u8 "PLAN:" ++ b)) [] = b.
Proof.
  intros Hb. unfold split.
  change (u8 "PLAN:") with (80%N :: u8 "LAN:") in *.
  apply last_split_aux; [vm_compute; reflexivity | exact Hb | reflexivity].
Qed.

Lemma strip_blanco (s : str) : strip (32%N :: s) = strip s.
Proof. reflexivity. Qed.

Lemma app_forma (x y final : str) :
  (exists antes, y = antes ++ final) -> exists antes, x ++ y = antes ++ final.
Proof. intros [antes ->]. exists (x ++ antes). now rewrite app_assoc. Qed.

Section Guardar.

Variable py_repr : value -> str.

(** The course is some text, the plan marker, a blank and the plan. *)
Lemma curso_clinico_forma (fecha_hoy : str) (data : dict) (arts_str plan_input : str) :
  exists antes,
    curso_clinico py_repr fecha_hoy data arts_str plan_input
    = antes ++ u8 "PLAN:" ++ 32%N :: plan_input.
Proof.
  unfold curso_clinico. cbv zeta.
  replace (u8 "
PLAN: ") with ([10%N] ++ u8 "PLAN:" ++ [32%N]) by (vm_compute; reflexivity).
  generalize (u8 "PLAN:") as marcador. intros marcador.
  do 14 apply app_forma.
  exists [10%N]. rewrite <- !app_assoc. reflexivity.
Qed.

Lemma curso_del_plan (fecha_hoy : str) (data : dict) (arts_str plan_input : str) :
  contains (u8 "PLAN:") plan_input = false ->
  literal_in (u8 "PLAN:")
    (VStr (curso_clinico py_repr fecha_hoy data arts_str plan_input)) = Ok true
  /\ tras_marcador (u8 "PLAN:")
       (VStr (curso_clinico py_repr fecha_hoy data arts_str plan_input))
     = Ok (VStr (strip plan_input)).
Proof.
  intros Hp.
  destruct (curso_clinico_forma fecha_hoy data arts_str plan_input) as [antes ->].
  split.
  - cbn [literal_in]. f_equal. apply contains_iff. now exists antes, (32%N :: plan_input).
  - cbn [tras_marcador]. rewrite tras_ultimo_marcador.
    + now rewrite strip_blanco.
    + cbn [contains]. rewrite Hp. reflexivity.
Qed.

End Guardar.

Lemma nueva_visita_plan (fecha_hoy : str) (data : dict) (plan_input curso : str)
      (archivos_guardados : list str) (session_state : dict) :
  dict_lookup (u8 "plan_tratamiento")
    (nueva_visita fecha_hoy data plan_input curso archivos_guardados session_state)
  = Some (VStr plan_input).
Proof. vm_compute. reflexivity. Qed.

Lemma nueva_visita_curso (fecha_hoy : str) (data : dict) (plan_input curso : str)
      (archivos_guardados : list str) (session_state : dict) :
  dict_lookup (u8 "curso_clinico_generado")
    (nueva_visita fecha_hoy data plan_input curso archivos_guardados session_state)
  = Some (VStr curso).
Proof. vm_compute. reflexivity. Qed.

Lemma solo_curso_plan (curso : str) :
  dict_lookup (u8 "plan_tratamiento") [ (u8 "curso_clinico_generado", VStr curso) ]
  = None.
Proof. vm_compute. reflexivity. Qed.

Lemma solo_curso_curso (curso : str) :
  dict_lookup (u8 "curso_clinico_generado") [ (u8 "curso_clinico_generado", VStr curso) ]
  = Some (VStr curso).
Proof. vm_compute. reflexivity. Qed.

(** X21.  The plan of the visit that the form saves is what the chatbot
    takes as the last plan, for every plan text typed and whatever the
    earlier history holds (an empty plan is found empty through the
    clinical course).  And from the clinical course alone, as of a record
    that has no [plan_tratamiento], the chatbot recovers the plan typed,
    trimmed, when that plan does not itself hold the marker "PLAN:". *)
Theorem plan_guardado_se_lee
        (py_repr : value -> str) (fecha_hoy : str) (data : dict)
        (plan_input : str) (archivos_guardados : list str)
        (session_state : dict) (historial : list value) :
  (forall visita,
      visita_guardada py_repr fecha_hoy data plan_input archivos_guardados
                      session_state = Some visita ->
      ultimo_plan_de (historial ++ [VDict visita]) = Ok (VStr plan_input))
  /\ (forall arts_str,
        contains (u8 "PLAN:") plan_input = false ->
        ultimo_plan_de
          (historial
             ++ [VDict [ (u8 "curso_clinico_generado",
                          VStr (curso_clinico py_repr fecha_hoy data arts_str
                                              plan_input)) ]])
        = Ok (VStr (strip plan_input))).
Proof.
  split.
  - intros visita Hv. unfold visita_guardada in Hv.
    destruct (unir_articulaciones (get_or data (u8 "arts_activas") (VList [])))
      as [arts_str|]; [|discriminate Hv].
    injection Hv as <-.
    rewrite MedicacionExtra.ultimo_plan_de_ultima.
    unfold ultimo_plan_de. cbn [last]. unfold get_or.
    rewrite nueva_visita_plan, nueva_visita_curso.
    destruct plan_input as [|c p]; [|reflexivity].
    cbn [truthy str_eqb negb].
    destruct (curso_del_plan py_repr fecha_hoy data arts_str [] eq_refl) as [H1 H2].
    now rewrite H1, H2.
  - intros arts_str Hp.
    rewrite MedicacionExtra.ultimo_plan_de_ultima.
    unfold ultimo_plan_de. cbn [last]. unfold get_or.
    rewrite solo_curso_plan, solo_curso_curso.
    cbn [truthy str_eqb negb].
    destruct (curso_del_plan py_repr fecha_hoy data arts_str plan_input Hp) as [H1 H2].
    now rewrite H1, H2.
Qed.

(** X21, witness: a plan read back from the clinical course. *)
Lemma plan_guardado_se_lee_witness :
  ultimo_plan_de
    [ VDict [ (u8 "curso_clinico_generado",
               VStr (curso_clinico (fun _ => []) (u8 "2025-01-15")
                       [ (u8 "peso", VInt 30); (u8 "anamnesis", VStr (u8 "Mejoría")) ]
                       (u8 "rodilla_dcha") (u8 "Metotrexato 15 mg semanal "))) ] ]
  = Ok (VStr (u8 "Metotrexato 15 mg semanal")).
Proof.
  apply (proj2 (plan_guardado_se_lee (fun _ => []) (u8 "2025-01-15")
                  [ (u8 "peso", VInt 30); (u8 "anamnesis", VStr (u8 "Mejoría")) ]
                  (u8 "Metotrexato 15 mg semanal ") [] [] []) (u8 "rodilla_dcha")).
  vm_compute. reflexivity.
Defined.

End GuardarProps.

(* ====================================================================== *)
(** ** Properties of the weight and height histories *)
(* ====================================================================== *)

Module BiometriaProps.

Import UiVisitaFormulario VocabularioBiometria Lemas DictLemas.

Lemma anotar_historial_snd (clave fecha_hoy : str) (v : value) (paciente : dict) :
  snd (anotar_historial clave fecha_hoy v paciente) = historial_escribible clave paciente.
Proof.
  unfold anotar_historial, historial_escribible, dict_has, get, get_or.
  destruct (dict_lookup clave paciente) as [w|] eqn:Hl.
  - rewrite Hl. now destruct w.
  - now rewrite lookup_set_same.
Qed.

Lemma anotar_historial_clave (clave fecha_hoy : str) (v : value) (paciente : dict) :
  historial_escribible clave paciente = true ->
  dict_lookup clave (fst (anotar_historial clave fecha_hoy v paciente))
  = Some (VDict (dict_set fecha_hoy v (historial_de clave paciente))).
Proof.
  unfold anotar_historial, historial_escribible, historial_de, dict_has, get, get_or.
  destruct (dict_lookup clave paciente) as [w|] eqn:Hl.
  - rewrite Hl. destruct w; try discriminate. intros _. cbn [fst].
    apply lookup_set_same.
  - intros _. rewrite lookup_set_same. cbn [fst]. apply lookup_set_same.
Qed.

Lemma anotar_historial_otra (clave fecha_hoy k : str) (v : value) (paciente : dict) :
  str_eqb k clave = false ->
  dict_lookup k (fst (anotar_historial clave fecha_hoy v paciente))
  = dict_lookup k paciente.
Proof.
  intros Hk.
  unfold anotar_historial, dict_has, get, get_or.
  destruct (dict_lookup clave paciente) as [w|] eqn:Hl.
  - rewrite Hl. destruct w; cbn [fst]; try reflexivity.
    now apply lookup_set_other.
  - rewrite lookup_set_same. cbn [fst].
    rewrite !lookup_set_other by exact Hk. reflexivity.
Qed.

Lemma escribible_otra (clave k : str) (v : value) (paciente : dict) :
  str_eqb clave k = false ->
  historial_escribible clave (dict_set k v paciente)
  = historial_escribible clave paciente.
Proof.
  intros Hk. unfold historial_escribible. now rewrite lookup_set_other.
Qed.

Lemma escribible_tras_anotar (clave clave' fecha_hoy : str) (v : value) (paciente : dict) :
  str_eqb clave clave' = false ->
  historial_escribible clave (fst (anotar_historial clave' fecha_hoy v paciente))
  = historial_escribible clave paciente.
Proof.
  intros Hk. unfold historial_escribible. now rewrite anotar_historial_otra.
Qed.

Lemma lookup_set (k k' : str) (v : value) (d : dict) :
  dict_lookup k' (dict_set k v d)
  = if str_eqb k' k then Some v else dict_lookup k' d.
Proof.
  destruct (str_eqb k' k) eqn:He.
  - apply str_eqb_eq in He. subst. apply lookup_set_same.
  - now apply lookup_set_other.
Qed.

(** X22.  A visit saved with a weight above zero and no height (missing,
    or zero) does not raise when the weight history of the patient is
    missing or a dict, and then: [peso_actual] is the new weight, the
    weight history holds the new weight under today's date and, under
    every other date, what it held before, and every other key of the
    patient is as it was. *)
Theorem peso_anotado_en_historial (fecha_hoy : str) (data paciente : dict) :
  mayor_que_cero (get data (u8 "peso")) = Some true ->
  truthy (get data (u8 "talla")) = false ->
  historial_escribible (u8 "historial_peso") paciente = true ->
  exists despues historial,
    actualizar_biometria fecha_hoy data paciente = (despues, true)
    /\ dict_lookup (u8 "peso_actual") despues = Some (get data (u8 "peso"))
    /\ dict_lookup (u8 "historial_peso") despues = Some (VDict historial)
    /\ (forall fecha,
          dict_lookup fecha historial
          = if str_eqb fecha fecha_hoy then Some (get data (u8 "peso"))
            else dict_lookup fecha (historial_de (u8 "historial_peso") paciente))
    /\ (forall k,
          str_eqb k (u8 "peso_actual") = false ->
          str_eqb k (u8 "historial_peso") = false ->
          dict_lookup k despues = dict_lookup k paciente).
Proof.
  intros Hp Ht Hh.
  unfold actualizar_biometria. rewrite Hp, Ht.
  set (peso := get data (u8 "peso")).
  set (p1 := dict_set (u8 "peso_actual") peso paciente).
  assert (Hh1 : historial_escribible (u8 "historial_peso") p1 = true).
  { unfold p1. rewrite escribible_otra; [exact Hh | vm_compute; reflexivity]. }
  assert (Hd : historial_de (u8 "historial_peso") p1
               = historial_de (u8 "historial_peso") paciente).
  { unfold historial_de, p1. rewrite lookup_set_other; [reflexivity|].
    vm_compute; reflexivity. }
  pose proof (anotar_historial_snd (u8 "historial_peso") fecha_hoy peso p1) as Hs.
  pose proof (anotar_historial_clave (u8 "historial_peso") fecha_hoy peso p1 Hh1) as Hc.
  pose proof (fun k => anotar_historial_otra (u8 "historial_peso") fecha_hoy k peso p1) as Ho.
  rewrite Hh1 in Hs. rewrite Hd in Hc.
  destruct (anotar_historial (u8 "historial_peso") fecha_hoy peso p1) as [despues ok].
  cbn [fst snd] in Hs, Hc, Ho. subst ok.
  exists despues, (dict_set fecha_hoy peso (historial_de (u8 "historial_peso") paciente)).
  split; [reflexivity|]. split; [|split; [exact Hc|split]].
  - rewrite Ho by (vm_compute; reflexivity). unfold p1. apply lookup_set_same.
  - intros fecha. apply lookup_set.
  - intros k Hk1 Hk2. rewrite Ho by exact Hk2. unfold p1.
    now apply lookup_set_other.
Qed.

(** X22, witness: the patient with two weights on file and a visit with
    weight 32 and height 0. *)
Lemma peso_anotado_en_historial_witness :
  exists despues historial,
    actualizar_biometria (u8 "2024-05-20") datos_ejemplo paciente_ejemplo
    = (despues, true)
    /\ dict_lookup (u8 "peso_actual") despues = Some (get datos_ejemplo (u8 "peso"))
    /\ dict_lookup (u8 "historial_peso") despues = Some (VDict historial)
    /\ (forall fecha,
          dict_lookup fecha historial
          = if str_eqb fecha (u8 "2024-05-20") then Some (get datos_ejemplo (u8 "peso"))
            else dict_lookup fecha (historial_de (u8 "historial_peso") paciente_ejemplo))
    /\ (forall k,
          str_eqb k (u8 "peso_actual") = false ->
          str_eqb k (u8 "historial_peso") = false ->
          dict_lookup k despues = dict_lookup k paciente_ejemplo).
Proof.
  apply (peso_anotado_en_historial (u8 "2024-05-20") datos_ejemplo paciente_ejemplo);
    vm_compute; reflexivity.
Defined.

(** X23.  Saving the weight and the height raises in these cases and no
    other: the weight does not compare with a number (it is missing, a
    string, a list); the weight is above zero and the patient keeps
    something that is not a dict under [historial_peso]; the height is
    truthy and does not compare with a number; the height is above zero
    and the patient keeps something that is not a dict under
    [historial_talla]. *)
Theorem biometria_sin_excepcion (fecha_hoy : str) (data paciente : dict) :
  snd (actualizar_biometria fecha_hoy data paciente) = true
  <-> exists peso_positivo,
        mayor_que_cero (get data (u8 "peso")) = Some peso_positivo
        /\ (peso_positivo = true ->
            historial_escribible (u8 "historial_peso") paciente = true)
        /\ (truthy (get data (u8 "talla")) = true ->
            exists talla_positiva,
              mayor_que_cero (get data (u8 "talla")) = Some talla_positiva
              /\ (talla_positiva = true ->
                  historial_escribible (u8 "historial_talla") paciente = true)).
Proof.
  unfold actualizar_biometria.
  set (peso := get data (u8 "peso")). set (talla := get data (u8 "talla")).
  destruct (mayor_que_cero peso) as [bp|] eqn:Hp.
  2:{ split; [discriminate|]. intros [b [H _]]. discriminate H. }
  assert (Hkeys : str_eqb (u8 "historial_talla") (u8 "historial_peso") = false
                  /\ str_eqb (u8 "historial_talla") (u8 "peso_actual") = false
                  /\ str_eqb (u8 "historial_talla") (u8 "talla") = false
                  /\ str_eqb (u8 "historial_talla") (u8 "talla_actual") = false)
    by (vm_compute; repeat split; reflexivity).
  destruct Hkeys as (K1 & K2 & K3 & K4).
  assert (Hkp : str_eqb (u8 "historial_peso") (u8 "peso_actual") = false)
    by (vm_compute; reflexivity).
  (* The weight. *)
  set (r := if bp
            then anotar_historial (u8 "historial_peso") fecha_hoy peso
                   (dict_set (u8 "peso_actual") peso paciente)
            else (paciente, true)).
  assert (Hr : snd r = (if bp then historial_escribible (u8 "historial_peso") paciente
                        else true)
               /\ historial_escribible (u8 "historial_talla") (fst r)
                  = historial_escribible (u8 "historial_talla") paciente).
  { unfold r. destruct bp; cbn [fst snd]; [|split; reflexivity]. split.
    - rewrite anotar_historial_snd. now apply escribible_otra.
    - rewrite escribible_tras_anotar by exact K1. now apply escribible_otra. }
  destruct Hr as [Hr1 Hr2].
  destruct r as [p1 ok]. cbn [fst snd] in Hr1, Hr2. subst ok.
  destruct bp.
  - destruct (historial_escribible (u8 "historial_peso") paciente) eqn:Hh.
    2:{ cbn [snd]. split; [discriminate|].
        intros [b [Hb [H _]]]. injection Hb as <-. discriminate (H eq_refl). }
    destruct (truthy talla) eqn:Ht.
    + destruct (mayor_que_cero talla) as [[|]|] eqn:Hm.
      * rewrite anotar_historial_snd, !escribible_otra, Hr2 by assumption.
        split.
        -- intros H. exists true. repeat split; try assumption.
           intros _. exists true. split; [reflexivity | intros _; exact H].
        -- intros [b [_ [_ H]]]. destruct (H eq_refl) as [bt [Hbt Hok]].
           injection Hbt as <-. now apply Hok.
      * cbn [snd]. split; [|reflexivity]. intros _. exists true.
        repeat split; try assumption. intros _. exists false.
        split; [reflexivity | discriminate].
      * cbn [snd]. split; [discriminate|].
        intros [b [_ [_ H]]]. destruct (H eq_refl) as [bt [Hbt _]]. discriminate Hbt.
    + cbn [snd]. split; [|reflexivity]. intros _. exists true.
      repeat split; try assumption. discriminate.
  - destruct (truthy talla) eqn:Ht.
    + destruct (mayor_que_cero talla) as [[|]|] eqn:Hm.
      * rewrite anotar_historial_snd, !escribible_otra, Hr2 by assumption.
        split.
        -- intros H. exists false. repeat split; try discriminate.
           intros _. exists true. split; [reflexivity | intros _; exact H].
        -- intros [b [_ [_ H]]]. destruct (H eq_refl) as [bt [Hbt Hok]].
           injection Hbt as <-. now apply Hok.
      * cbn [snd]. split; [|reflexivity]. intros _. exists false.
        repeat split; try discriminate. intros _. exists false.
        split; [reflexivity | discriminate].
      * cbn [snd]. split; [discriminate|].
        intros [b [_ [_ H]]]. destruct (H eq_refl) as [bt [Hbt _]]. discriminate Hbt.
    + cbn [snd]. split; [|reflexivity]. intros _. exists false.
      repeat split; try discriminate.
Qed.

End BiometriaProps.
